(** * Relationship consistency of the dance-school backend

    A shallow embedding of the request handlers that maintain the
    Group / Student / Parent references
    ([backend/routes/groups.js], [backend/routes/students.js]) over an
    explicit document store, and the properties of the specification
    that concern them.

    Conventions of the embedding.
    - A JavaScript string is the list of its UTF-16 code units.
    - An [ObjectId] is a number; fresh ids come from a counter kept in the
      store, so a new document never reuses an id.
    - A collection is the list of its documents in insertion order;
      [findOne] and [findById] return the first match.  [_id] is unique in
      a collection, and a write addressed by [_id] is applied to every
      document carrying it.
    - Schema options of the models are part of the store operations:
      [trim] and [lowercase] setters run when a document is written and
      when a filter value on that path is cast, [required] is checked when
      a document is validated.  Documents already stored are taken to
      satisfy the [required] constraints of the paths a handler does not
      assign.
    - A loaded document is a copy: [updateOne] writes the stored document
      and not the copy, and [save()] writes the paths of the copy that
      were assigned a value other than the loaded one. *)

From Stdlib Require Import Ascii String.
From Stdlib Require Import List NArith ZArith Bool Lia Arith.
Import ListNotations.

Set Implicit Arguments.

(** ** JavaScript strings *)

Module JsString.

Definition char16 := N.
Definition jsstring := list char16.

Definition jsstring_eqb (a b : jsstring) : bool :=
  if list_eq_dec N.eq_dec a b then true else false.

(** [WhiteSpace] and [LineTerminator] code points: the class [\s] of a
    regular expression, and what [String.prototype.trim] strips. *)
Definition is_space (c : char16) : bool :=
  ((9 <=? c) && (c <=? 13) || (c =? 32) || (c =? 160) || (c =? 5760)
   || (8192 <=? c) && (c <=? 8202) || (c =? 8232) || (c =? 8233)
   || (c =? 8239) || (c =? 8287) || (c =? 12288) || (c =? 65279))%N.

Fixpoint trimStart (s : jsstring) : jsstring :=
  match s with
  | [] => []
  | c :: r => if is_space c then trimStart r else s
  end.

Definition trimEnd (s : jsstring) : jsstring := rev (trimStart (rev s)).

Definition trim (s : jsstring) : jsstring := trimEnd (trimStart s).

(** [s.split(/\s+/)]: every maximal run of white space is one separator;
    a separator at either end of [s] leaves an empty piece there, and the
    empty string splits into one empty piece. *)
Fixpoint split_piece (piece : jsstring) (s : jsstring) : list jsstring :=
  match s with
  | [] => [piece]
  | c :: r =>
      if is_space c then piece :: split_sep r
      else split_piece (piece ++ [c]) r
  end
with split_sep (s : jsstring) : list jsstring :=
  match s with
  | [] => [[]]
  | c :: r => if is_space c then split_sep r else split_piece [c] r
  end.

Definition split_ws (s : jsstring) : list jsstring := split_piece [] s.

(** A string that does not start, or does not end, with white space. *)
Definition hd_ok (s : jsstring) : bool :=
  match s with
  | [] => true
  | c :: _ => negb (is_space c)
  end.

Definition ends_ok (s : jsstring) : bool := hd_ok (rev s).

(** [parts.join(' ')] *)
Fixpoint join_sp (parts : list jsstring) : jsstring :=
  match parts with
  | [] => []
  | [p] => p
  | p :: rest => p ++ 32%N :: join_sp rest
  end.

(** Code units of a literal written in Basic Latin. *)
Fixpoint lit (s : string) : jsstring :=
  match s with
  | EmptyString => []
  | String a r => N_of_ascii a :: lit r
  end.

(** [toLowerCase] on the Basic Latin letters, other code units kept; the
    instance used to run the handlers on concrete requests. *)
Definition lower_unit (c : char16) : char16 :=
  if ((65 <=? c) && (c <=? 90))%N then (c + 32)%N else c.

Definition latin_lower (s : jsstring) : jsstring := map lower_unit s.

End JsString.
Import JsString.

(** ** Documents and the store *)

Module Store.

Definition ObjectId := N.

Definition mem (x : ObjectId) (l : list ObjectId) : bool :=
  existsb (N.eqb x) l.

(** [$pull] and [$addToSet] on an array of ids. *)
Definition pull (x : ObjectId) (l : list ObjectId) : list ObjectId :=
  filter (fun y => negb (N.eqb y x)) l.

Definition addToSet (x : ObjectId) (l : list ObjectId) : list ObjectId :=
  if mem x l then l else l ++ [x].

(** The elements of [new Set(l)] in insertion order. *)
Fixpoint dedup (l : list ObjectId) : list ObjectId :=
  match l with
  | [] => []
  | x :: r => x :: pull x (dedup r)
  end.

Fixpoint filter_some {A : Type} (l : list (option A)) : list A :=
  match l with
  | [] => []
  | Some x :: r => x :: filter_some r
  | None :: r => filter_some r
  end.

Definition ids_eqb (a b : list ObjectId) : bool :=
  if list_eq_dec N.eq_dec a b then true else false.

Definition opt_id_eqb (a b : option ObjectId) : bool :=
  match a, b with
  | Some x, Some y => N.eqb x y
  | None, None => true
  | _, _ => false
  end.

Definition opt_str_eqb (a b : option jsstring) : bool :=
  match a, b with
  | Some x, Some y => jsstring_eqb x y
  | None, None => true
  | _, _ => false
  end.

Definition is_empty (s : jsstring) : bool :=
  match s with [] => true | _ => false end.

Definition nonempty (p : jsstring) : bool := negb (is_empty p).

Definition is_nil {A : Type} (l : list A) : bool :=
  match l with [] => true | _ => false end.

(** models/Group.js *)
Record Group := mkGroup {
  g_id : ObjectId;
  g_name : jsstring;
  g_location : jsstring;
  g_description : option jsstring;
  g_teachers : list ObjectId;
  g_students : list ObjectId;
  g_parents : list ObjectId }.

(** models/Student.js *)
Record Student := mkStudent {
  s_id : ObjectId;
  s_firstName : jsstring;
  s_lastName : jsstring;
  s_age : Z;
  s_group : option ObjectId;
  s_parent : option ObjectId;
  s_parentName : option jsstring;
  s_parentEmail : jsstring }.

(** models/Parent.js; [firstName] and [lastName] are optional paths. *)
Record Parent := mkParent {
  p_id : ObjectId;
  p_firstName : option jsstring;
  p_lastName : option jsstring;
  p_email : jsstring;
  p_phone : option jsstring;
  p_students : list ObjectId }.

Record Store := mkStore {
  groups : list Group;
  students : list Student;
  parents : list Parent;
  next_id : ObjectId }.

Definition with_groups (gs : list Group) (st : Store) : Store :=
  mkStore gs (students st) (parents st) (next_id st).
Definition with_students (ss : list Student) (st : Store) : Store :=
  mkStore (groups st) ss (parents st) (next_id st).
Definition with_parents (ps : list Parent) (st : Store) : Store :=
  mkStore (groups st) (students st) ps (next_id st).

Definition set_g_students (l : list ObjectId) (g : Group) : Group :=
  mkGroup (g_id g) (g_name g) (g_location g) (g_description g)
          (g_teachers g) l (g_parents g).
Definition set_g_parents (l : list ObjectId) (g : Group) : Group :=
  mkGroup (g_id g) (g_name g) (g_location g) (g_description g)
          (g_teachers g) (g_students g) l.
Definition set_g_name (n : jsstring) (g : Group) : Group :=
  mkGroup (g_id g) n (g_location g) (g_description g)
          (g_teachers g) (g_students g) (g_parents g).
Definition set_g_location (n : jsstring) (g : Group) : Group :=
  mkGroup (g_id g) (g_name g) n (g_description g)
          (g_teachers g) (g_students g) (g_parents g).
Definition set_g_description (d : option jsstring) (g : Group) : Group :=
  mkGroup (g_id g) (g_name g) (g_location g) d
          (g_teachers g) (g_students g) (g_parents g).

Definition set_s_group (gr : option ObjectId) (s : Student) : Student :=
  mkStudent (s_id s) (s_firstName s) (s_lastName s) (s_age s) gr
            (s_parent s) (s_parentName s) (s_parentEmail s).

Definition set_p_names (fn ln : option jsstring) (p : Parent) : Parent :=
  mkParent (p_id p) fn ln (p_email p) (p_phone p) (p_students p).
Definition set_p_students (l : list ObjectId) (p : Parent) : Parent :=
  mkParent (p_id p) (p_firstName p) (p_lastName p) (p_email p) (p_phone p) l.

(** *** Queries *)

Definition Group_findById (id : ObjectId) (st : Store) : option Group :=
  find (fun g => N.eqb (g_id g) id) (groups st).

Definition Student_findById (id : ObjectId) (st : Store) : option Student :=
  find (fun s => N.eqb (s_id s) id) (students st).

Definition Parent_findById (id : ObjectId) (st : Store) : option Parent :=
  find (fun p => N.eqb (p_id p) id) (parents st).

(** [Student.find({ _id: { $in: ids } })] *)
Definition Student_find_in (ids : list ObjectId) (st : Store) : list Student :=
  filter (fun s => mem (s_id s) ids) (students st).

(** [Student.find({ group })] *)
Definition Student_find_group (gid : ObjectId) (st : Store) : list Student :=
  filter (fun s => opt_id_eqb (s_group s) (Some gid)) (students st).

(** [Student.countDocuments({ group, parent })] *)
Definition Student_count_group_parent (gid pid : ObjectId) (st : Store) : nat :=
  length (filter (fun s => opt_id_eqb (s_group s) (Some gid)
                           && opt_id_eqb (s_parent s) (Some pid))
                 (students st)).

(** [Student.countDocuments({ parent })] *)
Definition Student_count_parent (pid : ObjectId) (st : Store) : nat :=
  length (filter (fun s => opt_id_eqb (s_parent s) (Some pid)) (students st)).

(** [Group.countDocuments({ parents: pid })] *)
Definition Group_count_parent (pid : ObjectId) (st : Store) : nat :=
  length (filter (fun g => mem pid (g_parents g)) (groups st)).

(** *** Writes addressed by [_id] *)

Definition Group_update (id : ObjectId) (f : Group -> Group) (st : Store) : Store :=
  with_groups (map (fun g => if N.eqb (g_id g) id then f g else g) (groups st)) st.

Definition Student_update (id : ObjectId) (f : Student -> Student) (st : Store)
  : Store :=
  with_students
    (map (fun s => if N.eqb (s_id s) id then f s else s) (students st)) st.

Definition Parent_update (id : ObjectId) (f : Parent -> Parent) (st : Store)
  : Store :=
  with_parents
    (map (fun p => if N.eqb (p_id p) id then f p else p) (parents st)) st.

(** [Group.updateOne({ _id }, { $pull: { students } })] and its siblings *)
Definition Group_pull_student (gid sid : ObjectId) : Store -> Store :=
  Group_update gid (fun g => set_g_students (pull sid (g_students g)) g).
Definition Group_add_student (gid sid : ObjectId) : Store -> Store :=
  Group_update gid (fun g => set_g_students (addToSet sid (g_students g)) g).
Definition Group_pull_parent (gid pid : ObjectId) : Store -> Store :=
  Group_update gid (fun g => set_g_parents (pull pid (g_parents g)) g).
Definition Group_add_parent (gid pid : ObjectId) : Store -> Store :=
  Group_update gid (fun g => set_g_parents (addToSet pid (g_parents g)) g).

(** [student.group = v; await student.save()] of a stored student *)
Definition Student_save_group (sid : ObjectId) (v : option ObjectId)
  : Store -> Store :=
  Student_update sid (set_s_group v).

Definition Parent_deleteOne (pid : ObjectId) (st : Store) : Store :=
  with_parents (filter (fun p => negb (N.eqb (p_id p) pid)) (parents st)) st.

Definition Student_deleteOne (sid : ObjectId) (st : Store) : Store :=
  with_students (filter (fun s => negb (N.eqb (s_id s) sid)) (students st)) st.

(** [Student.deleteMany({ group })] *)
Definition Student_deleteMany_group (gid : ObjectId) (st : Store) : Store :=
  with_students
    (filter (fun s => negb (opt_id_eqb (s_group s) (Some gid))) (students st))
    st.

Definition Group_deleteOne (gid : ObjectId) (st : Store) : Store :=
  with_groups (filter (fun g => negb (N.eqb (g_id g) gid)) (groups st)) st.

End Store.
Import Store.

(** ** HTTP side *)

Inductive Role := role_admin | role_teacher | role_student | role_parent.

Definition is_admin (r : Role) : bool :=
  match r with role_admin => true | _ => false end.

(** [res.status(c).json({ success: true, data })] and
    [res.status(c).json({ success: false, message })] *)
Inductive Response (A : Type) : Type :=
| Json (status : nat) (data : A)
| Fail (status : nat) (message : string).
Arguments Json {A} status data.
Arguments Fail {A} status message.

Definition status_of {A : Type} (r : Response A) : nat :=
  match r with
  | Json c _ => c
  | Fail c _ => c
  end.

(** ** Helpers shared by the routes *)

Record NameParts := mkNameParts {
  firstName : jsstring;
  lastName : jsstring;
  fullName : jsstring }.

Definition Lapsevanem : jsstring := lit "Lapsevanem".

Definition default_name : NameParts := mkNameParts Lapsevanem [] Lapsevanem.

(** [normalizeParentName] (groups.js 11-35, students.js 119-143).  [None]
    is a missing name; the empty string is falsy as well. *)
Definition normalizeParentName (name : option jsstring) : NameParts :=
  match name with
  | None => default_name
  | Some [] => default_name
  | Some name =>
      let cleaned := trim name in
      if is_empty cleaned then default_name
      else
        match split_ws cleaned with
        | [] => mkNameParts Lapsevanem [] cleaned
        | first :: parts =>
            mkNameParts (if is_empty first then Lapsevanem else first)
                        (match parts with [] => [] | _ => join_sp parts end)
                        cleaned
        end
  end.

(** [ensureParentInGroup] of groups.js: only the parent id is guarded. *)
Definition ensureParentInGroup (groupId : ObjectId) (parentId : option ObjectId)
  (st : Store) : Store :=
  match parentId with
  | None => st
  | Some pid => Group_add_parent groupId pid st
  end.

(** [ensureParentInGroup] of students.js: both ids are guarded. *)
Definition ensureParentInGroup' (groupId parentId : option ObjectId)
  (st : Store) : Store :=
  match groupId, parentId with
  | Some gid, Some pid => Group_add_parent gid pid st
  | _, _ => st
  end.

(** [removeParentFromGroupIfUnused], the same in both files. *)
Definition removeParentFromGroupIfUnused (groupId parentId : option ObjectId)
  (st : Store) : Store :=
  match groupId, parentId with
  | Some gid, Some pid =>
      if Nat.eqb (Student_count_group_parent gid pid st) 0
      then Group_pull_parent gid pid st
      else st
  | _, _ => st
  end.

Section Handlers.

(** [String.prototype.toLowerCase], left abstract. *)
Variable toLowerCase : jsstring -> jsstring.

(** The setters of an email path ([lowercase: true, trim: true]). *)
Definition email_setter (s : jsstring) : jsstring := trim (toLowerCase s).

(** [Parent.findOne({ email })]; the filter value is cast by the path. *)
Definition Parent_findOne_email (email : jsstring) (st : Store) : option Parent :=
  find (fun p => jsstring_eqb (p_email p) (email_setter email)) (parents st).

(** [Parent.create({ firstName, lastName, email })]; [None] when the
    validation of the required email fails. *)
Definition Parent_create (fn ln email : jsstring) (st : Store)
  : option (Parent * Store) :=
  let e := email_setter email in
  if is_empty e then None
  else
    let doc := mkParent (next_id st) (Some (trim fn)) (Some (trim ln)) e None [] in
    Some (doc, mkStore (groups st) (students st) (parents st ++ [doc])
                       (N.succ (next_id st))).

(** [doc.save()] of a loaded parent whose names were assigned ([Some] is
    an assigned path); [None] when the document is no longer stored. *)
Definition Parent_save_names (pid : ObjectId) (fn ln : option jsstring)
  (st : Store) : option Store :=
  match Parent_findById pid st with
  | None => None
  | Some _ =>
      Some (Parent_update pid
              (fun p => set_p_names
                          (match fn with Some v => Some (trim v)
                                       | None => p_firstName p end)
                          (match ln with Some v => Some (trim v)
                                       | None => p_lastName p end) p) st)
  end.

(** *** PATCH /api/groups/:id/full (groups.js 271-473) *)

Record ParentItem := mkParentItem {
  pi_email : option jsstring;
  pi_name : option jsstring }.

(** The body.  A missing or non-array [studentIds] or [parents] is the
    empty list; a falsy entry of [studentIds] is [None]. *)
Record FullPatch := mkFullPatch {
  fp_name : option jsstring;
  fp_location : option jsstring;
  fp_description : option jsstring;
  fp_studentIds : list (option ObjectId);
  fp_parents : list ParentItem }.

Definition requestedStudentIds (studentIds : list (option ObjectId))
  : list ObjectId :=
  dedup (filter_some studentIds).

(** lines 290-298, on the loaded document *)
Definition assign_fields (body : FullPatch) (group : Group) : Group :=
  let g1 := match fp_name body with
            | Some n => set_g_name (trim (trim n)) group
            | None => group end in
  let g2 := match fp_location body with
            | Some l => set_g_location (trim (trim l)) g1
            | None => g1 end in
  match fp_description body with
  | Some d => set_g_description (Some (trim d)) g2
  | None => g2
  end.

(** one turn of the loop over [toRemove] (lines 324-337) *)
Definition remove_student (gid : ObjectId) (st : Store) (studentId : ObjectId)
  : Store :=
  match Student_findById studentId st with
  | None => st
  | Some doc =>
      let parentId := s_parent doc in
      let st1 := Student_save_group (s_id doc) None st in
      let st2 := Group_pull_student gid (s_id doc) st1 in
      removeParentFromGroupIfUnused (Some gid) parentId st2
  end.

(** one turn of the loop over [toAssign] (lines 340-364) *)
Definition assign_student (gid : ObjectId) (st : Store) (studentId : ObjectId)
  : Store :=
  match Student_findById studentId st with
  | None => st
  | Some doc =>
      let previousGroupId := s_group doc in
      let st1 :=
        if negb (opt_id_eqb previousGroupId (Some gid)) then
          let st' :=
            match previousGroupId with
            | Some prev =>
                removeParentFromGroupIfUnused (Some prev) (s_parent doc)
                  (Group_pull_student prev (s_id doc) st)
            | None => st
            end in
          Student_save_group (s_id doc) (Some gid) st'
        else st in
      let st2 := Group_add_student gid (s_id doc) st1 in
      match s_parent doc with
      | Some pid => ensureParentInGroup gid (Some pid) st2
      | None => st2
      end
  end.

(** one turn of the loop that detaches everybody (lines 370-379) *)
Definition detach_student (gid : ObjectId) (st : Store) (studentId : ObjectId)
  : Store :=
  match Student_findById studentId st with
  | None => st
  | Some doc =>
      let parentId := s_parent doc in
      let st1 := Student_save_group (s_id doc) None st in
      removeParentFromGroupIfUnused (Some gid) parentId st1
  end.

(** lines 316-364: both loops, [group] being the document loaded at the
    start of the request *)
Definition replace_roster (group : Group) (requested : list ObjectId)
  (st : Store) : Store :=
  let currentStudentIds := g_students group in
  let toRemove := filter (fun id => negb (mem id requested)) currentStudentIds in
  let toAssign := requested in
  fold_left (assign_student (g_id group)) toAssign
    (fold_left (remove_student (g_id group)) toRemove st).

Definition detach_all (group : Group) (st : Store) : Store :=
  fold_left (detach_student (g_id group)) (g_students group) st.

(** lines 383-387 *)
Definition studentParentIds (gid : ObjectId) (st : Store) : list ObjectId :=
  dedup (filter_some (map s_parent (Student_find_group gid st))).

(** line 393 then 394: the normalised email, [None] when it is falsy *)
Definition item_email (item : ParentItem) : option jsstring :=
  match pi_email item with
  | None => None
  | Some e =>
      let email := trim (toLowerCase e) in
      if is_empty email then None else Some email
  end.

(** lines 401-425: find the parent of an entry or create it, and bring its
    names up to date; [None] when a write throws. *)
Definition resolve_parent (email : jsstring) (nameParts : NameParts)
  (st : Store) : option (ObjectId * Store) :=
  match Parent_findOne_email email st with
  | None =>
      match Parent_create (firstName nameParts) (lastName nameParts) email st with
      | Some (doc, st') => Some (p_id doc, st')
      | None => None
      end
  | Some parentDoc =>
      let fn :=
        if negb (is_empty (firstName nameParts))
           && negb (opt_str_eqb (p_firstName parentDoc)
                                (Some (firstName nameParts)))
        then Some (firstName nameParts) else None in
      let ln :=
        if negb (opt_str_eqb (p_lastName parentDoc) (Some (lastName nameParts)))
        then Some (lastName nameParts) else None in
      match fn, ln with
      | None, None => Some (p_id parentDoc, st)
      | _, _ =>
          match Parent_save_names (p_id parentDoc) fn ln st with
          | Some st' => Some (p_id parentDoc, st')
          | None => None
          end
      end
  end.

Inductive ParentsOutcome :=
| ParentsDone (parentIdsSet : list ObjectId) (st : Store)
| ParentsRejected (st : Store)
| ParentsThrew (st : Store).

(** the loop over [parentPayload] (lines 392-428) *)
Fixpoint resolve_parents (payload : list ParentItem)
  (parentIdsSet : list ObjectId) (st : Store) : ParentsOutcome :=
  match payload with
  | [] => ParentsDone parentIdsSet st
  | parentItem :: rest =>
      match item_email parentItem with
      | None => ParentsRejected st
      | Some email =>
          match resolve_parent email (normalizeParentName (pi_name parentItem)) st with
          | None => ParentsThrew st
          | Some (pid, st') => resolve_parents rest (addToSet pid parentIdsSet) st'
          end
      end
  end.

(** What [save()] leaves on a path of the stored document.  Mongoose
    tracks changes: assigning to a path the value it was loaded with does
    not mark it modified, and [save()] sends the modified paths only.  An
    unmodified path keeps what the store holds. *)
Definition save_path {A : Type} (eqb : A -> A -> bool)
  (loaded assigned stored : A) : A :=
  if eqb assigned loaded then stored else assigned.

(** [await group.save()] (line 440): [name] and [location] are required.
    [loaded] is the document as [findById] returned it and [doc] the same
    document with the values the handler assigned.  The [updateOne] calls
    of the loops wrote [students] and [parents] of the stored document
    meanwhile and not the loaded copy, so for these two paths the stored
    value can differ from the loaded one; [teachers] is never assigned. *)
Definition Group_save (loaded doc : Group) (st : Store) : option Store :=
  if is_empty (g_name doc) || is_empty (g_location doc) then None
  else
    Some (Group_update (g_id doc)
            (fun g =>
               mkGroup (g_id g)
                 (save_path jsstring_eqb (g_name loaded) (g_name doc)
                            (g_name g))
                 (save_path jsstring_eqb (g_location loaded) (g_location doc)
                            (g_location g))
                 (save_path opt_str_eqb (g_description loaded)
                            (g_description doc) (g_description g))
                 (g_teachers g)
                 (save_path ids_eqb (g_students loaded) (g_students doc)
                            (g_students g))
                 (save_path ids_eqb (g_parents loaded) (g_parents doc)
                            (g_parents g))) st).

(** one turn of the clean-up loop (lines 443-451) *)
Definition cleanup_parent (gid : ObjectId) (st : Store) (parentId : ObjectId)
  : Store :=
  let st1 := removeParentFromGroupIfUnused (Some gid) (Some parentId) st in
  let stillReferenced :=
    negb (Nat.eqb (Student_count_parent parentId st1) 0)
    || negb (Nat.eqb (Group_count_parent parentId st1) 0) in
  if stillReferenced then st1 else Parent_deleteOne parentId st1.

(** lines 305-314: every requested id must be found; nothing is checked
    when no id is requested *)
Definition roster_valid (requested : list ObjectId) (st : Store) : bool :=
  if is_nil requested then true
  else Nat.eqb (length (Student_find_in requested st)) (length requested).

(** lines 316-381 *)
Definition roster_phase (group : Group) (requested : list ObjectId)
  (st : Store) : Store :=
  if is_nil requested then detach_all group st
  else replace_roster group requested st.

Definition outcome_store (o : ParentsOutcome) : Store :=
  match o with
  | ParentsDone _ st => st
  | ParentsRejected st => st
  | ParentsThrew st => st
  end.

(** lines 383-428, from the store the roster loops left *)
Definition parents_phase (body : FullPatch) (gid : ObjectId) (st : Store)
  : ParentsOutcome :=
  resolve_parents (fp_parents body) (dedup (studentParentIds gid st)) st.

(** lines 430-466; [loaded] is the document as it was found, [group]
    the same document with the assigned fields and roster *)
Definition finish_patch (loaded group : Group) (parentIdsSet : list ObjectId)
  (st : Store) : Response (option Group) * Store :=
  let previousParentIds := g_parents group in
  let removedParentIds :=
    filter (fun id => negb (mem id parentIdsSet)) previousParentIds in
  match Group_save loaded (set_g_parents parentIdsSet group) st with
  | None => (Fail 500 "error", st)
  | Some st' =>
      let st'' := fold_left (cleanup_parent (g_id group)) removedParentIds st' in
      (Json 200 (Group_findById (g_id group) st''), st'')
  end.

Definition patch_full (role : Role) (id : ObjectId) (body : FullPatch)
  (st : Store) : Response (option Group) * Store :=
  if negb (is_admin role) then
    (Fail 403 "Not authorized to update groups", st)
  else
    match Group_findById id st with
    | None => (Fail 404 "Group not found", st)
    | Some loaded =>
        let group := assign_fields body loaded in
        let requested := requestedStudentIds (fp_studentIds body) in
        if negb (roster_valid requested st) then
          (Fail 400 "One or more students were not found", st)
        else
          let st1 := roster_phase group requested st in
          let group1 := set_g_students requested group in
          match parents_phase body (g_id group1) st1 with
          | ParentsRejected st2 =>
              (Fail 400 "Parent email is required for each parent entry", st2)
          | ParentsThrew st2 => (Fail 500 "error", st2)
          | ParentsDone parentIdsSet st2 =>
              finish_patch loaded group1 parentIdsSet st2
          end
    end.

(** *** POST /api/students (students.js 145-233) *)

(** The body of a student request; [None] is an absent field. *)
Record StudentBody := mkStudentBody {
  sb_firstName : option jsstring;
  sb_lastName : option jsstring;
  sb_age : option Z;
  sb_groupId : option ObjectId;
  sb_parentName : option jsstring;
  sb_parentEmail : option jsstring }.

(** a string field that is present and not empty *)
Definition truthy (v : option jsstring) : option jsstring :=
  match v with
  | Some [] => None
  | other => other
  end.

(** the [required] and [min] validators of models/Student.js *)
Definition Student_valid (doc : Student) : bool :=
  negb (is_empty (s_firstName doc)) && negb (is_empty (s_lastName doc))
  && (0 <=? s_age doc)%Z && negb (is_empty (s_parentEmail doc)).

Definition Student_create (fn ln : option jsstring) (age : option Z)
  (group : option ObjectId) (parentId : ObjectId) (parentName email : jsstring)
  (st : Store) : option (Student * Store) :=
  match fn, ln, age with
  | Some f, Some l, Some a =>
      let doc := mkStudent (next_id st) (trim f) (trim l) a group (Some parentId)
                           (Some (trim parentName)) (email_setter email) in
      if Student_valid doc then
        Some (doc, mkStore (groups st) (students st ++ [doc]) (parents st)
                           (N.succ (next_id st)))
      else None
  | _, _, _ => None
  end.

(** [doc.students.push(sid); await doc.save()] and
    [doc.students.pull(sid); await doc.save()] of a loaded parent *)
Definition Parent_save_push (pid sid : ObjectId) (st : Store) : option Store :=
  match Parent_findById pid st with
  | None => None
  | Some _ =>
      Some (Parent_update pid (fun p => set_p_students (p_students p ++ [sid]) p) st)
  end.

Definition Parent_save_pull (pid sid : ObjectId) (st : Store) : option Store :=
  match Parent_findById pid st with
  | None => None
  | Some _ =>
      Some (Parent_update pid (fun p => set_p_students (pull sid (p_students p)) p) st)
  end.

(** the names a handler assigns to a loaded parent before saving it;
    [lastName_guard] is the test put on the new last name *)
Definition changed_names (guard_first guard_last : bool) (parentDoc : Parent)
  (nameParts : NameParts) : option jsstring * option jsstring :=
  ((if guard_first
       && negb (opt_str_eqb (p_firstName parentDoc) (Some (firstName nameParts)))
    then Some (firstName nameParts) else None),
   (if guard_last
       && negb (opt_str_eqb (p_lastName parentDoc) (Some (lastName nameParts)))
    then Some (lastName nameParts) else None)).

Definition save_changed_names (pid : ObjectId)
  (ch : option jsstring * option jsstring) (st : Store) : option Store :=
  match ch with
  | (None, None) => Some st
  | (fn, ln) => Parent_save_names pid fn ln st
  end.

Definition post_student (role : Role) (body : StudentBody) (st : Store)
  : Response (option Student) * Store :=
  if negb (is_admin role) then
    (Fail 403 "Not authorized to create students", st)
  else
    match truthy (sb_parentEmail body) with
    | None => (Fail 400 "Parent email is required", st)
    | Some parentEmail =>
        match match sb_groupId body with
              | Some gid => Group_findById gid st
              | None => None
              end with
        | None => (Fail 404 "Group not found", st)
        | Some group =>
            let groupId := g_id group in
            let normalizedEmail := toLowerCase parentEmail in
            let nameParts := normalizeParentName (sb_parentName body) in
            let resolved :=
              match Parent_findOne_email normalizedEmail st with
              | None =>
                  Parent_create (firstName nameParts) (lastName nameParts)
                                normalizedEmail st
              | Some parentDoc =>
                  match save_changed_names (p_id parentDoc)
                          (changed_names
                             (negb (is_empty (firstName nameParts)))
                             (negb (is_empty (lastName nameParts)))
                             parentDoc nameParts) st with
                  | Some st' => Some (parentDoc, st')
                  | None => None
                  end
              end in
            match resolved with
            | None => (Fail 500 "error", st)
            | Some (parentDoc, st1) =>
                match Student_create (sb_firstName body) (sb_lastName body)
                        (sb_age body) (Some groupId) (p_id parentDoc)
                        (fullName nameParts) normalizedEmail st1 with
                | None => (Fail 500 "error", st1)
                | Some (doc, st2) =>
                    let st3 := Group_add_student groupId (s_id doc) st2 in
                    match (if negb (mem (s_id doc) (p_students parentDoc))
                           then Parent_save_push (p_id parentDoc) (s_id doc) st3
                           else Some st3) with
                    | None => (Fail 500 "error", st3)
                    | Some st4 =>
                        let st5 := ensureParentInGroup' (Some groupId)
                                     (Some (p_id parentDoc)) st4 in
                        (Json 201 (Student_findById (s_id doc) st5), st5)
                    end
                end
            end
        end
    end.

(** *** PUT /api/students/:id (students.js 238-403) *)

Inductive Outcome (A : Type) : Type :=
| Went (a : A) (st : Store)
| Threw (st : Store).
Arguments Went {A} a st.
Arguments Threw {A} st.

Definition set_s_parent (v : option ObjectId) (s : Student) : Student :=
  mkStudent (s_id s) (s_firstName s) (s_lastName s) (s_age s) (s_group s)
            v (s_parentName s) (s_parentEmail s).
Definition set_s_contact (name : option jsstring) (email : jsstring)
  (s : Student) : Student :=
  mkStudent (s_id s) (s_firstName s) (s_lastName s) (s_age s) (s_group s)
            (s_parent s) name email.
Definition set_s_person (fn ln : jsstring) (age : Z) (s : Student) : Student :=
  mkStudent (s_id s) fn ln age (s_group s) (s_parent s) (s_parentName s)
            (s_parentEmail s).

(** lines 257-267 *)
Definition assign_person (body : StudentBody) (doc : Student) : Student :=
  set_s_person
    (match sb_firstName body with Some v => trim v | None => s_firstName doc end)
    (match sb_lastName body with Some v => trim v | None => s_lastName doc end)
    (match sb_age body with Some v => v | None => s_age doc end)
    doc.

(** lines 305-330: the student gets another parent.  [currentParent] and
    the looked-up [nextParent] are two loaded copies, also when they are
    the same stored document. *)
Definition switch_parent (doc : Student) (currentParent : option Parent)
  (normalizedEmail : jsstring) (nameParts : NameParts) (st : Store)
  : Outcome (Student * Parent) :=
  match match Parent_findOne_email normalizedEmail st with
        | Some found => Some (found, st)
        | None => Parent_create (firstName nameParts) (lastName nameParts)
                                normalizedEmail st
        end with
  | None => Threw st
  | Some (nextParent, st1) =>
      match match currentParent with
            | None => Some st1
            | Some cur =>
                match Parent_save_pull (p_id cur) (s_id doc) st1 with
                | None => None
                | Some st' =>
                    Some (if is_nil (pull (s_id doc) (p_students cur))
                          then Parent_deleteOne (p_id cur) st' else st')
                end
            end with
      | None => Threw st1
      | Some st2 =>
          if negb (mem (s_id doc) (p_students nextParent)) then
            match Parent_save_push (p_id nextParent) (s_id doc) st2 with
            | None => Threw st2
            | Some st3 =>
                Went (set_s_parent (Some (p_id nextParent)) doc,
                      set_p_students (p_students nextParent ++ [s_id doc])
                                     nextParent) st3
            end
          else Went (set_s_parent (Some (p_id nextParent)) doc, nextParent) st2
      end
  end.

(** lines 296-367 *)
Definition update_parent (body : StudentBody) (doc : Student) (st : Store)
  : Outcome Student :=
  let currentParent :=
    match s_parent doc with
    | Some pid => Parent_findById pid st
    | None => None
    end in
  match truthy (sb_parentEmail body) with
  | Some parentEmail =>
      let normalizedEmail := toLowerCase parentEmail in
      let nameParts :=
        normalizeParentName
          (match truthy (sb_parentName body) with
           | Some n => Some n
           | None => s_parentName doc
           end) in
      let switched :=
        match currentParent with
        | Some cur =>
            if jsstring_eqb (p_email cur) normalizedEmail
            then Went (doc, Some cur) st
            else match switch_parent doc currentParent normalizedEmail nameParts st with
                 | Went (d, p) st' => Went (d, Some p) st'
                 | Threw st' => Threw st'
                 end
        | None =>
            match switch_parent doc None normalizedEmail nameParts st with
            | Went (d, p) st' => Went (d, Some p) st'
            | Threw st' => Threw st'
            end
        end in
      match switched with
      | Threw st' => Threw st'
      | Went (doc1, currentParent1) st1 =>
          match match currentParent1 with
                | None => Some st1
                | Some cur =>
                    save_changed_names (p_id cur)
                      (changed_names (negb (is_empty (firstName nameParts))) true
                                     cur nameParts) st1
                end with
          | None => Threw st1
          | Some st2 =>
              Went (set_s_contact (Some (trim (fullName nameParts)))
                                  (email_setter normalizedEmail) doc1) st2
          end
      end
  | None =>
      match truthy (sb_parentName body), currentParent with
      | Some parentName, Some cur =>
          let nameParts := normalizeParentName (Some parentName) in
          match save_changed_names (p_id cur)
                  (changed_names true true cur nameParts) st with
          | None => Threw st
          | Some st1 =>
              Went (set_s_contact (Some (trim (fullName nameParts)))
                                  (s_parentEmail doc) doc) st1
          end
      | _, _ => Went doc st
      end
  end.

(** [await student.save()] (line 369) *)
Definition Student_save (doc : Student) (st : Store) : option Store :=
  if Student_valid doc then
    match Student_findById (s_id doc) st with
    | None => None
    | Some _ => Some (Student_update (s_id doc) (fun _ => doc) st)
    end
  else None.

(** lines 371-387 *)
Definition settle_groups (doc : Student)
  (originalGroupId originalParentId : option ObjectId) (st : Store) : Store :=
  let st1 :=
    match s_parent doc with
    | Some pid => ensureParentInGroup' (s_group doc) (Some pid) st
    | None => st
    end in
  let st2 :=
    match originalGroupId with
    | Some og =>
        if negb (opt_id_eqb (s_group doc) (Some og))
        then removeParentFromGroupIfUnused (Some og) originalParentId st1
        else st1
    | None => st1
    end in
  match originalParentId with
  | Some op =>
      if negb (opt_id_eqb (s_parent doc) (Some op)) then
        let targetGroupId :=
          match s_group doc with
          | Some g => Some g
          | None => originalGroupId
          end in
        match targetGroupId with
        | Some tg => removeParentFromGroupIfUnused (Some tg) (Some op) st2
        | None => st2
        end
      else st2
  | None => st2
  end.

Definition put_student (role : Role) (id : ObjectId) (body : StudentBody)
  (st : Store) : Response (option Student) * Store :=
  if negb (is_admin role) then
    (Fail 403 "Not authorized to update students", st)
  else
    match Student_findById id st with
    | None => (Fail 404 "Student not found", st)
    | Some loaded =>
        let doc0 := assign_person body loaded in
        let originalGroupId := s_group loaded in
        let originalParentId := s_parent loaded in
        let moved :=
          match sb_groupId body with
          | Some groupId =>
              if negb (opt_id_eqb originalGroupId (Some groupId)) then
                match Group_findById groupId st with
                | None => None
                | Some _ =>
                    let st' :=
                      match originalGroupId with
                      | Some og => Group_pull_student og (s_id doc0) st
                      | None => st
                      end in
                    Some (set_s_group (Some groupId) doc0,
                          Group_add_student groupId (s_id doc0) st')
                end
              else Some (doc0, st)
          | None => Some (doc0, st)
          end in
        match moved with
        | None => (Fail 404 "Group not found", st)
        | Some (doc1, st1) =>
            match update_parent body doc1 st1 with
            | Threw st2 => (Fail 500 "error", st2)
            | Went doc2 st2 =>
                match Student_save doc2 st2 with
                | None => (Fail 500 "error", st2)
                | Some st3 =>
                    let st4 :=
                      settle_groups doc2 originalGroupId originalParentId st3 in
                    (Json 200 (Student_findById (s_id doc2) st4), st4)
                end
            end
        end
    end.

(** *** DELETE /api/students/:id (students.js 408-458) *)

Definition delete_student (role : Role) (id : ObjectId) (st : Store)
  : Response unit * Store :=
  if negb (is_admin role) then
    (Fail 403 "Not authorized to delete students", st)
  else
    match Student_findById id st with
    | None => (Fail 404 "Student not found", st)
    | Some doc =>
        let st1 :=
          match s_group doc with
          | Some gid => Group_pull_student gid (s_id doc) st
          | None => st
          end in
        match match s_parent doc with
              | None => Some st1
              | Some pid =>
                  match match Parent_findById pid st1 with
                        | None => Some st1
                        | Some parentDoc =>
                            match Parent_save_pull (p_id parentDoc) (s_id doc) st1 with
                            | None => None
                            | Some st' =>
                                Some (if is_nil (pull (s_id doc) (p_students parentDoc))
                                      then Parent_deleteOne (p_id parentDoc) st'
                                      else st')
                            end
                        end with
                  | None => None
                  | Some st2 =>
                      Some (removeParentFromGroupIfUnused (s_group doc) (Some pid) st2)
                  end
              end with
        | None => (Fail 500 "error", st1)
        | Some st3 => (Json 200 tt, Student_deleteOne (s_id doc) st3)
        end
    end.

(** *** DELETE /api/groups/:id (groups.js 543-576) *)

Definition delete_group (role : Role) (id : ObjectId) (st : Store)
  : Response unit * Store :=
  if negb (is_admin role) then
    (Fail 403 "Not authorized to delete groups", st)
  else
    match Group_findById id st with
    | None => (Fail 404 "Group not found", st)
    | Some group =>
        let st1 := Student_deleteMany_group (g_id group) st in
        (Json 200 tt, Group_deleteOne (g_id group) st1)
    end.

End Handlers.

(** ** The name rule as the specification words it *)

Module NameSpec.

(** The tokens of a string: its maximal runs of characters that are not
    white space. *)
Fixpoint tokens_from (cur : jsstring) (s : jsstring) : list jsstring :=
  match s with
  | [] => if is_empty cur then [] else [cur]
  | c :: r =>
      if is_space c then
        if is_empty cur then tokens_from [] r else cur :: tokens_from [] r
      else tokens_from (cur ++ [c]) r
  end.

Definition tokens (s : jsstring) : list jsstring := tokens_from [] s.

(** Tokens joined by a single space: the tokens in their order, with
    exactly one U+0020 between two neighbours and none before the first
    or after the last.  [spaced_after ts] is every token of [ts] with
    one space in front of it. *)
Fixpoint spaced_after (ts : list jsstring) : jsstring :=
  match ts with
  | [] => []
  | t :: r => [32%N] ++ t ++ spaced_after r
  end.

Definition single_spaced (ts : list jsstring) : jsstring :=
  match ts with
  | [] => []
  | t :: r => t ++ spaced_after r
  end.

(** First token and the other tokens joined by a single space, of the
    trimmed name; the placeholder when there is no token. *)
Definition names_of (rawName : option jsstring) : jsstring * jsstring :=
  match rawName with
  | None => (Lapsevanem, [])
  | Some s =>
      match tokens (trim s) with
      | [] => (Lapsevanem, [])
      | first :: others => (first, single_spaced others)
      end
  end.

(** ["  Jüri Tamm  "] *)
Definition Juri_Tamm_padded : jsstring :=
  [32; 32; 74; 252; 114; 105; 32; 84; 97; 109; 109; 32; 32]%N.
Definition Juri : jsstring := [74; 252; 114; 105]%N.
Definition Tamm : jsstring := lit "Tamm".

(** a name of four tokens, separated by two spaces, a tab and a space,
    and followed by a space *)
Definition Mari_Liis_Tamm_Saar : jsstring :=
  lit "Mari" ++ [32; 32]%N ++ lit "Liis" ++ [9]%N ++ lit "Tamm" ++ [32]%N
  ++ lit "Saar" ++ [32]%N.

End NameSpec.

(** Lowercasing and trimming an email twice is the same as once. *)
Definition normalises (toLowerCase : jsstring -> jsstring) : Prop :=
  forall s, email_setter toLowerCase (email_setter toLowerCase s)
            = email_setter toLowerCase s.

(** ** Views of the store used to state the properties *)

(** what a function [v] shows of every group *)
Definition gview {B : Type} (v : Group -> B) (st : Store) : list B :=
  map v (groups st).

(** the teachers of every group, and the roster of every group *)
Definition teachers_view : Store -> list (ObjectId * list ObjectId) :=
  gview (fun g => (g_id g, g_teachers g)).

Definition group_ids : Store -> list ObjectId := gview g_id.

Definition student_ids (st : Store) : list ObjectId := map s_id (students st).

(** a string without white space *)
Definition spaceless (t : jsstring) : bool :=
  forallb (fun c => negb (is_space c)) t.

(** names that the [trim] setter of the parent paths leaves as they are,
    with a first name that is not empty *)
Definition clean_names (np : NameParts) : Prop :=
  firstName np <> []
  /\ trim (firstName np) = firstName np
  /\ trim (lastName np) = lastName np.

(** ** Stores as the database keeps them *)

Definition parent_ids (st : Store) : list ObjectId := map p_id (parents st).

(** [_id] is unique in each collection, and the ids of the parents are
    older than the next fresh id. *)
Record well_formed (st : Store) : Prop := mk_well_formed {
  wf_groups : NoDup (group_ids st);
  wf_students : NoDup (student_ids st);
  wf_parents : NoDup (parent_ids st);
  wf_fresh : forall p, In p (parents st) -> (p_id p < next_id st)%N }.

(** ** The invariants of the data model, as checks on a store *)

Module Invariants.

(** 1: the group a student names lists the student *)
Definition group_lists_student (st : Store) (s : Student) : bool :=
  match s_group s with
  | None => true
  | Some gid =>
      match Group_findById gid st with
      | Some g => mem (s_id s) (g_students g)
      | None => false
      end
  end.

(** 2: the parent a student names lists the student, and the group of
    the student lists that parent *)
Definition parent_lists_student (st : Store) (s : Student) : bool :=
  match s_parent s with
  | None => true
  | Some pid =>
      match Parent_findById pid st with
      | Some p => mem (s_id s) (p_students p)
      | None => false
      end
  end.

Definition group_lists_parent (st : Store) (s : Student) : bool :=
  match s_parent s, s_group s with
  | Some pid, Some gid =>
      match Group_findById gid st with
      | Some g => mem pid (g_parents g)
      | None => false
      end
  | _, _ => true
  end.

Definition invariant1 (st : Store) : bool :=
  forallb (group_lists_student st) (students st).

Definition invariant2 (st : Store) : bool :=
  forallb (fun s => parent_lists_student st s && group_lists_parent st s)
          (students st).

(** 3: the parents without a student that no group lists *)
Definition orphans (st : Store) : list Parent :=
  filter (fun p => is_nil (p_students p)
                   && Nat.eqb (Group_count_parent (p_id p) st) 0)
         (parents st).

(** a student of the parent is still attached to a group: it names a
    group, or is on a roster *)
Definition has_attached_student (pid : ObjectId) (st : Store) : bool :=
  existsb (fun s => opt_id_eqb (s_parent s) (Some pid)
                    && (negb (opt_id_eqb (s_group s) None)
                        || existsb (fun g => mem (s_id s) (g_students g))
                                   (groups st)))
          (students st).

End Invariants.

(** ** A small school, used to run the handlers *)

Module Example.

Local Open Scope N_scope.

Definition lowerCase : jsstring -> jsstring := latin_lower.

(** a group with two students who share one parent *)
Definition G : Group :=
  mkGroup 1 (lit "Tantsud") (lit "Tallinn") None [90] [11; 12] [21].
Definition S1 : Student :=
  mkStudent 11 (lit "Mari") (lit "Tamm") 7%Z (Some 1) (Some 21)
            (Some (lit "Anu Tamm")) (lit "a@x.com").
Definition S2 : Student :=
  mkStudent 12 (lit "Jaan") (lit "Tamm") 9%Z (Some 1) (Some 21)
            (Some (lit "Anu Tamm")) (lit "a@x.com").
Definition P1 : Parent :=
  mkParent 21 (Some (lit "Anu")) (Some (lit "Tamm")) (lit "a@x.com") None
           [11; 12].
Definition school : Store := mkStore [G] [S1; S2] [P1] 100.

Definition roster (ids : list (option ObjectId)) : FullPatch :=
  mkFullPatch None None None ids [].

(** two entries, the second without an email, and a third one *)
Definition entries_with_gap : list ParentItem :=
  [mkParentItem (Some (lit " B@x.com")) (Some (lit "Bo  Li Xu"));
   mkParentItem (Some []) (Some (lit "Nobody"));
   mkParentItem (Some (lit "c@x.com")) None].

Definition gap_body : FullPatch :=
  mkFullPatch None None None [Some 12] entries_with_gap.

(** the same group with the first student only *)
Definition only_child : Store :=
  mkStore [set_g_students [11] G] [S1] [set_p_students [11] P1] 100.

(** a student body that only carries the parent email ["a@x.com "] *)
Definition padded_email : StudentBody :=
  mkStudentBody None None None None None (Some (lit "a@x.com ")).

Definition new_sibling : StudentBody :=
  mkStudentBody (Some (lit "Kati")) (Some (lit "Tamm")) (Some 5%Z) (Some 1)
                (Some (lit "Anu Tamm")) (Some (lit "A@x.com")).

(** a bulk update that keeps the roster and names one more parent *)
Definition with_guest_parent : FullPatch :=
  mkFullPatch None None None [Some 11; Some 12]
              [mkParentItem (Some (lit "b@x.com")) (Some (lit "Bo Li"))].

(** a bulk update that empties the roster and names the stored parent *)
Definition parent_only : FullPatch :=
  mkFullPatch None None None []
              [mkParentItem (Some (lit "a@x.com")) (Some (lit "Anu Tamm"))].

(** a bulk update that renames the group, moves the roster and names
    two parents, one of them twice *)
Definition busy_body : FullPatch :=
  mkFullPatch (Some (lit " Tantsud II ")) None (Some (lit "teisipaeviti"))
              [Some 12; None; Some 12]
              [mkParentItem (Some (lit " B@x.com ")) (Some (lit "Bo  Li"));
               mkParentItem (Some (lit "a@x.com")) (Some (lit "Anu Mets"));
               mkParentItem (Some (lit "b@x.com")) None].

End Example.

(** ** What the handlers leave of a document *)

(** the emails of the parent documents, in the order of the collection *)
Definition parent_emails (st : Store) : list jsstring :=
  map p_email (parents st).

(** a student without its group, and a group without its roster *)
Definition s_card (s : Student) : Student := set_s_group None s.

Definition g_card (g : Group)
  : ObjectId * jsstring * jsstring * option jsstring * list ObjectId
    * list ObjectId :=
  (g_id g, g_name g, g_location g, g_description g, g_teachers g, g_parents g).

(** the group [id] hidden, the other groups without their roster *)
Definition but_group (id : ObjectId) (g : Group) :=
  (g_id g, if N.eqb (g_id g) id then None else Some (g_card g)).

(** the group [id] hidden, of the other groups the ids of the roster
    that are not among [requested] *)
Definition kept_roster (id : ObjectId) (requested : list ObjectId)
  (g : Group) :=
  (g_id g,
   if N.eqb (g_id g) id then None
   else Some (filter (fun y => negb (mem y requested)) (g_students g))).

(** the students with another id than [id], each at its place *)
Definition but_student (id : ObjectId) (s : Student) :=
  (s_id s, if N.eqb (s_id s) id then None else Some s).

(** the two stores have the same groups and the same students *)
Definition same_gs (st st' : Store) : Prop :=
  groups st' = groups st /\ students st' = students st.

(** the ids of the students are older than the next fresh id *)
Definition students_older (st : Store) : Prop :=
  forall s, In s (students st) -> (s_id s < next_id st)%N.

(** every group and every parent of [st] is found in [st'] under the same
    id, listing at least the ids it listed *)
Definition lists_more (st st' : Store) : Prop :=
  (forall gid g, Group_findById gid st = Some g ->
     exists g', Group_findById gid st' = Some g'
                /\ incl (g_students g) (g_students g')
                /\ incl (g_parents g) (g_parents g'))
  /\ (forall pid p, Parent_findById pid st = Some p ->
        exists p', Parent_findById pid st' = Some p'
                   /\ incl (p_students p) (p_students p')).

(** What the roster loops keep of the parents array of group [gid], where
    [L] is the array of the document as it was loaded: a parent of [L]
    that a student of the group names is listed ([covers]), and a listed
    parent is one of [L] or one that a student of the group names
    ([backed]). *)
Definition covers (gid : ObjectId) (L : list ObjectId) (st : Store)
  (g : Group) : Prop :=
  forall t p, In t (students st) -> s_group t = Some gid ->
              s_parent t = Some p -> In p L -> In p (g_parents g).

Definition backed (gid : ObjectId) (L : list ObjectId) (st : Store)
  (g : Group) : Prop :=
  forall p, In p (g_parents g) ->
    In p L
    \/ exists t, In t (students st) /\ s_group t = Some gid
                 /\ s_parent t = Some p.

Definition parents_within (gid : ObjectId) (L : list ObjectId) (st : Store)
  : Prop :=
  exists g, Group_findById gid st = Some g
            /\ (NoDup L -> NoDup (g_parents g))
            /\ incl (g_parents g) L
            /\ (NoDup (map s_id (students st)) -> covers gid L st g).

Definition parents_kept (gid : ObjectId) (L : list ObjectId) (st : Store)
  : Prop :=
  exists g, Group_findById gid st = Some g
            /\ (NoDup L -> NoDup (g_parents g))
            /\ backed gid L st g
            /\ (NoDup (map s_id (students st)) -> covers gid L st g).

(** ** A school with two groups *)

Module Campus.

Local Open Scope N_scope.

(** group 1 with students 11 and 12, group 2 with student 13; parent 21
    has a child in each group *)
Definition GA : Group :=
  mkGroup 1 (lit "Algajad") (lit "Tartu") None [90] [11; 12] [21; 22].
Definition GB : Group :=
  mkGroup 2 (lit "Edasijoudnud") (lit "Tartu") None [91] [13] [21].
Definition Mari : Student :=
  mkStudent 11 (lit "Mari") (lit "Tamm") 7%Z (Some 1) (Some 21)
            (Some (lit "Anu Tamm")) (lit "a@x.com").
Definition Jaan : Student :=
  mkStudent 12 (lit "Jaan") (lit "Kask") 8%Z (Some 1) (Some 22)
            (Some (lit "Bo Kask")) (lit "b@x.com").
Definition Kati : Student :=
  mkStudent 13 (lit "Kati") (lit "Tamm") 9%Z (Some 2) (Some 21)
            (Some (lit "Anu Tamm")) (lit "a@x.com").
Definition Anu : Parent :=
  mkParent 21 (Some (lit "Anu")) (Some (lit "Tamm")) (lit "a@x.com") None
           [11; 13].
Definition Bo : Parent :=
  mkParent 22 (Some (lit "Bo")) (Some (lit "Kask")) (lit "b@x.com") None [12].
Definition campus : Store :=
  mkStore [GA; GB] [Mari; Jaan; Kati] [Anu; Bo] 100.

(** a student body that only names a group *)
Definition to_group (gid : ObjectId) : StudentBody :=
  mkStudentBody None None None (Some gid) None None.

(** a new student without a first name, with an email not yet stored *)
Definition nameless : StudentBody :=
  mkStudentBody None (Some (lit "Saar")) (Some 6%Z) (Some 2) None
                (Some (lit "Uus@x.com")).

End Campus.

(** ** Two more routes *)

(** *** DELETE /api/admin/parents/:id (the admin router, students.js
    630-661).  The router lets administrators only through, by a
    middleware that runs before the handler; the handler is modelled
    from its first line. *)
Definition admin_delete_parent (id : ObjectId) (st : Store)
  : Response unit * Store :=
  match Parent_findById id st with
  | None => (Fail 404 "Parent not found", st)
  | Some parent =>
      if negb (is_nil (p_students parent)) then
        (Fail 400 "Cannot delete parent with associated students", st)
      else (Json 200 tt, Parent_deleteOne (p_id parent) st)
  end.

(** *** The lines of GET /api/groups/:id/export-csv (groups.js 506-523) *)

Module Csv.

Definition comma : char16 := 44%N.
Definition quote : char16 := 34%N.
Definition newline : char16 := 10%N.

(** [s.includes(c)] for a one-character [c] *)
Definition includes (c : char16) (s : jsstring) : bool := existsb (N.eqb c) s.

(** the [replace] of line 517: every quote becomes two quotes *)
Definition double_quotes (s : jsstring) : jsstring :=
  flat_map (fun c => if N.eqb c quote then [quote; quote] else [c]) s.

(** [escapeCSV] (lines 513-520) on a string; the empty string is falsy *)
Definition escapeCSV (str : jsstring) : jsstring :=
  if is_empty str then []
  else if includes comma str || includes quote str || includes newline str
       then quote :: double_quotes str ++ [quote]
       else str.

(** the six values of a line, each as the string [escapeCSV] works on
    (the age is the string of the number, the empty string for 0), and
    the line (line 522) *)
Record Line := mkLine {
  groupName : jsstring;
  studentName : jsstring;
  studentAge : jsstring;
  parentName : jsstring;
  parentEmail : jsstring;
  parentPhone : jsstring }.

Definition csv_line (l : Line) : jsstring :=
  escapeCSV (groupName l) ++ comma ::
  escapeCSV (studentName l) ++ comma ::
  escapeCSV (studentAge l) ++ comma ::
  escapeCSV (parentName l) ++ comma ::
  escapeCSV (parentEmail l) ++ comma ::
  escapeCSV (parentPhone l) ++ [newline].

End Csv.

(** * Properties *)

(** ** Strings *)

Section StringFacts.

Lemma hd_ok_trimStart (s : jsstring) : hd_ok (trimStart s) = true.
Proof.
  induction s as [|c r IH]; simpl; [reflexivity|].
  destruct (is_space c) eqn:E; [exact IH|].
  simpl. now rewrite E.
Qed.

Lemma trimStart_suffix (s : jsstring) :
  exists ws, s = ws ++ trimStart s /\ forallb is_space ws = true.
Proof.
  induction s as [|c r [ws [H1 H2]]]; simpl.
  - exists []; split; reflexivity.
  - destruct (is_space c) eqn:E.
    + exists (c :: ws); simpl. rewrite E, H2. split; [now f_equal|reflexivity].
    + exists []; split; reflexivity.
Qed.

Lemma trimStart_fixed (s : jsstring) : hd_ok s = true -> trimStart s = s.
Proof.
  destruct s as [|c r]; simpl; [reflexivity|].
  now destruct (is_space c).
Qed.

Lemma trimStart_blank (s : jsstring) :
  forallb is_space s = true -> trimStart s = [].
Proof.
  induction s as [|c r IH]; simpl; [reflexivity|].
  destruct (is_space c); simpl; [exact IH|discriminate].
Qed.

Lemma hd_ok_app (a b : jsstring) :
  a <> [] -> hd_ok (a ++ b) = hd_ok a.
Proof. destruct a; [congruence|reflexivity]. Qed.

Lemma ends_ok_trim (s : jsstring) : ends_ok (trim s) = true.
Proof.
  unfold ends_ok, trim, trimEnd. rewrite rev_involutive.
  apply hd_ok_trimStart.
Qed.

Lemma hd_ok_trim (s : jsstring) : hd_ok (trim s) = true.
Proof.
  unfold trim, trimEnd.
  pose proof (hd_ok_trimStart s) as Hu.
  destruct (trimStart_suffix (rev (trimStart s))) as [ws [H1 _]].
  set (v := trimStart (rev (trimStart s))) in *.
  destruct v as [|c v'] eqn:Ev; [reflexivity|].
  assert (Hs : trimStart s = rev (c :: v') ++ rev ws).
  { rewrite <- rev_app_distr, <- H1. now rewrite rev_involutive. }
  rewrite Hs in Hu. rewrite hd_ok_app in Hu; [exact Hu|].
  simpl. now destruct (rev v').
Qed.

Lemma trim_blank (s : jsstring) : forallb is_space s = true -> trim s = [].
Proof.
  intros H. unfold trim. now rewrite (trimStart_blank s H).
Qed.

Lemma ends_ok_cons (c : char16) (r : jsstring) :
  ends_ok (c :: r) = true ->
  (r = [] /\ is_space c = false) \/ (r <> [] /\ ends_ok r = true).
Proof.
  unfold ends_ok. simpl. destruct r as [|d r'].
  - simpl. destruct (is_space c); [discriminate|]. now left.
  - intros H. right. split; [discriminate|].
    rewrite hd_ok_app in H; [exact H|].
    simpl. now destruct (rev r').
Qed.

(** Trimming leaves a string untouched when neither end is white space. *)
Lemma trim_fixed (s : jsstring) :
  hd_ok s = true -> ends_ok s = true -> trim s = s.
Proof.
  intros H1 H2. unfold trim, trimEnd.
  rewrite (trimStart_fixed s H1).
  rewrite (trimStart_fixed (rev s) H2). apply rev_involutive.
Qed.

Lemma split_nonempty (s : jsstring) :
  (forall piece, piece <> [] \/ (s <> [] /\ hd_ok s = true) ->
                 ends_ok s = true ->
                 forallb nonempty (split_piece piece s) = true)
  /\ (s <> [] -> ends_ok s = true -> forallb nonempty (split_sep s) = true).
Proof.
  induction s as [|c r [IHp IHs]].
  - split.
    + intros piece [H|[H _]] _; [|congruence].
      simpl. destruct piece; [congruence|reflexivity].
    + congruence.
  - split.
    + intros piece Hp He. simpl.
      destruct (ends_ok_cons _ _ He) as [[-> Hc]|[Hr He']].
      * rewrite Hc. simpl. now destruct piece.
      * destruct (is_space c) eqn:Ec.
        -- simpl. rewrite (IHs Hr He').
           destruct Hp as [H|[_ H]].
           ++ destruct piece; [congruence|reflexivity].
           ++ simpl in H. rewrite Ec in H. discriminate.
        -- apply IHp; [left; now destruct piece|exact He'].
    + intros _ He. simpl.
      destruct (ends_ok_cons _ _ He) as [[-> Hc]|[Hr He']].
      * rewrite Hc. reflexivity.
      * destruct (is_space c) eqn:Ec.
        -- now apply IHs.
        -- apply IHp; [left; discriminate|exact He'].
Qed.

Lemma tokens_from_split (s : jsstring) :
  (forall piece,
      NameSpec.tokens_from piece s = filter nonempty (split_piece piece s))
  /\ NameSpec.tokens_from [] s = filter nonempty (split_sep s).
Proof.
  induction s as [|c r [IHp IHs]]; split; simpl.
  - intros piece. now destruct piece.
  - reflexivity.
  - intros piece. destruct (is_space c).
    + destruct piece; simpl; now rewrite IHs.
    + apply IHp.
  - destruct (is_space c); [exact IHs|apply IHp].
Qed.

Lemma filter_all {A : Type} (f : A -> bool) (l : list A) :
  forallb f l = true -> filter f l = l.
Proof.
  induction l as [|x r IH]; simpl; [reflexivity|].
  destruct (f x); simpl; [|discriminate].
  intros H. now rewrite IH.
Qed.

(** On a trimmed string that is not empty, [split(/\s+/)] yields exactly
    the tokens. *)
Lemma split_ws_trim (s : jsstring) :
  trim s <> [] -> split_ws (trim s) = NameSpec.tokens (trim s).
Proof.
  intros Hne. unfold NameSpec.tokens, split_ws.
  rewrite (proj1 (tokens_from_split (trim s)) []).
  symmetry. apply filter_all.
  apply (proj1 (split_nonempty (trim s))).
  - right. split; [exact Hne|apply hd_ok_trim].
  - apply ends_ok_trim.
Qed.

Lemma tokens_nonempty (s : jsstring) (cur : jsstring) :
  forallb nonempty (NameSpec.tokens_from cur s) = true.
Proof.
  revert cur. induction s as [|c r IH]; intros cur; simpl.
  - now destruct cur.
  - destruct (is_space c); [|apply IH].
    destruct cur; simpl; apply IH.
Qed.

End StringFacts.

(** ** Name normalisation *)

Section Names.

Lemma join_sp_match (parts : list jsstring) :
  match parts with [] => [] | _ => join_sp parts end = join_sp parts.
Proof. now destruct parts. Qed.

(** [parts.join(' ')] puts a single space between two neighbours *)
Lemma join_sp_single_spaced (parts : list jsstring) :
  join_sp parts = NameSpec.single_spaced parts.
Proof.
  destruct parts as [|p rest]; [reflexivity|]. revert p.
  induction rest as [|q rest IH]; intros p.
  - simpl. now rewrite app_nil_r.
  - change (join_sp (p :: q :: rest)) with (p ++ 32%N :: join_sp (q :: rest)).
    rewrite IH. reflexivity.
Qed.

Lemma normalizeParentName_names (rawName : option jsstring) :
  (firstName (normalizeParentName rawName),
   lastName (normalizeParentName rawName)) = NameSpec.names_of rawName.
Proof.
  destruct rawName as [s|]; [|reflexivity].
  destruct s as [|c r]; [reflexivity|].
  unfold normalizeParentName, NameSpec.names_of.
  set (cleaned := trim (c :: r)).
  destruct (is_empty cleaned) eqn:Hc.
  - destruct cleaned; [reflexivity|discriminate].
  - assert (Hne : cleaned <> []) by (intros E; rewrite E in Hc; discriminate).
    unfold cleaned in *. rewrite (split_ws_trim (c :: r) Hne).
    pose proof (tokens_nonempty (trim (c :: r)) []) as Hall.
    unfold NameSpec.tokens.
    destruct (NameSpec.tokens_from [] (trim (c :: r))) as [|first parts];
      [reflexivity|].
    simpl in Hall. apply andb_true_iff in Hall. destruct Hall as [Hf _].
    unfold nonempty in Hf. apply negb_true_iff in Hf. rewrite Hf.
    simpl. now rewrite join_sp_match, join_sp_single_spaced.
Qed.

Lemma normalizeParentName_blank (s : jsstring) :
  forallb is_space s = true -> normalizeParentName (Some s) = default_name.
Proof.
  intros H. destruct s as [|c r]; [reflexivity|].
  unfold normalizeParentName. now rewrite (trim_blank (c :: r) H).
Qed.

End Names.

(** C8.  For every raw name, the normalised first name is the first
    white-space separated token of the trimmed name and the last name is
    the other tokens joined by a single space, whatever white space
    separated them in the raw name; the padded name "  Jüri Tamm  " gives
    Jüri and Tamm, and a name of four tokens separated by two spaces, a
    tab and a space gives its first token and the other three with one
    space between them; a missing name, and a name that is empty or all
    white space, give the placeholder with an empty last name. *)
Theorem normalizeParentName_spec :
  (forall rawName : option jsstring,
      (firstName (normalizeParentName rawName),
       lastName (normalizeParentName rawName)) = NameSpec.names_of rawName)
  /\ (firstName (normalizeParentName (Some NameSpec.Juri_Tamm_padded))
       = NameSpec.Juri
      /\ lastName (normalizeParentName (Some NameSpec.Juri_Tamm_padded))
         = NameSpec.Tamm)
  /\ (firstName (normalizeParentName (Some NameSpec.Mari_Liis_Tamm_Saar))
       = lit "Mari"
      /\ lastName (normalizeParentName (Some NameSpec.Mari_Liis_Tamm_Saar))
         = lit "Liis Tamm Saar")
  /\ (firstName (normalizeParentName None) = Lapsevanem
      /\ lastName (normalizeParentName None) = [])
  /\ (forall s : jsstring,
         forallb is_space s = true ->
         firstName (normalizeParentName (Some s)) = Lapsevanem
         /\ lastName (normalizeParentName (Some s)) = []).
Proof.
  split; [exact normalizeParentName_names|].
  split; [split; reflexivity|].
  split; [split; reflexivity|].
  split; [split; reflexivity|].
  intros s H. rewrite (normalizeParentName_blank s H). split; reflexivity.
Qed.

Lemma normalizeParentName_spec_witness :
  forallb is_space [32; 9; 160]%N = true
  /\ firstName (normalizeParentName (Some [32; 9; 160]%N)) = Lapsevanem
  /\ lastName (normalizeParentName (Some [32; 9; 160]%N)) = [].
Proof.
  split; [reflexivity|].
  apply (proj2 (proj2 (proj2 (proj2 normalizeParentName_spec)))
           [32; 9; 160]%N).
  reflexivity.
Defined.

(** ** Frames of the store operations *)

Section Frames.

Variable toLowerCase : jsstring -> jsstring.

Lemma fold_left_keeps {S A V : Type} (view : S -> V) (f : S -> A -> S)
  (l : list A) :
  (forall st x, view (f st x) = view st) ->
  forall st, view (fold_left f l st) = view st.
Proof.
  intros H. induction l as [|x r IH]; intros st; simpl; [reflexivity|].
  now rewrite IH, H.
Qed.

Lemma map_if_keeps {A B : Type} (view : A -> B) (c : A -> bool) (f : A -> A)
  (l : list A) :
  (forall a, view (f a) = view a) ->
  map view (map (fun a => if c a then f a else a) l) = map view l.
Proof.
  intros H. rewrite map_map. apply map_ext.
  intros a. destruct (c a); [apply H|reflexivity].
Qed.

(** A view of the groups that no write of a roster or of a parents array
    changes. *)
Section GroupView.

Variable B : Type.
Variable v : Group -> B.
Hypothesis v_parents : forall l g, v (set_g_parents l g) = v g.

Lemma gview_Group_update (id : ObjectId) (f : Group -> Group) (st : Store) :
  (forall g, v (f g) = v g) ->
  gview v (Group_update id f st) = gview v st.
Proof. intros H. apply (map_if_keeps _ _ _ _ H). Qed.

Lemma gview_removeParent (gid pid : option ObjectId) (st : Store) :
  gview v (removeParentFromGroupIfUnused gid pid st) = gview v st.
Proof.
  unfold removeParentFromGroupIfUnused.
  destruct gid, pid; try reflexivity.
  destruct (Nat.eqb _ 0); [|reflexivity].
  apply gview_Group_update. intros g. apply v_parents.
Qed.

Lemma gview_cleanup_parent (gid : ObjectId) (st : Store) (pid : ObjectId) :
  gview v (cleanup_parent gid st pid) = gview v st.
Proof.
  unfold cleanup_parent. destruct (_ || _).
  - apply gview_removeParent.
  - change (gview v (Parent_deleteOne pid ?x)) with (gview v x).
    apply gview_removeParent.
Qed.

Hypothesis v_students : forall l g, v (set_g_students l g) = v g.

Lemma gview_remove_student (gid : ObjectId) (st : Store) (sid : ObjectId) :
  gview v (remove_student gid st sid) = gview v st.
Proof.
  unfold remove_student. destruct (Student_findById sid st); [|reflexivity].
  rewrite gview_removeParent.
  unfold Group_pull_student. rewrite gview_Group_update; [reflexivity|].
  intros g. apply v_students.
Qed.

Lemma gview_detach_student (gid : ObjectId) (st : Store) (sid : ObjectId) :
  gview v (detach_student gid st sid) = gview v st.
Proof.
  unfold detach_student. destruct (Student_findById sid st); [|reflexivity].
  now rewrite gview_removeParent.
Qed.

Lemma gview_assign_student (gid : ObjectId) (st : Store) (sid : ObjectId) :
  gview v (assign_student gid st sid) = gview v st.
Proof.
  unfold assign_student. destruct (Student_findById sid st) as [doc|];
    [|reflexivity].
  assert (H : forall st', gview v st' = gview v st ->
            gview v (Group_add_student gid (s_id doc) st') = gview v st).
  { intros st' E. unfold Group_add_student.
    rewrite gview_Group_update; [exact E|]. intros g. apply v_students. }
  assert (H1 : gview v
            (if negb (opt_id_eqb (s_group doc) (Some gid))
             then Student_save_group (s_id doc) (Some gid)
                    match s_group doc with
                    | Some prev =>
                        removeParentFromGroupIfUnused (Some prev) (s_parent doc)
                          (Group_pull_student prev (s_id doc) st)
                    | None => st
                    end
             else st) = gview v st).
  { destruct (negb _); [|reflexivity].
    destruct (s_group doc); [|reflexivity].
    change (gview v (Student_save_group (s_id doc) (Some gid) ?x))
      with (gview v x).
    rewrite gview_removeParent. unfold Group_pull_student.
    rewrite gview_Group_update; [reflexivity|]. intros g. apply v_students. }
  destruct (s_parent doc); simpl.
  - unfold Group_add_parent. rewrite gview_Group_update.
    + now apply H.
    + intros g. apply v_parents.
  - now apply H.
Qed.

Lemma gview_roster_phase (group : Group) (requested : list ObjectId)
  (st : Store) :
  gview v (roster_phase group requested st) = gview v st.
Proof.
  unfold roster_phase, detach_all, replace_roster.
  destruct (is_nil requested).
  - apply fold_left_keeps. apply gview_detach_student.
  - rewrite (fold_left_keeps (gview v)); [|apply gview_assign_student].
    apply fold_left_keeps. apply gview_remove_student.
Qed.

End GroupView.

(** The parent loop writes parent documents only. *)
Lemma resolve_parent_frame (email : jsstring) (np : NameParts) (st : Store)
  (pid : ObjectId) (st' : Store) :
  resolve_parent toLowerCase email np st = Some (pid, st') ->
  groups st' = groups st /\ students st' = students st.
Proof.
  unfold resolve_parent, Parent_create, Parent_save_names.
  destruct (Parent_findOne_email toLowerCase email st) as [doc|].
  - destruct (_ && _); destruct (negb _);
      try destruct (Parent_findById (p_id doc) st);
      intros H; inversion H; subst; now split.
  - destruct (is_empty _); intros H; inversion H; subst; now split.
Qed.

Lemma resolve_parents_frame (payload : list ParentItem) :
  forall (set : list ObjectId) (st : Store),
    groups (outcome_store (resolve_parents toLowerCase payload set st)) = groups st
    /\ students (outcome_store (resolve_parents toLowerCase payload set st))
       = students st.
Proof.
  induction payload as [|item rest IH]; intros set st; simpl; [now split|].
  destruct (item_email toLowerCase item) as [email|]; [|now split].
  destruct (resolve_parent toLowerCase email _ st) as [[pid st']|] eqn:E;
    [|now split].
  destruct (resolve_parent_frame _ _ _ E) as [Hg Hs].
  destruct (IH (addToSet pid set) st') as [IHg IHs].
  rewrite IHg, IHs. now split.
Qed.

Lemma parents_phase_frame (body : FullPatch) (gid : ObjectId) (st : Store) :
  groups (outcome_store (parents_phase toLowerCase body gid st)) = groups st
  /\ students (outcome_store (parents_phase toLowerCase body gid st))
     = students st.
Proof. apply resolve_parents_frame. Qed.

Lemma teachers_finish_patch (loaded group : Group) (set : list ObjectId)
  (st : Store) :
  teachers_view (snd (finish_patch loaded group set st)) = teachers_view st.
Proof.
  unfold finish_patch, Group_save. simpl.
  destruct (_ || _); [reflexivity|]. simpl.
  unfold teachers_view.
  rewrite (fold_left_keeps (gview (fun g => (g_id g, g_teachers g))));
    [|now apply gview_cleanup_parent].
  now apply gview_Group_update.
Qed.

Lemma teachers_patch_full (role : Role) (id : ObjectId) (body : FullPatch)
  (st : Store) :
  teachers_view (snd (patch_full toLowerCase role id body st)) = teachers_view st.
Proof.
  unfold patch_full.
  destruct (negb (is_admin role)); [reflexivity|].
  destruct (Group_findById id st) as [loaded|]; [|reflexivity].
  destruct (negb (roster_valid _ st)); [reflexivity|].
  set (group := assign_fields body loaded).
  set (requested := requestedStudentIds (fp_studentIds body)).
  set (st1 := roster_phase group requested st).
  assert (H1 : teachers_view st1 = teachers_view st)
    by now apply (gview_roster_phase (fun g => (g_id g, g_teachers g))).
  destruct (parents_phase_frame body (g_id (set_g_students requested group)) st1)
    as [Hg _].
  destruct (parents_phase _ _ _ st1) as [ids st2|st2|st2]; simpl in Hg.
  - rewrite teachers_finish_patch. unfold teachers_view, gview. now rewrite Hg.
  - simpl. unfold teachers_view, gview. now rewrite Hg.
  - simpl. unfold teachers_view, gview. now rewrite Hg.
Qed.

Lemma find_teachers (gid : ObjectId) (st : Store) :
  option_map g_teachers (Group_findById gid st)
  = option_map snd (find (fun x => N.eqb (fst x) gid) (teachers_view st)).
Proof.
  unfold Group_findById, teachers_view, gview.
  induction (groups st) as [|g r IH]; simpl; [reflexivity|].
  destruct (N.eqb (g_id g) gid); [reflexivity|exact IH].
Qed.

End Frames.

(** C9.  Whatever the body and whatever the answer, the bulk update leaves
    the teachers of the group, and of every other group, as they were. *)
Theorem patch_full_keeps_teachers (toLowerCase : jsstring -> jsstring)
  (role : Role) (id : ObjectId) (body : FullPatch) (st : Store)
  (gid : ObjectId) :
  option_map g_teachers
    (Group_findById gid (snd (patch_full toLowerCase role id body st)))
  = option_map g_teachers (Group_findById gid st).
Proof.
  rewrite !find_teachers. now rewrite teachers_patch_full.
Qed.

(** ** Arrays of ids *)

Section IdLists.

Lemma mem_In (x : ObjectId) (l : list ObjectId) : mem x l = true <-> In x l.
Proof.
  unfold mem. rewrite existsb_exists. split.
  - intros [y [H E]]. apply N.eqb_eq in E. now subst.
  - intros H. exists x. split; [exact H|apply N.eqb_refl].
Qed.

Lemma mem_false (x : ObjectId) (l : list ObjectId) :
  mem x l = false <-> ~ In x l.
Proof.
  rewrite <- mem_In. destruct (mem x l); split; congruence.
Qed.

Lemma In_pull (x y : ObjectId) (l : list ObjectId) :
  In y (pull x l) <-> In y l /\ y <> x.
Proof.
  unfold pull. rewrite filter_In, negb_true_iff, N.eqb_neq. reflexivity.
Qed.

Lemma NoDup_pull (x : ObjectId) (l : list ObjectId) :
  NoDup l -> NoDup (pull x l).
Proof. apply NoDup_filter. Qed.

Lemma pull_absent (x : ObjectId) (l : list ObjectId) :
  ~ In x l -> pull x l = l.
Proof.
  intros H. unfold pull. apply filter_all. apply forallb_forall.
  intros y Hy. apply negb_true_iff, N.eqb_neq. intros ->. now apply H.
Qed.

Lemma In_dedup (x : ObjectId) (l : list ObjectId) : In x (dedup l) <-> In x l.
Proof.
  induction l as [|y r IH]; simpl; [reflexivity|].
  rewrite In_pull, IH. destruct (N.eq_dec x y) as [->|Hn].
  - split; intros _; now left.
  - split.
    + intros [H|[H _]]; [now left|now right].
    + intros [H|H]; [now left|right; now split].
Qed.

Lemma NoDup_dedup (l : list ObjectId) : NoDup (dedup l).
Proof.
  induction l as [|y r IH]; simpl; constructor.
  - rewrite In_pull. intros [_ H]. now apply H.
  - now apply NoDup_pull.
Qed.

Lemma In_filter_some {A : Type} (x : A) (l : list (option A)) :
  In x (filter_some l) <-> In (Some x) l.
Proof.
  induction l as [|[y|] r IH]; simpl.
  - reflexivity.
  - rewrite IH. split; intros [H|H]; try (now right); left; congruence.
  - rewrite IH. split; [now right|]. intros [H|H]; [discriminate|exact H].
Qed.

Lemma addToSet_present (x : ObjectId) (l : list ObjectId) :
  In x l -> addToSet x l = l.
Proof. intros H. unfold addToSet. now rewrite (proj2 (mem_In x l) H). Qed.

Lemma In_addToSet (x y : ObjectId) (l : list ObjectId) :
  In y (addToSet x l) <-> y = x \/ In y l.
Proof.
  unfold addToSet. destruct (mem x l) eqn:E.
  - apply mem_In in E. split; [now right|]. intros [->|H]; assumption.
  - rewrite in_app_iff. simpl. intuition congruence.
Qed.

Lemma NoDup_addToSet (x : ObjectId) (l : list ObjectId) :
  NoDup l -> NoDup (addToSet x l).
Proof.
  intros H. unfold addToSet. destruct (mem x l) eqn:E; [exact H|].
  apply mem_false in E. apply NoDup_app; [exact H|repeat constructor; easy|].
  intros y Hy [<-|[]]. now apply E.
Qed.

End IdLists.

(** ** Looking a group up *)

Section Lookup.

Lemma Group_findById_id (id : ObjectId) (st : Store) (g : Group) :
  Group_findById id st = Some g -> g_id g = id.
Proof.
  intros H. apply find_some in H. now apply N.eqb_eq.
Qed.

Lemma g_id_assign_fields (body : FullPatch) (g : Group) :
  g_id (assign_fields body g) = g_id g.
Proof.
  unfold assign_fields.
  now destruct (fp_name body), (fp_location body), (fp_description body).
Qed.

Lemma find_view {B : Type} (v : Group -> B) (gid : ObjectId) (st : Store) :
  option_map (fun g => (g_id g, v g)) (Group_findById gid st)
  = find (fun x => N.eqb (fst x) gid) (gview (fun g => (g_id g, v g)) st).
Proof.
  unfold Group_findById, gview.
  induction (groups st) as [|g r IH]; simpl; [reflexivity|].
  destruct (N.eqb (g_id g) gid); [reflexivity|exact IH].
Qed.

Lemma Group_findById_update (id : ObjectId) (f : Group -> Group) (st : Store) :
  (forall g, g_id (f g) = g_id g) ->
  Group_findById id (Group_update id f st)
  = option_map f (Group_findById id st).
Proof.
  intros Hf. unfold Group_findById, Group_update. simpl.
  induction (groups st) as [|g r IH]; simpl; [reflexivity|].
  destruct (N.eqb (g_id g) id) eqn:E.
  - now rewrite Hf, E.
  - now rewrite E.
Qed.

Lemma Group_findById_update_other (id gid : ObjectId) (f : Group -> Group)
  (st : Store) :
  (forall g, g_id (f g) = g_id g) -> gid <> id ->
  Group_findById gid (Group_update id f st) = Group_findById gid st.
Proof.
  intros Hf Hne. unfold Group_findById, Group_update. simpl.
  induction (groups st) as [|g r IH]; simpl; [reflexivity|].
  destruct (N.eqb (g_id g) id) eqn:E.
  - rewrite Hf. apply N.eqb_eq in E. rewrite E.
    destruct (N.eqb id gid) eqn:E2; [apply N.eqb_eq in E2; congruence|].
    exact IH.
  - destruct (N.eqb (g_id g) gid); [reflexivity|exact IH].
Qed.

End Lookup.

(** ** Validation of the requested students *)

Section Validation.

Variable toLowerCase : jsstring -> jsstring.

Lemma NoDup_map_filter {A B : Type} (f : A -> B) (c : A -> bool) (l : list A) :
  NoDup (map f l) -> NoDup (map f (filter c l)).
Proof.
  induction l as [|a r IH]; simpl; intros H; [constructor|].
  inversion H as [|? ? Hn Hr]; subst.
  destruct (c a); simpl; [|now apply IH].
  constructor; [|now apply IH].
  intros Hin. apply Hn. apply in_map_iff in Hin.
  destruct Hin as [y [E Hy]]. apply filter_In in Hy.
  apply in_map_iff. exists y. now split.
Qed.

Lemma Student_findById_none (x : ObjectId) (st : Store) :
  Student_findById x st = None -> ~ In x (student_ids st).
Proof.
  intros H Hin. unfold student_ids in Hin. apply in_map_iff in Hin.
  destruct Hin as [s0 [E Hs]].
  pose proof (find_none _ _ H s0 Hs) as F. simpl in F.
  rewrite E, N.eqb_refl in F. discriminate.
Qed.

(** With one requested id unknown, fewer documents are found than ids
    were requested. *)
Lemma found_fewer (requested : list ObjectId) (st : Store) (x : ObjectId) :
  NoDup (student_ids st) ->
  In x requested -> Student_findById x st = None ->
  length (Student_find_in requested st) < length requested.
Proof.
  intros Hnd Hx Hnone.
  apply Student_findById_none in Hnone.
  unfold Student_find_in.
  rewrite <- (length_map s_id).
  apply Nat.le_lt_trans with (length (remove N.eq_dec x requested)).
  - apply NoDup_incl_length.
    + now apply NoDup_map_filter.
    + intros y Hy. apply in_map_iff in Hy. destruct Hy as [s0 [E Hs]].
      apply filter_In in Hs. destruct Hs as [Hs Hm].
      apply in_in_remove.
      * intros ->. apply Hnone. unfold student_ids. apply in_map_iff.
        exists s0. now split.
      * subst y. now apply mem_In.
  - now apply remove_length_lt.
Qed.

Lemma roster_invalid (requested : list ObjectId) (st : Store) (x : ObjectId) :
  NoDup (student_ids st) ->
  In x requested -> Student_findById x st = None ->
  roster_valid requested st = false.
Proof.
  intros Hnd Hx Hnone. unfold roster_valid.
  destruct requested as [|y r]; [destruct Hx|]. simpl is_nil. cbv iota.
  apply Nat.eqb_neq.
  pose proof (@found_fewer (y :: r) st x Hnd Hx Hnone). lia.
Qed.

End Validation.

(** C4.  When a requested id has no student document, the bulk update
    writes nothing; an administrator addressing an existing group is
    answered 400.  Student ids are unique in the store. *)
Theorem patch_full_unknown_student (toLowerCase : jsstring -> jsstring)
  (role : Role) (id : ObjectId) (body : FullPatch) (st : Store) (x : ObjectId) :
  NoDup (student_ids st) ->
  In x (requestedStudentIds (fp_studentIds body)) ->
  Student_findById x st = None ->
  snd (patch_full toLowerCase role id body st) = st
  /\ (is_admin role = true -> Group_findById id st <> None ->
      fst (patch_full toLowerCase role id body st)
      = Fail 400 "One or more students were not found").
Proof.
  intros Hnd Hx Hnone.
  pose proof (@roster_invalid _ st x Hnd Hx Hnone) as Hv.
  unfold patch_full.
  destruct (is_admin role); simpl.
  - destruct (Group_findById id st) as [loaded|].
    + rewrite Hv. simpl. split; [reflexivity|]. intros _ _. reflexivity.
    + split; [reflexivity|]. intros _ H. now contradiction H.
  - split; [reflexivity|]. discriminate.
Qed.

Lemma patch_full_unknown_student_witness :
  snd (patch_full Example.lowerCase role_admin 1%N
         (Example.roster [Some 12; Some 99]%N) Example.school)
  = Example.school
  /\ fst (patch_full Example.lowerCase role_admin 1%N
            (Example.roster [Some 12; Some 99]%N) Example.school)
     = Fail 400 "One or more students were not found".
Proof.
  assert (Hnd : NoDup (student_ids Example.school)).
  { repeat constructor; simpl; intuition discriminate. }
  assert (Hin : In 99%N (requestedStudentIds
                           (fp_studentIds (Example.roster [Some 12; Some 99]%N)))).
  { simpl. now right; left. }
  destruct (@patch_full_unknown_student Example.lowerCase role_admin 1%N
              (Example.roster [Some 12; Some 99]%N) Example.school 99%N
              Hnd Hin eq_refl) as [H1 H2].
  split; [exact H1|]. apply H2; [reflexivity|discriminate].
Defined.

(** ** The parent entries of a bulk update *)

Section ParentEntries.

Variable toLowerCase : jsstring -> jsstring.

Lemma Parent_findById_In (doc : Parent) (st : Store) :
  In doc (parents st) -> Parent_findById (p_id doc) st <> None.
Proof.
  intros Hin H. pose proof (find_none _ _ H doc Hin) as F. simpl in F.
  rewrite N.eqb_refl in F. discriminate.
Qed.

Lemma Parent_findOne_email_In (email : jsstring) (st : Store) (doc : Parent) :
  Parent_findOne_email toLowerCase email st = Some doc ->
  In doc (parents st) /\ p_email doc = email_setter toLowerCase email.
Proof.
  intros H. apply find_some in H. destruct H as [Hin E]. split; [exact Hin|].
  unfold jsstring_eqb in E. now destruct (list_eq_dec _ _ _).
Qed.

Lemma item_email_normal (item : ParentItem) (email : jsstring) :
  normalises toLowerCase -> item_email toLowerCase item = Some email ->
  email_setter toLowerCase email = email /\ email <> [].
Proof.
  intros Hn. unfold item_email. destruct (pi_email item) as [e|]; [|discriminate].
  destruct (is_empty (trim (toLowerCase e))) eqn:E; [discriminate|].
  intros H. inversion H; subst. split; [apply Hn|].
  intros E'. rewrite E' in E. discriminate.
Qed.

(** Resolving an entry whose email survives the setters never throws. *)
Lemma resolve_parent_total (email : jsstring) (np : NameParts) (st : Store) :
  email_setter toLowerCase email <> [] ->
  exists pid st', resolve_parent toLowerCase email np st = Some (pid, st').
Proof.
  intros Hne. unfold resolve_parent.
  destruct (Parent_findOne_email toLowerCase email st) as [doc|] eqn:F.
  - apply Parent_findOne_email_In in F. destruct F as [Hin _].
    pose proof (Parent_findById_In doc st Hin) as Hid.
    unfold Parent_save_names.
    destruct (Parent_findById (p_id doc) st); [|congruence].
    destruct (_ && _); destruct (negb _); eauto.
  - unfold Parent_create.
    destruct (email_setter toLowerCase email); [congruence|]. simpl. eauto.
Qed.

(** The loop stops at the first entry without an email: the entries
    before it are resolved, the entries after it are not looked at. *)
Lemma resolve_parents_stops (pre : list ParentItem) :
  normalises toLowerCase ->
  Forall (fun item => item_email toLowerCase item <> None) pre ->
  forall (set : list ObjectId) (st : Store),
  exists ids st',
    resolve_parents toLowerCase pre set st = ParentsDone ids st'
    /\ forall bad suf,
         item_email toLowerCase bad = None ->
         resolve_parents toLowerCase (pre ++ bad :: suf) set st
         = ParentsRejected st'.
Proof.
  intros Hn. induction 1 as [|item rest Hi Hr IH]; intros set st.
  - exists set, st. split; [reflexivity|]. intros bad suf Hb. simpl.
    now rewrite Hb.
  - simpl. destruct (item_email toLowerCase item) as [email|] eqn:E;
      [|congruence].
    destruct (item_email_normal item Hn E) as [Hfix Hne].
    destruct (resolve_parent_total email (normalizeParentName (pi_name item)) st)
      as [pid [st1 R]]; [congruence|].
    rewrite R. apply IH.
Qed.

End ParentEntries.

Section LatinLower.

Lemma not_space_letter (c : char16) :
  (65 <= c <= 122)%N -> is_space c = false.
Proof.
  intros H. unfold is_space.
  assert (E1 : (c <=? 13)%N = false) by (apply N.leb_gt; lia).
  assert (E2 : (c =? 32)%N = false) by (apply N.eqb_neq; lia).
  assert (E3 : (c =? 160)%N = false) by (apply N.eqb_neq; lia).
  assert (E4 : (c =? 5760)%N = false) by (apply N.eqb_neq; lia).
  assert (E5 : (8192 <=? c)%N = false) by (apply N.leb_gt; lia).
  assert (E6 : (c =? 8232)%N = false) by (apply N.eqb_neq; lia).
  assert (E7 : (c =? 8233)%N = false) by (apply N.eqb_neq; lia).
  assert (E8 : (c =? 8239)%N = false) by (apply N.eqb_neq; lia).
  assert (E9 : (c =? 8287)%N = false) by (apply N.eqb_neq; lia).
  assert (E10 : (c =? 12288)%N = false) by (apply N.eqb_neq; lia).
  assert (E11 : (c =? 65279)%N = false) by (apply N.eqb_neq; lia).
  rewrite E1, E2, E3, E4, E5, E6, E7, E8, E9, E10, E11.
  now rewrite andb_false_r.
Qed.

Lemma is_space_lower_unit (c : char16) : is_space (lower_unit c) = is_space c.
Proof.
  unfold lower_unit. destruct ((65 <=? c)%N && (c <=? 90)%N) eqn:E;
    [|reflexivity].
  apply andb_true_iff in E. destruct E as [E1 E2].
  apply N.leb_le in E1, E2.
  rewrite !not_space_letter by lia. reflexivity.
Qed.

Lemma lower_unit_twice (c : char16) : lower_unit (lower_unit c) = lower_unit c.
Proof.
  destruct ((65 <=? c)%N && (c <=? 90)%N) eqn:E.
  - assert (L : lower_unit c = (c + 32)%N) by (unfold lower_unit; now rewrite E).
    rewrite L. apply andb_true_iff in E. destruct E as [E1 E2].
    apply N.leb_le in E1, E2. unfold lower_unit.
    assert (F : (c + 32 <=? 90)%N = false) by (apply N.leb_gt; lia).
    now rewrite F, andb_false_r.
  - assert (L : lower_unit c = c) by (unfold lower_unit; now rewrite E).
    now rewrite !L.
Qed.

Lemma trimStart_latin_lower (s : jsstring) :
  trimStart (latin_lower s) = latin_lower (trimStart s).
Proof.
  induction s as [|c r IH]; simpl; [reflexivity|].
  rewrite is_space_lower_unit. now destruct (is_space c).
Qed.

Lemma rev_latin_lower (s : jsstring) :
  rev (latin_lower s) = latin_lower (rev s).
Proof. symmetry. apply map_rev. Qed.

Lemma trim_latin_lower (s : jsstring) :
  trim (latin_lower s) = latin_lower (trim s).
Proof.
  unfold trim, trimEnd.
  now rewrite trimStart_latin_lower, rev_latin_lower, trimStart_latin_lower,
    rev_latin_lower.
Qed.

Lemma trim_twice (s : jsstring) : trim (trim s) = trim s.
Proof. apply trim_fixed; [apply hd_ok_trim|apply ends_ok_trim]. Qed.

Lemma latin_lower_normalises : normalises latin_lower.
Proof.
  intros s. unfold email_setter.
  rewrite (trim_latin_lower (trim (latin_lower s))), trim_twice.
  rewrite <- trim_latin_lower. f_equal.
  unfold latin_lower. rewrite map_map. apply map_ext. apply lower_unit_twice.
Qed.

End LatinLower.

(** C6.  An administrator patches an existing group with a parent entry
    whose email is missing, or empty once lowercased and trimmed.  The
    answer is 400.  When the requested students were accepted, the store
    is the one the roster loops left, with the entries before the faulty
    one resolved and no later entry looked at: groups and students are as
    the roster loops wrote them. *)
Theorem patch_full_missing_email (toLowerCase : jsstring -> jsstring)
  (id : ObjectId) (body : FullPatch) (st : Store) (loaded : Group)
  (pre : list ParentItem) (bad : ParentItem) (suf : list ParentItem) :
  normalises toLowerCase ->
  Group_findById id st = Some loaded ->
  fp_parents body = pre ++ bad :: suf ->
  Forall (fun item => item_email toLowerCase item <> None) pre ->
  item_email toLowerCase bad = None ->
  let requested := requestedStudentIds (fp_studentIds body) in
  let st1 := roster_phase (assign_fields body loaded) requested st in
  let r := patch_full toLowerCase role_admin id body st in
  status_of (fst r) = 400
  /\ (roster_valid requested st = true ->
      fst r = Fail 400 "Parent email is required for each parent entry"
      /\ groups (snd r) = groups st1
      /\ students (snd r) = students st1
      /\ exists ids,
           resolve_parents toLowerCase pre (dedup (studentParentIds id st1)) st1
           = ParentsDone ids (snd r)).
Proof.
  intros Hn Hl Hp Hpre Hbad requested st1 r.
  assert (Hid : g_id (assign_fields body loaded) = id).
  { rewrite g_id_assign_fields. now apply Group_findById_id with st. }
  destruct (resolve_parents_stops Hn Hpre (dedup (studentParentIds id st1)) st1)
    as [ids [st' [Hdone Hstop]]].
  specialize (Hstop bad suf Hbad).
  destruct (resolve_parents_frame toLowerCase pre
              (dedup (studentParentIds id st1)) st1) as [Hg Hs].
  rewrite Hdone in Hg, Hs. simpl in Hg, Hs.
  assert (Hr : roster_valid requested st = true ->
               r = (Fail 400 "Parent email is required for each parent entry",
                    st')).
  { intros Hv. unfold r, patch_full. simpl negb. cbv iota.
    rewrite Hl. fold requested. rewrite Hv. simpl negb. cbv iota.
    unfold parents_phase. simpl g_id. rewrite Hid, Hp.
    fold st1. now rewrite Hstop. }
  split.
  - destruct (roster_valid requested st) eqn:Hv.
    + now rewrite Hr.
    + unfold r, patch_full. simpl negb. cbv iota.
      rewrite Hl. fold requested. now rewrite Hv.
  - intros Hv. rewrite (Hr Hv). simpl. repeat split; try assumption.
    now exists ids.
Qed.

Lemma patch_full_missing_email_witness :
  status_of (fst (patch_full Example.lowerCase role_admin 1%N Example.gap_body
                    Example.school)) = 400
  /\ option_map s_group
       (Student_findById 11%N
          (snd (patch_full Example.lowerCase role_admin 1%N Example.gap_body
                  Example.school))) = Some None
  /\ length (parents
               (snd (patch_full Example.lowerCase role_admin 1%N
                       Example.gap_body Example.school))) = 2%nat.
Proof.
  assert (Hpre : Forall (fun item => item_email Example.lowerCase item <> None)
                   [mkParentItem (Some (lit " B@x.com"))
                                 (Some (lit "Bo  Li Xu"))]).
  { repeat constructor. discriminate. }
  destruct (@patch_full_missing_email Example.lowerCase 1%N Example.gap_body
              Example.school Example.G
              [mkParentItem (Some (lit " B@x.com")) (Some (lit "Bo  Li Xu"))]
              (mkParentItem (Some []) (Some (lit "Nobody")))
              [mkParentItem (Some (lit "c@x.com")) None]
              latin_lower_normalises eq_refl eq_refl Hpre eq_refl) as [H1 _].
  split; [exact H1|]. split; reflexivity.
Defined.

(** ** Runs of the handlers on the small school *)

Import Invariants.

(** C2 at a request the code answers with 200.  Both students of the
    school share parent 21, stored with the email a@x.com, and the two
    invariants hold.  Updating student 11 with that email followed by a
    space leaves the student pointing at parent 21 while parent 21 no
    longer lists the student: invariant 2 is broken. *)
Theorem put_student_padded_email_breaks_invariant2 :
  invariant1 Example.school = true
  /\ invariant2 Example.school = true
  /\ status_of (fst (put_student Example.lowerCase role_admin 11%N
                       Example.padded_email Example.school)) = 200
  /\ option_map s_parent
       (Student_findById 11%N
          (snd (put_student Example.lowerCase role_admin 11%N
                  Example.padded_email Example.school))) = Some (Some 21%N)
  /\ option_map p_students
       (Parent_findById 21%N
          (snd (put_student Example.lowerCase role_admin 11%N
                  Example.padded_email Example.school))) = Some [12%N]
  /\ invariant2 (snd (put_student Example.lowerCase role_admin 11%N
                        Example.padded_email Example.school)) = false.
Proof. repeat split; vm_compute; reflexivity. Qed.

(** C3 at two requests the code answers with success.  Student 11 is the
    only child of parent 21 (a@x.com).  An update of the student with
    "a@x.com " keeps parent id 21 on the student and deletes that parent
    document; a student created next with "A@x.com" gets a new parent
    document, id 100.  The two emails are equal once lowercased and
    trimmed, the two parent ids differ. *)
Theorem padded_email_resolves_apart :
  email_setter Example.lowerCase (lit "a@x.com ")
  = email_setter Example.lowerCase (lit "A@x.com")
  /\ status_of (fst (put_student Example.lowerCase role_admin 11%N
                       Example.padded_email Example.only_child)) = 200
  /\ Parent_findById 21%N
       (snd (put_student Example.lowerCase role_admin 11%N
               Example.padded_email Example.only_child)) = None
  /\ status_of
       (fst (post_student Example.lowerCase role_admin Example.new_sibling
               (snd (put_student Example.lowerCase role_admin 11%N
                       Example.padded_email Example.only_child)))) = 201
  /\ map (fun s => (s_id s, s_parent s, s_parentEmail s))
       (students
          (snd (post_student Example.lowerCase role_admin Example.new_sibling
                  (snd (put_student Example.lowerCase role_admin 11%N
                          Example.padded_email Example.only_child)))))
     = [(11%N, Some 21%N, lit "a@x.com"); (101%N, Some 100%N, lit "a@x.com")].
Proof. repeat split; vm_compute; reflexivity. Qed.

(** C7 at the deletion of a group.  A bulk update of group 1 that names a
    parent by email stores that parent, id 100, without a student, listed
    by the group: no orphan.  Deleting group 1 then leaves parent 100
    stored, with no student and listed by no group. *)
Theorem delete_group_leaves_orphan :
  status_of (fst (patch_full Example.lowerCase role_admin 1%N
                    Example.with_guest_parent Example.school)) = 200
  /\ orphans (snd (patch_full Example.lowerCase role_admin 1%N
                     Example.with_guest_parent Example.school)) = []
  /\ status_of
       (fst (delete_group role_admin 1%N
               (snd (patch_full Example.lowerCase role_admin 1%N
                       Example.with_guest_parent Example.school)))) = 200
  /\ map p_id
       (orphans
          (snd (delete_group role_admin 1%N
                  (snd (patch_full Example.lowerCase role_admin 1%N
                          Example.with_guest_parent Example.school)))))
     = [100%N].
Proof. repeat split; vm_compute; reflexivity. Qed.

(** ** Loops and writes by id *)

Section Toolkit.

Lemma fold_left_invariant {S A : Type} (P : S -> Prop) (f : S -> A -> S)
  (l : list A) :
  (forall s x, In x l -> P s -> P (f s x)) ->
  forall s, P s -> P (fold_left f l s).
Proof.
  induction l as [|a r IH]; simpl; intros H s Hs; [exact Hs|].
  apply IH.
  - intros s' x Hx. apply H. now right.
  - apply H; [now left|exact Hs].
Qed.

Lemma find_map_id {A : Type} (key : A -> ObjectId) (phi : A -> A)
  (k : ObjectId) (l : list A) :
  (forall a, key (phi a) = key a) ->
  find (fun a => N.eqb (key a) k) (map phi l)
  = option_map phi (find (fun a => N.eqb (key a) k) l).
Proof.
  intros H. induction l as [|a r IH]; simpl; [reflexivity|].
  rewrite H. destruct (N.eqb (key a) k); [reflexivity|exact IH].
Qed.

Lemma find_unique {A : Type} (key : A -> ObjectId) (l : list A) (a : A) :
  NoDup (map key l) -> In a l ->
  find (fun b => N.eqb (key b) (key a)) l = Some a.
Proof.
  induction l as [|b r IH]; simpl; intros Hnd Hin; [destruct Hin|].
  inversion Hnd as [|? ? Hn Hr]; subst.
  destruct Hin as [->|Hin].
  - now rewrite N.eqb_refl.
  - destruct (N.eqb (key b) (key a)) eqn:E.
    + apply N.eqb_eq in E. exfalso. apply Hn. rewrite E.
      now apply in_map.
    + now apply IH.
Qed.

Lemma Student_findById_update (x y : ObjectId) (f : Student -> Student)
  (st : Store) :
  (forall s, s_id (f s) = s_id s) ->
  Student_findById y (Student_update x f st)
  = option_map (fun s => if N.eqb (s_id s) x then f s else s)
               (Student_findById y st).
Proof.
  intros Hf. unfold Student_findById, Student_update. simpl.
  apply (find_map_id s_id). intros s. now destruct (N.eqb (s_id s) x).
Qed.

Lemma Student_findById_id (id : ObjectId) (st : Store) (s : Student) :
  Student_findById id st = Some s -> s_id s = id.
Proof. intros H. apply find_some in H. now apply N.eqb_eq. Qed.

Lemma Group_findById_update_any (id gid : ObjectId) (f : Group -> Group)
  (st : Store) :
  (forall g, g_id (f g) = g_id g) ->
  Group_findById gid (Group_update id f st)
  = option_map (fun g => if N.eqb (g_id g) id then f g else g)
               (Group_findById gid st).
Proof.
  intros Hf. unfold Group_findById, Group_update. simpl.
  apply (find_map_id g_id). intros g. now destruct (N.eqb (g_id g) id).
Qed.

Lemma set_g_parents_same (g : Group) : set_g_parents (g_parents g) g = g.
Proof. now destruct g. Qed.

Lemma set_s_group_same (s : Student) : set_s_group (s_group s) s = s.
Proof. now destruct s. Qed.

Lemma opt_id_eqb_eq (a b : option ObjectId) : opt_id_eqb a b = true <-> a = b.
Proof.
  destruct a, b; simpl; try (split; congruence).
  rewrite N.eqb_eq. split; congruence.
Qed.

Lemma student_ids_update (x : ObjectId) (f : Student -> Student) (st : Store) :
  (forall s, s_id (f s) = s_id s) ->
  student_ids (Student_update x f st) = student_ids st.
Proof. intros H. unfold student_ids. simpl. now apply map_if_keeps. Qed.

End Toolkit.

(** ** What one turn of a roster loop does *)

Section RosterSteps.

Lemma Student_findById_same (y : ObjectId) (st st' : Store) :
  students st' = students st -> Student_findById y st' = Student_findById y st.
Proof. intros H. unfold Student_findById. now rewrite H. Qed.

Lemma Group_findById_same (gid : ObjectId) (st st' : Store) :
  groups st' = groups st -> Group_findById gid st' = Group_findById gid st.
Proof. intros H. unfold Group_findById. now rewrite H. Qed.

Lemma students_removeParent (go po : option ObjectId) (st : Store) :
  students (removeParentFromGroupIfUnused go po st) = students st.
Proof.
  unfold removeParentFromGroupIfUnused. destruct go, po; try reflexivity.
  now destruct (Nat.eqb _ 0).
Qed.

Lemma removeParent_other (go po : option ObjectId) (gid : ObjectId)
  (st : Store) :
  go <> Some gid ->
  Group_findById gid (removeParentFromGroupIfUnused go po st)
  = Group_findById gid st.
Proof.
  intros Hne. unfold removeParentFromGroupIfUnused.
  destruct go as [g0|], po as [p|]; try reflexivity.
  destruct (Nat.eqb _ 0); [|reflexivity].
  apply Group_findById_update_other; [reflexivity|congruence].
Qed.

(** On the group it addresses, the helper pulls the parent exactly when
    no student of the group has that parent. *)
Lemma removeParent_same (gid : ObjectId) (po : option ObjectId) (st : Store) :
  Group_findById gid (removeParentFromGroupIfUnused (Some gid) po st)
  = option_map
      (fun g =>
         match po with
         | Some p =>
             if Nat.eqb (Student_count_group_parent gid p st) 0
             then set_g_parents (pull p (g_parents g)) g else g
         | None => g
         end)
      (Group_findById gid st).
Proof.
  unfold removeParentFromGroupIfUnused. destruct po as [p|].
  - destruct (Nat.eqb _ 0).
    + unfold Group_pull_parent. now rewrite Group_findById_update.
    + now destruct (Group_findById gid st).
  - now destruct (Group_findById gid st).
Qed.

Lemma option_map_fixed {A : Type} (f : A -> A) (o : option A) :
  (forall a, o = Some a -> f a = a) -> option_map f o = o.
Proof. destruct o as [a|]; simpl; [|reflexivity]. intros H. now rewrite H. Qed.

Lemma option_map_map {A B C : Type} (f : A -> B) (g : B -> C) (o : option A) :
  option_map g (option_map f o) = option_map (fun a => g (f a)) o.
Proof. now destruct o. Qed.

(** *** the loop over [toAssign] *)

Lemma assign_student_find (gid : ObjectId) (st : Store) (x y : ObjectId) :
  Student_findById y (assign_student gid st x)
  = option_map (fun s => if N.eqb (s_id s) x then set_s_group (Some gid) s else s)
               (Student_findById y st).
Proof.
  unfold assign_student.
  destruct (Student_findById x st) as [doc|] eqn:Hx.
  - pose proof (Student_findById_id _ _ Hx) as Hid.
    set (st' := match s_group doc with
                | Some prev =>
                    removeParentFromGroupIfUnused (Some prev) (s_parent doc)
                      (Group_pull_student prev (s_id doc) st)
                | None => st
                end).
    assert (Hs' : students st' = students st).
    { unfold st'. destruct (s_group doc); [|reflexivity].
      now rewrite students_removeParent. }
    set (st1 := if negb (opt_id_eqb (s_group doc) (Some gid))
                then Student_save_group (s_id doc) (Some gid) st' else st).
    assert (H1 : Student_findById y st1
                 = option_map
                     (fun s => if N.eqb (s_id s) x
                               then set_s_group (Some gid) s else s)
                     (Student_findById y st)).
    { unfold st1. destruct (opt_id_eqb (s_group doc) (Some gid)) eqn:E; simpl.
      - apply opt_id_eqb_eq in E. symmetry. apply option_map_fixed.
        intros s0 Hs0. destruct (N.eqb (s_id s0) x) eqn:E0; [|reflexivity].
        apply N.eqb_eq in E0.
        pose proof (Student_findById_id _ _ Hs0) as Hy.
        assert (s0 = doc) by congruence. subst s0.
        rewrite <- E. apply set_s_group_same.
      - unfold Student_save_group.
        rewrite Student_findById_update by reflexivity.
        rewrite Hid. now rewrite (Student_findById_same y st st' Hs'). }
    rewrite <- H1. apply Student_findById_same.
    now destruct (s_parent doc).
  - symmetry. apply option_map_fixed. intros s0 Hs0.
    destruct (N.eqb (s_id s0) x) eqn:E0; [|reflexivity].
    apply N.eqb_eq in E0.
    pose proof (Student_findById_id _ _ Hs0) as Hy. congruence.
Qed.

Lemma assign_student_group (gid : ObjectId) (st : Store) (x : ObjectId) :
  Group_findById gid (assign_student gid st x)
  = option_map
      (fun g =>
         match Student_findById x st with
         | None => g
         | Some doc =>
             let g1 := set_g_students (addToSet x (g_students g)) g in
             match s_parent doc with
             | Some p => set_g_parents (addToSet p (g_parents g1)) g1
             | None => g1
             end
         end)
      (Group_findById gid st).
Proof.
  unfold assign_student.
  destruct (Student_findById x st) as [doc|] eqn:Hx.
  - pose proof (Student_findById_id _ _ Hx) as Hid. rewrite Hid.
    set (st1 := if negb (opt_id_eqb (s_group doc) (Some gid)) then _ else st).
    assert (H1 : Group_findById gid st1 = Group_findById gid st).
    { unfold st1. destruct (opt_id_eqb (s_group doc) (Some gid)) eqn:E; simpl;
        [reflexivity|].
      destruct (s_group doc) as [prev|] eqn:Eg; [|reflexivity].
      change (Group_findById gid
                (removeParentFromGroupIfUnused (Some prev) (s_parent doc)
                   (Group_pull_student prev x st)) = Group_findById gid st).
      assert (Hne : prev <> gid).
      { intros ->. simpl in E. rewrite N.eqb_refl in E. discriminate. }
      rewrite removeParent_other by congruence.
      unfold Group_pull_student.
      apply Group_findById_update_other; [reflexivity|congruence]. }
    destruct (s_parent doc) as [p|]; simpl.
    + unfold Group_add_parent, Group_add_student.
      rewrite !Group_findById_update by reflexivity.
      rewrite H1. now rewrite option_map_map.
    + unfold Group_add_student.
      rewrite Group_findById_update by reflexivity. now rewrite H1.
  - now destruct (Group_findById gid st).
Qed.

(** *** the loop over [toRemove] *)

Lemma remove_student_find (gid : ObjectId) (st : Store) (x y : ObjectId) :
  Student_findById y (remove_student gid st x)
  = option_map (fun s => if N.eqb (s_id s) x then set_s_group None s else s)
               (Student_findById y st).
Proof.
  unfold remove_student.
  destruct (Student_findById x st) as [doc|] eqn:Hx.
  - pose proof (Student_findById_id _ _ Hx) as Hid.
    rewrite (@Student_findById_same y (Student_save_group (s_id doc) None st))
      by now rewrite students_removeParent.
    unfold Student_save_group.
    rewrite Student_findById_update by reflexivity. now rewrite Hid.
  - symmetry. apply option_map_fixed. intros s0 Hs0.
    destruct (N.eqb (s_id s0) x) eqn:E0; [|reflexivity].
    apply N.eqb_eq in E0.
    pose proof (Student_findById_id _ _ Hs0) as Hy. congruence.
Qed.

End RosterSteps.

(** ** The loop that detaches everybody *)

Section DetachAll.

Lemma detach_student_find (gid : ObjectId) (st : Store) (x y : ObjectId) :
  Student_findById y (detach_student gid st x)
  = option_map (fun s => if N.eqb (s_id s) x then set_s_group None s else s)
               (Student_findById y st).
Proof.
  unfold detach_student.
  destruct (Student_findById x st) as [doc|] eqn:Hx.
  - pose proof (Student_findById_id _ _ Hx) as Hid.
    rewrite (@Student_findById_same y (Student_save_group (s_id doc) None st))
      by now rewrite students_removeParent.
    unfold Student_save_group.
    rewrite Student_findById_update by reflexivity. now rewrite Hid.
  - symmetry. apply option_map_fixed. intros s0 Hs0.
    destruct (N.eqb (s_id s0) x) eqn:E0; [|reflexivity].
    apply N.eqb_eq in E0.
    pose proof (Student_findById_id _ _ Hs0) as Hy. congruence.
Qed.

Lemma student_ids_detach_student (gid : ObjectId) (st : Store) (x : ObjectId) :
  student_ids (detach_student gid st x) = student_ids st.
Proof.
  unfold detach_student. destruct (Student_findById x st); [|reflexivity].
  unfold student_ids. rewrite students_removeParent.
  now apply student_ids_update.
Qed.

Lemma filter_nonempty {A : Type} (f : A -> bool) (l : list A) :
  length (filter f l) <> 0 -> exists a, In a l /\ f a = true.
Proof.
  destruct (filter f l) as [|a r] eqn:E; simpl; [congruence|].
  intros _. exists a. apply filter_In. rewrite E. now left.
Qed.

Lemma filter_empty {A : Type} (f : A -> bool) (l : list A) (a : A) :
  length (filter f l) = 0 -> In a l -> f a = false.
Proof.
  intros H Hin. destruct (f a) eqn:E; [|reflexivity].
  assert (Hf : In a (filter f l)) by (apply filter_In; now split).
  destruct (filter f l); [destruct Hf|discriminate].
Qed.

End DetachAll.

(** ** Normalised names are clean *)

Section CleanNames.

Lemma spaceless_app (a b : jsstring) :
  spaceless (a ++ b) = spaceless a && spaceless b.
Proof. apply forallb_app. Qed.

Lemma tokens_spaceless (s cur : jsstring) :
  spaceless cur = true ->
  forallb spaceless (NameSpec.tokens_from cur s) = true.
Proof.
  revert cur. induction s as [|c r IH]; intros cur Hc.
  - simpl. destruct (is_empty cur); [reflexivity|].
    cbn [forallb]. now rewrite Hc.
  - cbn [NameSpec.tokens_from]. destruct (is_space c) eqn:E.
    + destruct (is_empty cur).
      * now apply IH.
      * cbn [forallb]. rewrite Hc. now apply IH.
    + apply IH. rewrite spaceless_app, Hc. unfold spaceless. simpl.
      now rewrite E.
Qed.

Lemma spaceless_hd_ok (t : jsstring) : spaceless t = true -> hd_ok t = true.
Proof.
  unfold spaceless. destruct t as [|c r]; simpl; [reflexivity|].
  intros H. now apply andb_true_iff in H.
Qed.

Lemma spaceless_ends_ok (t : jsstring) : spaceless t = true -> ends_ok t = true.
Proof.
  intros H. unfold ends_ok. apply spaceless_hd_ok.
  unfold spaceless in *. rewrite forallb_forall in *.
  intros c Hc. apply H. now apply in_rev.
Qed.

Lemma ends_ok_app (a b : jsstring) :
  b <> [] -> ends_ok (a ++ b) = ends_ok b.
Proof.
  intros Hb. unfold ends_ok. rewrite rev_app_distr.
  apply hd_ok_app. intros E. apply Hb.
  apply (f_equal (@rev _)) in E. now rewrite rev_involutive in E.
Qed.

Lemma join_sp_clean (parts : list jsstring) :
  forallb spaceless parts = true -> forallb nonempty parts = true ->
  hd_ok (join_sp parts) = true /\ ends_ok (join_sp parts) = true.
Proof.
  induction parts as [|t r IH]; simpl; intros Hs Hn; [now split|].
  apply andb_true_iff in Hs. destruct Hs as [Ht Hr].
  apply andb_true_iff in Hn. destruct Hn as [Hne Hnr].
  destruct r as [|u r'].
  - split; [now apply spaceless_hd_ok|now apply spaceless_ends_ok].
  - destruct (IH Hr Hnr) as [_ He].
    assert (Hte : t <> []) by (destruct t; [discriminate|congruence]).
    split.
    + rewrite hd_ok_app by exact Hte. now apply spaceless_hd_ok.
    + change (t ++ 32%N :: join_sp (u :: r'))
        with (t ++ [32%N] ++ join_sp (u :: r')).
      rewrite app_assoc. rewrite ends_ok_app; [exact He|].
      simpl in Hnr. apply andb_true_iff in Hnr. destruct Hnr as [Hu _].
      simpl. destruct r'; destruct u; simpl; try discriminate; congruence.
Qed.

Lemma default_name_clean : clean_names default_name.
Proof. repeat split. discriminate. Qed.

Lemma normalizeParentName_clean (rawName : option jsstring) :
  clean_names (normalizeParentName rawName).
Proof.
  destruct rawName as [s|]; [|apply default_name_clean].
  destruct s as [|c r]; [apply default_name_clean|].
  unfold normalizeParentName.
  set (cleaned := trim (c :: r)).
  destruct (is_empty cleaned) eqn:Hc; [apply default_name_clean|].
  assert (Hne : cleaned <> []) by (intros E; rewrite E in Hc; discriminate).
  unfold cleaned in *. rewrite (split_ws_trim (c :: r) Hne).
  pose proof (tokens_nonempty (trim (c :: r)) []) as Hall.
  pose proof (tokens_spaceless (trim (c :: r)) [] eq_refl) as Hsp.
  unfold NameSpec.tokens.
  destruct (NameSpec.tokens_from [] (trim (c :: r))) as [|first parts].
  - repeat split. discriminate.
  - simpl in Hall, Hsp.
    apply andb_true_iff in Hall. destruct Hall as [Hf Hrest].
    apply andb_true_iff in Hsp. destruct Hsp as [Hsf Hsrest].
    unfold nonempty in Hf. apply negb_true_iff in Hf. rewrite Hf.
    destruct (join_sp_clean parts Hsrest Hrest) as [H1 H2].
    repeat split; simpl.
    + intros E. rewrite E in Hf. discriminate.
    + apply trim_fixed;
        [now apply spaceless_hd_ok|now apply spaceless_ends_ok].
    + rewrite join_sp_match. now apply trim_fixed.
Qed.

End CleanNames.

(** ** Resolving one parent entry *)

Section ResolveStep.

Variable toLowerCase : jsstring -> jsstring.

Lemma jsstring_eqb_eq (a b : jsstring) : jsstring_eqb a b = true <-> a = b.
Proof.
  unfold jsstring_eqb. destruct (list_eq_dec N.eq_dec a b); split; congruence.
Qed.

Lemma opt_str_eqb_eq (a b : option jsstring) : opt_str_eqb a b = true <-> a = b.
Proof.
  destruct a, b; simpl; try (split; congruence).
  rewrite jsstring_eqb_eq. split; congruence.
Qed.

Lemma find_app_found {A : Type} (f : A -> bool) (l r : list A) (a : A) :
  find f l = Some a -> find f (l ++ r) = Some a.
Proof.
  induction l as [|b l' IH]; simpl; [discriminate|].
  destruct (f b); [trivial|exact IH].
Qed.

Lemma find_app_none {A : Type} (f : A -> bool) (l r : list A) :
  find f l = None -> find f (l ++ r) = find f r.
Proof.
  induction l as [|b l' IH]; simpl; [reflexivity|].
  destruct (f b); [discriminate|exact IH].
Qed.

End ResolveStep.

(** ** What the roster loops leave alone *)

Section RosterPhase.

Lemma rest_removeParent (go po : option ObjectId) (st : Store) :
  parents (removeParentFromGroupIfUnused go po st) = parents st
  /\ next_id (removeParentFromGroupIfUnused go po st) = next_id st.
Proof.
  unfold removeParentFromGroupIfUnused. destruct go, po; try now split.
  now destruct (Nat.eqb _ 0).
Qed.

Lemma rest_remove_student (gid : ObjectId) (st : Store) (x : ObjectId) :
  (parents (remove_student gid st x), next_id (remove_student gid st x))
  = (parents st, next_id st).
Proof.
  unfold remove_student. destruct (Student_findById x st); [|reflexivity].
  destruct (rest_removeParent (Some gid) (s_parent s)
              (Group_pull_student gid (s_id s)
                 (Student_save_group (s_id s) None st))) as [H1 H2].
  now rewrite H1, H2.
Qed.

Lemma rest_detach_student (gid : ObjectId) (st : Store) (x : ObjectId) :
  (parents (detach_student gid st x), next_id (detach_student gid st x))
  = (parents st, next_id st).
Proof.
  unfold detach_student. destruct (Student_findById x st); [|reflexivity].
  destruct (rest_removeParent (Some gid) (s_parent s)
              (Student_save_group (s_id s) None st)) as [H1 H2].
  now rewrite H1, H2.
Qed.

Lemma rest_assign_student (gid : ObjectId) (st : Store) (x : ObjectId) :
  (parents (assign_student gid st x), next_id (assign_student gid st x))
  = (parents st, next_id st).
Proof.
  unfold assign_student. destruct (Student_findById x st) as [doc|];
    [|reflexivity].
  assert (H : forall st',
             (parents st', next_id st') = (parents st, next_id st) ->
             (parents (match s_parent doc with
                       | Some pid =>
                           ensureParentInGroup gid (Some pid)
                             (Group_add_student gid (s_id doc) st')
                       | None => Group_add_student gid (s_id doc) st'
                       end),
              next_id (match s_parent doc with
                       | Some pid =>
                           ensureParentInGroup gid (Some pid)
                             (Group_add_student gid (s_id doc) st')
                       | None => Group_add_student gid (s_id doc) st'
                       end)) = (parents st, next_id st)).
  { intros st' E. now destruct (s_parent doc). }
  apply H. destruct (negb _); [|reflexivity].
  destruct (s_group doc) as [prev|]; [|reflexivity].
  destruct (rest_removeParent (Some prev) (s_parent doc)
              (Group_pull_student prev (s_id doc) st)) as [H1 H2].
  unfold Student_save_group, Student_update, with_students.
  cbn [parents next_id]. now rewrite H1, H2.
Qed.

Lemma rest_roster_phase (group : Group) (requested : list ObjectId)
  (st : Store) :
  parents (roster_phase group requested st) = parents st
  /\ next_id (roster_phase group requested st) = next_id st.
Proof.
  assert (H : (parents (roster_phase group requested st),
               next_id (roster_phase group requested st))
              = (parents st, next_id st)).
  { unfold roster_phase, detach_all, replace_roster.
    destruct (is_nil requested).
    - apply (fold_left_keeps (fun s => (parents s, next_id s))).
      intros s x. apply rest_detach_student.
    - rewrite (fold_left_keeps (fun s => (parents s, next_id s)));
        [|intros s x; apply rest_assign_student].
      apply (fold_left_keeps (fun s => (parents s, next_id s))).
      intros s x. apply rest_remove_student. }
  inversion H. now split.
Qed.

Lemma student_ids_removeParent (go po : option ObjectId) (st : Store) :
  student_ids (removeParentFromGroupIfUnused go po st) = student_ids st.
Proof. unfold student_ids. now rewrite students_removeParent. Qed.

Lemma student_ids_remove_student (gid : ObjectId) (st : Store) (x : ObjectId) :
  student_ids (remove_student gid st x) = student_ids st.
Proof.
  unfold remove_student. destruct (Student_findById x st); [|reflexivity].
  rewrite student_ids_removeParent.
  change (student_ids (Student_save_group (s_id s) None st) = student_ids st).
  now apply student_ids_update.
Qed.

Lemma student_ids_assign_student (gid : ObjectId) (st : Store) (x : ObjectId) :
  student_ids (assign_student gid st x) = student_ids st.
Proof.
  unfold assign_student. destruct (Student_findById x st) as [doc|];
    [|reflexivity].
  set (st1 := if negb _ then _ else st).
  assert (H1 : student_ids st1 = student_ids st).
  { unfold st1. destruct (negb _); [|reflexivity].
    unfold Student_save_group. rewrite student_ids_update by reflexivity.
    destruct (s_group doc); [|reflexivity].
    now rewrite student_ids_removeParent. }
  now destruct (s_parent doc).
Qed.

Lemma student_ids_roster_phase (group : Group) (requested : list ObjectId)
  (st : Store) :
  student_ids (roster_phase group requested st) = student_ids st.
Proof.
  unfold roster_phase, detach_all, replace_roster.
  destruct (is_nil requested).
  - apply fold_left_keeps. intros s x. apply student_ids_detach_student.
  - rewrite (fold_left_keeps student_ids);
      [|intros s x; apply student_ids_assign_student].
    apply fold_left_keeps. intros s x. apply student_ids_remove_student.
Qed.

Lemma found_count_ids (requested : list ObjectId) (st : Store) :
  length (Student_find_in requested st)
  = length (filter (fun i => mem i requested) (student_ids st)).
Proof.
  unfold Student_find_in, student_ids.
  induction (students st) as [|s0 r IH]; simpl; [reflexivity|].
  destruct (mem (s_id s0) requested); simpl; now rewrite IH.
Qed.

End RosterPhase.

(** ** Lookups in a filtered collection *)

Section Filtered.

Lemma find_filter_keep {A : Type} (f g : A -> bool) (l : list A) (a : A) :
  find f l = Some a -> g a = true -> find f (filter g l) = Some a.
Proof.
  induction l as [|x r IH]; simpl; [discriminate|].
  destruct (f x) eqn:Fx.
  - intros H Hg. inversion H; subst x. rewrite Hg. simpl. now rewrite Fx.
  - intros H Hg. destruct (g x); simpl; [rewrite Fx|]; now apply IH.
Qed.

Lemma find_filter_none {A : Type} (f g : A -> bool) (l : list A) :
  find f l = None -> find f (filter g l) = None.
Proof.
  induction l as [|x r IH]; simpl; [reflexivity|].
  destruct (f x) eqn:Fx; [discriminate|].
  intros H. destruct (g x); simpl; [rewrite Fx|]; now apply IH.
Qed.

End Filtered.

Section FilterTwice.

Lemma filter_filter {A : Type} (f g : A -> bool) (l : list A) :
  filter f (filter g l) = filter (fun a => g a && f a) l.
Proof.
  induction l as [|a r IH]; simpl; [reflexivity|].
  destruct (g a); simpl; [destruct (f a)|]; now rewrite IH.
Qed.

End FilterTwice.

(** ** Pieces of the bulk update *)

Section PatchPieces.

Variable toLowerCase : jsstring -> jsstring.

Lemma assign_fields_lists (body : FullPatch) (g : Group) :
  g_students (assign_fields body g) = g_students g
  /\ g_parents (assign_fields body g) = g_parents g
  /\ g_teachers (assign_fields body g) = g_teachers g.
Proof.
  unfold assign_fields.
  now destruct (fp_name body), (fp_location body), (fp_description body).
Qed.

Lemma filter_mem_self (l : list ObjectId) :
  filter (fun x => negb (mem x l)) l = [].
Proof.
  assert (H : forall m, incl m l -> filter (fun x => negb (mem x l)) m = []).
  { induction m as [|x r IH]; intros Hi; simpl; [reflexivity|].
    rewrite (proj2 (mem_In x l)) by (apply Hi; now left). simpl.
    apply IH. intros y Hy. apply Hi. now right. }
  apply H, incl_refl.
Qed.

Lemma In_studentParentIds (gid p : ObjectId) (st : Store) (doc : Student) :
  In doc (students st) -> s_group doc = Some gid -> s_parent doc = Some p ->
  In p (studentParentIds gid st).
Proof.
  intros Hin Hg Hp. unfold studentParentIds, Student_find_group.
  apply In_dedup, In_filter_some. rewrite <- Hp. apply in_map.
  apply filter_In. split; [exact Hin|]. now apply opt_id_eqb_eq.
Qed.

(** the group found after the roster phase carries the stored name,
    location and description *)
Lemma roster_phase_group (group loaded : Group) (requested : list ObjectId)
  (id : ObjectId) (st : Store) :
  Group_findById id st = Some loaded ->
  exists loaded1,
    Group_findById id (roster_phase group requested st) = Some loaded1
    /\ (g_name loaded1, g_location loaded1, g_description loaded1)
       = (g_name loaded, g_location loaded, g_description loaded).
Proof.
  intros Hl.
  pose proof (find_view (fun g => (g_name g, g_location g, g_description g))
                id (roster_phase group requested st)) as F1.
  pose proof (find_view (fun g => (g_name g, g_location g, g_description g))
                id st) as F0.
  rewrite (gview_roster_phase
             (fun g => (g_id g, (g_name g, g_location g, g_description g))))
    in F1 by reflexivity.
  rewrite <- F0, Hl in F1.
  destruct (Group_findById id (roster_phase group requested st)) as [g1|];
    [|discriminate].
  exists g1. split; [reflexivity|]. simpl in F1. now inversion F1.
Qed.

End PatchPieces.

(** ** The bulk update run twice *)

(** C1.  The bulk update is not idempotent.  On the school, an
    administrator empties the roster of group 1 and names the stored
    parent a@x.com as a parent of the group.  Both runs answer 200.  The
    first run leaves the group without a parent: the detach loop pulled
    parent 21 from the stored array, and the list the handler assigns to
    [group.parents], [[21]], is the one that was loaded, so [save()]
    does not write it.  The second run loads the empty array, assigns
    [[21]] and this time it is written.  Students and parents are the same
    after one run and after two, the groups are not. *)
Theorem patch_full_not_idempotent :
  status_of
    (fst (patch_full Example.lowerCase role_admin 1%N Example.parent_only
            Example.school)) = 200
  /\ status_of
       (fst (patch_full Example.lowerCase role_admin 1%N Example.parent_only
               (snd (patch_full Example.lowerCase role_admin 1%N
                       Example.parent_only Example.school)))) = 200
  /\ option_map g_parents
       (Group_findById 1%N
          (snd (patch_full Example.lowerCase role_admin 1%N
                  Example.parent_only Example.school)))
     = Some []
  /\ option_map g_parents
       (Group_findById 1%N
          (snd (patch_full Example.lowerCase role_admin 1%N
                  Example.parent_only
                  (snd (patch_full Example.lowerCase role_admin 1%N
                          Example.parent_only Example.school)))))
     = Some [21%N]
  /\ snd (patch_full Example.lowerCase role_admin 1%N Example.parent_only
            (snd (patch_full Example.lowerCase role_admin 1%N
                    Example.parent_only Example.school)))
     <> snd (patch_full Example.lowerCase role_admin 1%N Example.parent_only
               Example.school).
Proof.
  split; [vm_compute; reflexivity|].
  split; [vm_compute; reflexivity|].
  split; [vm_compute; reflexivity|].
  split; [vm_compute; reflexivity|].
  intros E.
  assert (K : option_map g_parents
                (Group_findById 1%N
                   (snd (patch_full Example.lowerCase role_admin 1%N
                           Example.parent_only
                           (snd (patch_full Example.lowerCase role_admin 1%N
                                   Example.parent_only Example.school)))))
              = Some []).
  { rewrite E. vm_compute. reflexivity. }
  vm_compute in K. discriminate K.
Qed.

Lemma school_well_formed : well_formed Example.school.
Proof.
  constructor.
  - repeat constructor. simpl. tauto.
  - repeat constructor; simpl; intuition discriminate.
  - repeat constructor. simpl. tauto.
  - intros p [<-|[]]. reflexivity.
Defined.

(** ** The group document after the roster loops *)

Section StoredGroup.

Lemma ids_eqb_eq (a b : list ObjectId) : ids_eqb a b = true <-> a = b.
Proof.
  unfold ids_eqb. destruct (list_eq_dec N.eq_dec a b); split; congruence.
Qed.

Lemma count_nonzero (gid pid : ObjectId) (st : Store) :
  Student_count_group_parent gid pid st <> 0
  <-> exists s, In s (students st)
                /\ s_group s = Some gid /\ s_parent s = Some pid.
Proof.
  unfold Student_count_group_parent. split.
  - intros H. apply filter_nonempty in H. destruct H as [s [Hin Hs]].
    apply andb_true_iff in Hs. destruct Hs as [H1 H2].
    exists s. split; [exact Hin|]. split; now apply opt_id_eqb_eq.
  - intros [s [Hin [Hg Hp]]] H.
    pose proof (@filter_empty _ _ _ s H Hin) as F. cbv beta in F.
    rewrite (proj2 (opt_id_eqb_eq _ _) Hg) in F.
    rewrite (proj2 (opt_id_eqb_eq _ _) Hp) in F. discriminate.
Qed.

Lemma students_remove_student (gid : ObjectId) (st : Store) (x : ObjectId)
  (doc : Student) :
  Student_findById x st = Some doc ->
  students (remove_student gid st x)
  = map (fun s => if N.eqb (s_id s) x then set_s_group None s else s)
        (students st).
Proof.
  intros F. unfold remove_student. rewrite F.
  rewrite students_removeParent. now rewrite (Student_findById_id _ _ F).
Qed.

Lemma students_detach_student (gid : ObjectId) (st : Store) (x : ObjectId)
  (doc : Student) :
  Student_findById x st = Some doc ->
  students (detach_student gid st x)
  = map (fun s => if N.eqb (s_id s) x then set_s_group None s else s)
        (students st).
Proof.
  intros F. unfold detach_student. rewrite F.
  rewrite students_removeParent. now rewrite (Student_findById_id _ _ F).
Qed.

Lemma students_assign_student (gid : ObjectId) (st : Store) (x : ObjectId)
  (doc : Student) :
  Student_findById x st = Some doc ->
  students (assign_student gid st x)
  = if negb (opt_id_eqb (s_group doc) (Some gid))
    then map (fun s => if N.eqb (s_id s) x then set_s_group (Some gid) s
                       else s) (students st)
    else students st.
Proof.
  intros F. unfold assign_student. rewrite F.
  rewrite (Student_findById_id _ _ F).
  set (st1 := if negb _ then _ else st).
  assert (H : students
                match s_parent doc with
                | Some pid =>
                    ensureParentInGroup gid (Some pid)
                      (Group_add_student gid x st1)
                | None => Group_add_student gid x st1
                end = students st1)
    by (now destruct (s_parent doc)).
  rewrite H. unfold st1. destruct (negb _); [|reflexivity].
  destruct (s_group doc); [|reflexivity].
  unfold Student_save_group, Student_update, with_students. cbn [students].
  now rewrite students_removeParent.
Qed.

(** a turn of a loop that pulls: what it does to the parents array *)
Lemma remove_student_parents (gid : ObjectId) (st : Store) (x : ObjectId) :
  exists phi,
    Group_findById gid (remove_student gid st x)
    = option_map phi (Group_findById gid st)
    /\ forall g,
         g_parents (phi g) = g_parents g
         \/ exists q,
              g_parents (phi g) = pull q (g_parents g)
              /\ Student_count_group_parent gid q (remove_student gid st x)
                 = 0.
Proof.
  unfold remove_student.
  destruct (Student_findById x st) as [doc|] eqn:Hx.
  - rewrite removeParent_same. unfold Group_pull_student.
    rewrite Group_findById_update by reflexivity.
    change (Group_findById gid (Student_save_group (s_id doc) None st))
      with (Group_findById gid st).
    rewrite option_map_map. eexists. split; [reflexivity|].
    intros g. cbv beta. destruct (s_parent doc) as [q|]; [|now left].
    destruct (Nat.eqb _ 0) eqn:E; [|now left].
    right. exists q. split; [reflexivity|].
    apply Nat.eqb_eq in E. unfold Student_count_group_parent in *.
    now rewrite students_removeParent.
  - exists (fun g => g). split; [now destruct (Group_findById gid st)|].
    now left.
Qed.

Lemma detach_student_parents (gid : ObjectId) (st : Store) (x : ObjectId) :
  exists phi,
    Group_findById gid (detach_student gid st x)
    = option_map phi (Group_findById gid st)
    /\ forall g,
         g_parents (phi g) = g_parents g
         \/ exists q,
              g_parents (phi g) = pull q (g_parents g)
              /\ Student_count_group_parent gid q (detach_student gid st x)
                 = 0.
Proof.
  unfold detach_student.
  destruct (Student_findById x st) as [doc|] eqn:Hx.
  - rewrite removeParent_same.
    change (Group_findById gid (Student_save_group (s_id doc) None st))
      with (Group_findById gid st).
    eexists. split; [reflexivity|].
    intros g. cbv beta. destruct (s_parent doc) as [q|]; [|now left].
    destruct (Nat.eqb _ 0) eqn:E; [|now left].
    right. exists q. split; [reflexivity|].
    apply Nat.eqb_eq in E. unfold Student_count_group_parent in *.
    now rewrite students_removeParent.
  - exists (fun g => g). split; [now destruct (Group_findById gid st)|].
    now left.
Qed.

(** a step that only pulls from the parents array and only takes students
    out of the group *)
Lemma pulls_keep_within (gid : ObjectId) (L : list ObjectId)
  (st st' : Store) (phi : Group -> Group) :
  Group_findById gid st' = option_map phi (Group_findById gid st) ->
  (forall g,
      g_parents (phi g) = g_parents g
      \/ exists q, g_parents (phi g) = pull q (g_parents g)
                   /\ Student_count_group_parent gid q st' = 0) ->
  (forall t, In t (students st') -> s_group t = Some gid ->
             In t (students st)) ->
  map s_id (students st') = map s_id (students st) ->
  parents_within gid L st -> parents_within gid L st'.
Proof.
  intros F Hphi Hst Hids [g [Fg [Hnd [Hin Hcov]]]].
  exists (phi g). rewrite F, Fg. split; [reflexivity|].
  unfold covers in *.
  destruct (Hphi g) as [E|[q [E Hc]]]; rewrite E.
  - split; [exact Hnd|]. split; [exact Hin|].
    intros N t p Ht Hg Hp HL. rewrite Hids in N.
    apply (Hcov N t p); auto.
  - split; [intros N; apply NoDup_pull; auto|].
    split; [intros p Hp; apply In_pull in Hp; apply Hin; tauto|].
    intros N t p Ht Hg Hp HL. rewrite Hids in N.
    apply In_pull. split; [apply (Hcov N t p); auto|].
    intros ->. apply (proj2 (count_nonzero gid q st')); [|exact Hc].
    now exists t.
Qed.

Lemma grouped_before (x gid : ObjectId) (l : list Student) (t : Student) :
  In t (map (fun s => if N.eqb (s_id s) x then set_s_group None s else s) l) ->
  s_group t = Some gid -> In t l.
Proof.
  intros Hin Hg. apply in_map_iff in Hin. destruct Hin as [t0 [E Hin]].
  destruct (N.eqb (s_id t0) x); subst t; [discriminate|exact Hin].
Qed.

Lemma remove_student_within (gid : ObjectId) (L : list ObjectId)
  (st : Store) (x : ObjectId) :
  parents_within gid L st -> parents_within gid L (remove_student gid st x).
Proof.
  destruct (remove_student_parents gid st x) as [phi [F Hphi]].
  apply pulls_keep_within with phi; trivial.
  - intros t Hin Hg. destruct (Student_findById x st) as [doc|] eqn:Hx.
    + rewrite (students_remove_student gid _ _ Hx) in Hin.
      now apply grouped_before with x gid.
    + unfold remove_student in Hin. now rewrite Hx in Hin.
  - apply student_ids_remove_student.
Qed.

Lemma detach_student_within (gid : ObjectId) (L : list ObjectId)
  (st : Store) (x : ObjectId) :
  parents_within gid L st -> parents_within gid L (detach_student gid st x).
Proof.
  destruct (detach_student_parents gid st x) as [phi [F Hphi]].
  apply pulls_keep_within with phi; trivial.
  - intros t Hin Hg. destruct (Student_findById x st) as [doc|] eqn:Hx.
    + rewrite (students_detach_student gid _ _ Hx) in Hin.
      now apply grouped_before with x gid.
    + unfold detach_student in Hin. now rewrite Hx in Hin.
  - apply student_ids_detach_student.
Qed.

Lemma within_kept (gid : ObjectId) (L : list ObjectId) (st : Store) :
  parents_within gid L st -> parents_kept gid L st.
Proof.
  intros [g [F [N [I C]]]]. exists g. repeat split; trivial.
  intros p Hp. left. now apply I.
Qed.

Lemma assign_student_kept (gid : ObjectId) (L : list ObjectId)
  (st : Store) (x : ObjectId) :
  parents_kept gid L st -> parents_kept gid L (assign_student gid st x).
Proof.
  intros [g [Fg [Hnd [Hb Hc]]]].
  destruct (Student_findById x st) as [doc|] eqn:Hx;
    [|unfold assign_student; rewrite Hx; exists g; now repeat split].
  pose proof (Student_findById_id _ _ Hx) as Hid.
  assert (Hdoc : In doc (students st)).
  { apply find_some in Hx. now destruct Hx. }
  pose proof (students_assign_student gid _ _ Hx) as Hs.
  set (st' := assign_student gid st x) in *.
  assert (S1 : forall t, In t (students st) -> s_group t = Some gid ->
                         In t (students st')).
  { intros t Hin Hg. rewrite Hs. destruct (negb _); [|exact Hin].
    apply in_map_iff. exists t. split; [|exact Hin].
    destruct (N.eqb (s_id t) x); [|reflexivity].
    rewrite <- Hg. apply set_s_group_same. }
  assert (S2 : forall t', In t' (students st') ->
             exists t0, In t0 (students st) /\ s_parent t' = s_parent t0
                        /\ (t' = t0 \/ s_id t0 = x)).
  { intros t' Hin. rewrite Hs in Hin. destruct (negb _).
    - apply in_map_iff in Hin. destruct Hin as [t0 [E Hin]].
      exists t0. split; [exact Hin|].
      destruct (N.eqb (s_id t0) x) eqn:Ex; subst t'.
      + split; [reflexivity|]. right. now apply N.eqb_eq.
      + split; [reflexivity|now left].
    - exists t'. split; [exact Hin|]. split; [reflexivity|now left]. }
  assert (S3 : exists t', In t' (students st') /\ s_group t' = Some gid
                          /\ s_parent t' = s_parent doc).
  { rewrite Hs. destruct (opt_id_eqb (s_group doc) (Some gid)) eqn:Eg;
      cbn [negb].
    - exists doc. split; [exact Hdoc|]. split; [|reflexivity].
      now apply opt_id_eqb_eq.
    - exists (set_s_group (Some gid) doc). split; [|now split].
      apply in_map_iff. exists doc. split; [|exact Hdoc].
      now rewrite Hid, N.eqb_refl. }
  assert (Hids : map s_id (students st') = map s_id (students st))
    by apply student_ids_assign_student.
  pose proof (assign_student_group gid st x) as F.
  fold st' in F. rewrite Fg, Hx in F. cbn [option_map] in F.
  eexists. split; [exact F|].
  assert (Ep : forall p,
             In p (g_parents
                     (let g1 := set_g_students (addToSet x (g_students g)) g in
                      match s_parent doc with
                      | Some q => set_g_parents (addToSet q (g_parents g1)) g1
                      | None => g1
                      end))
             <-> s_parent doc = Some p \/ In p (g_parents g)).
  { intros p. cbv zeta. destruct (s_parent doc) as [q|]; simpl.
    - rewrite In_addToSet. split; intros [H|H]; auto.
      + left. now subst.
      + left. congruence.
    - split; [now right|]. intros [H|H]; [discriminate|exact H]. }
  split; [|split].
  - intros N. cbv zeta. destruct (s_parent doc) as [q|]; simpl; auto.
    apply NoDup_addToSet. auto.
  - intros p Hp. apply Ep in Hp. destruct Hp as [Hp|Hp].
    + right. destruct S3 as [t' [Hin [Hg Hpa]]]. exists t'.
      split; [exact Hin|]. split; [exact Hg|]. congruence.
    + destruct (Hb p Hp) as [HL|[t [Hin [Hg Hpa]]]]; [now left|].
      right. exists t. split; [now apply S1|now split].
  - intros N t' p Hin Hg Hpa HL. rewrite Hids in N. apply Ep.
    destruct (S2 t' Hin) as [t0 [Hin0 [Epar [->|Ex]]]].
    + right. now apply (Hc N t0 p).
    + left. pose proof (@find_unique _ s_id _ t0 N Hin0) as Fu.
      rewrite Ex in Fu. unfold Student_findById in Hx. rewrite Hx in Fu.
      injection Fu as ->. congruence.
Qed.

Lemma roster_phase_parents (group loaded : Group)
  (requested : list ObjectId) (st : Store) :
  Group_findById (g_id group) st = Some loaded ->
  parents_kept (g_id group) (g_parents loaded)
               (roster_phase group requested st).
Proof.
  intros F.
  assert (W : parents_within (g_id group) (g_parents loaded) st).
  { exists loaded. split; [exact F|]. split; [trivial|].
    split; [apply incl_refl|]. intros _ t p _ _ _ H. exact H. }
  unfold roster_phase, detach_all, replace_roster.
  destruct (is_nil requested).
  - apply within_kept. revert W.
    apply (fold_left_invariant
             (parents_within (g_id group) (g_parents loaded))).
    intros s x _. apply detach_student_within.
  - apply (fold_left_invariant
             (parents_kept (g_id group) (g_parents loaded))).
    + intros s x _. apply assign_student_kept.
    + apply within_kept. revert W.
      apply (fold_left_invariant
               (parents_within (g_id group) (g_parents loaded))).
      intros s x _. apply remove_student_within.
Qed.

(** the roster the loops leave when the request names the loaded roster *)
Lemma roster_phase_same_roster (group loaded : Group) (st : Store) :
  Group_findById (g_id group) st = Some loaded ->
  g_students group = g_students loaded ->
  exists g1,
    Group_findById (g_id group)
      (roster_phase group (g_students loaded) st) = Some g1
    /\ g_students g1 = g_students loaded.
Proof.
  intros F Hr. unfold roster_phase, detach_all, replace_roster.
  rewrite Hr. destruct (is_nil (g_students loaded)) eqn:En.
  - destruct (g_students loaded) eqn:EL; [|discriminate]. simpl.
    now exists loaded.
  - rewrite filter_mem_self. cbn [fold_left].
    apply (fold_left_invariant
             (fun s => exists g1,
                  Group_findById (g_id group) s = Some g1
                  /\ g_students g1 = g_students loaded)).
    + intros s x Hx [g1 [F1 R1]].
      rewrite assign_student_group, F1. cbn [option_map].
      eexists. split; [reflexivity|].
      destruct (Student_findById x s) as [doc|]; [|exact R1].
      cbv zeta. assert (E : addToSet x (g_students g1) = g_students loaded).
      { rewrite R1. now apply addToSet_present. }
      destruct (s_parent doc); simpl; exact E.
    + now exists loaded.
Qed.

End StoredGroup.

(** ** A bulk update that is answered 200 *)

Section Saved.

Variable toLowerCase : jsstring -> jsstring.

Lemma save_path_unchanged {A : Type} (eqb : A -> A -> bool)
  (loaded assigned : A) :
  (eqb assigned loaded = true -> assigned = loaded) ->
  save_path eqb loaded assigned loaded = assigned.
Proof.
  intros H. unfold save_path.
  destruct (eqb assigned loaded); [symmetry; now apply H|reflexivity].
Qed.

Lemma students_cleanup_parent (gid r : ObjectId) (st : Store) :
  students (cleanup_parent gid st r) = students st.
Proof.
  unfold cleanup_parent.
  destruct (_ || _); [|unfold Parent_deleteOne, with_parents; cbn [students]];
    apply students_removeParent.
Qed.

Lemma resolve_parents_ids (payload : list ParentItem) :
  forall (set ids : list ObjectId) (st st' : Store),
    resolve_parents toLowerCase payload set st = ParentsDone ids st' ->
    incl set ids /\ (NoDup set -> NoDup ids).
Proof.
  induction payload as [|item rest IH]; intros set ids st st' H; simpl in H.
  - inversion H; subst. split; [apply incl_refl|trivial].
  - destruct (item_email toLowerCase item) as [email|]; [|discriminate].
    destruct (resolve_parent toLowerCase email _ st) as [[pid s1]|];
      [|discriminate].
    destruct (IH _ _ _ _ H) as [Hi Hn]. split.
    + intros x Hx. apply Hi. apply In_addToSet. now right.
    + intros Hnd. apply Hn. now apply NoDup_addToSet.
Qed.

Lemma cleanup_find (gid : ObjectId) (removed : list ObjectId) :
  forall (st : Store) (g : Group),
    Group_findById gid st = Some g ->
    (forall r, In r removed -> ~ In r (g_parents g)) ->
    Group_findById gid (fold_left (cleanup_parent gid) removed st) = Some g.
Proof.
  induction removed as [|r removed IH]; intros st g Hf Hr; simpl;
    [exact Hf|].
  apply IH; [|intros r' Hr'; apply Hr; now right].
  unfold cleanup_parent.
  assert (H1 : Group_findById gid
                 (removeParentFromGroupIfUnused (Some gid) (Some r) st)
               = Some g).
  { rewrite removeParent_same, Hf. simpl. f_equal.
    destruct (Nat.eqb _ 0); [|reflexivity].
    rewrite pull_absent by (apply Hr; now left).
    apply set_g_parents_same. }
  destruct (_ || _); exact H1.
Qed.

(** what the answer 200 tells: [g1] is the stored document of the group
    after the roster loops, [g'] the one the request leaves *)
Lemma patch_full_accepted (role : Role) (id : ObjectId) (body : FullPatch)
  (st : Store) (data : option Group) :
  fst (patch_full toLowerCase role id body st) = Json 200 data ->
  exists loaded ids Z g1 g',
    Group_findById id st = Some loaded
    /\ roster_valid (requestedStudentIds (fp_studentIds body)) st = true
    /\ parents_phase toLowerCase body id
         (roster_phase (assign_fields body loaded)
            (requestedStudentIds (fp_studentIds body)) st)
       = ParentsDone ids Z
    /\ students (snd (patch_full toLowerCase role id body st))
       = students (roster_phase (assign_fields body loaded)
                     (requestedStudentIds (fp_studentIds body)) st)
    /\ Group_findById id
         (roster_phase (assign_fields body loaded)
            (requestedStudentIds (fp_studentIds body)) st) = Some g1
    /\ data = Some g'
    /\ Group_findById id (snd (patch_full toLowerCase role id body st))
       = Some g'
    /\ g_students g' = requestedStudentIds (fp_studentIds body)
    /\ g_parents g' = save_path ids_eqb (g_parents loaded) ids (g_parents g1)
    /\ (g_name g', g_location g', g_description g')
       = (g_name (assign_fields body loaded),
          g_location (assign_fields body loaded),
          g_description (assign_fields body loaded)).
Proof.
  unfold patch_full.
  destruct (negb (is_admin role)); [discriminate|].
  destruct (Group_findById id st) as [loaded|] eqn:Hl; [|discriminate].
  destruct (roster_valid _ st) eqn:Hv; [|discriminate]. cbn [negb].
  set (group := assign_fields body loaded).
  set (requested := requestedStudentIds (fp_studentIds body)).
  assert (Hid : g_id group = id).
  { unfold group. rewrite g_id_assign_fields.
    now apply Group_findById_id with st. }
  destruct (assign_fields_lists body loaded) as [Hgs [Hgp _]].
  fold group in Hgs, Hgp.
  change (g_id (set_g_students requested group)) with (g_id group).
  rewrite Hid.
  set (st1 := roster_phase group requested st).
  destruct (parents_phase_frame toLowerCase body id st1) as [Pg Ps].
  destruct (@roster_phase_group group loaded requested id st Hl)
    as [g1 [F1 Hnames]].
  fold st1 in F1.
  destruct (parents_phase toLowerCase body id st1) as [ids Z|Z|Z] eqn:Hp;
    try discriminate.
  simpl in Pg, Ps.
  unfold finish_patch, Group_save.
  destruct (_ || _); [discriminate|]. cbn [fst snd].
  change (g_id (set_g_parents ids (set_g_students requested group)))
    with (g_id group).
  change (g_id (set_g_students requested group)) with (g_id group).
  change (g_parents (set_g_students requested group)) with (g_parents group).
  rewrite Hid, Hgp.
  set (Zs := Group_update id _ Z).
  assert (Hz : Group_findById id Z = Some g1)
    by (unfold Group_findById in *; now rewrite Pg).
  set (g' := mkGroup (g_id g1)
               (save_path jsstring_eqb (g_name loaded) (g_name group)
                          (g_name g1))
               (save_path jsstring_eqb (g_location loaded) (g_location group)
                          (g_location g1))
               (save_path opt_str_eqb (g_description loaded)
                          (g_description group) (g_description g1))
               (g_teachers g1)
               (save_path ids_eqb (g_students loaded) requested
                          (g_students g1))
               (save_path ids_eqb (g_parents loaded) ids (g_parents g1))).
  assert (Hf : Group_findById id Zs = Some g').
  { unfold Zs. rewrite Group_findById_update by reflexivity.
    now rewrite Hz. }
  assert (Hfin : Group_findById id
                   (fold_left (cleanup_parent id)
                      (filter (fun i => negb (mem i ids)) (g_parents loaded))
                      Zs) = Some g').
  { apply cleanup_find; [exact Hf|]. intros r Hr. simpl.
    unfold save_path. destruct (ids_eqb ids (g_parents loaded)) eqn:E.
    - apply ids_eqb_eq in E. rewrite <- E, filter_mem_self in Hr.
      destruct Hr.
    - apply filter_In in Hr. destruct Hr as [_ Hr].
      apply negb_true_iff in Hr. now apply mem_false. }
  intros H. inversion H; subst data; clear H.
  exists loaded, ids, Z, g1, g'.
  split; [reflexivity|]. split; [reflexivity|]. split; [exact Hp|].
  split.
  { rewrite (fold_left_keeps students);
      [exact Ps|intros s r; apply students_cleanup_parent]. }
  split; [exact F1|]. split; [exact Hfin|]. split; [exact Hfin|].
  split; [|split; [reflexivity|]].
  - simpl. unfold save_path.
    destruct (ids_eqb requested (g_students loaded)) eqn:E; [|reflexivity].
    apply ids_eqb_eq in E.
    destruct (@roster_phase_same_roster group loaded st) as [g2 [F2 R2]];
      [now rewrite Hid|exact Hgs|].
    rewrite Hid, <- E in F2. fold st1 in F2. rewrite F1 in F2.
    injection F2 as <-. now rewrite R2.
  - simpl. injection Hnames as -> -> ->.
    rewrite !save_path_unchanged; trivial.
    + apply opt_str_eqb_eq.
    + apply jsstring_eqb_eq.
    + apply jsstring_eqb_eq.
Qed.

(** the parents array that a request answered 200 leaves *)
Lemma patch_full_parents_listed (role : Role) (id : ObjectId)
  (body : FullPatch) (st : Store) (data : option Group) :
  fst (patch_full toLowerCase role id body st) = Json 200 data ->
  exists g',
    data = Some g'
    /\ Group_findById id (snd (patch_full toLowerCase role id body st))
       = Some g'
    /\ NoDup (g_parents g')
    /\ (NoDup (student_ids st) ->
        forall s p,
          In s (students (snd (patch_full toLowerCase role id body st))) ->
          s_group s = Some id -> s_parent s = Some p ->
          In p (g_parents g'))
    /\ (fp_parents body = [] ->
        forall p, In p (g_parents g') ->
          exists s,
            In s (students (snd (patch_full toLowerCase role id body st)))
            /\ s_group s = Some id /\ s_parent s = Some p).
Proof.
  intros H.
  destruct (patch_full_accepted _ _ _ _ H)
    as [loaded [ids [Z [g1 [g' [Hl [Hv [Hp [Hs [F1 [Hd [Hf [_ [Hpar _]]]]]]]]]]]]]].
  exists g'. split; [exact Hd|]. split; [exact Hf|].
  set (group := assign_fields body loaded) in *.
  set (requested := requestedStudentIds (fp_studentIds body)) in *.
  assert (Hid : g_id group = id).
  { unfold group. rewrite g_id_assign_fields.
    now apply Group_findById_id with st. }
  assert (Hl' : Group_findById (g_id group) st = Some loaded)
    by (now rewrite Hid).
  destruct (@roster_phase_parents group loaded requested st Hl')
    as [g1' [F1' [Kn [Kb Kc]]]].
  rewrite Hid, F1 in F1'. injection F1' as <-. rewrite Hid in Kb, Kc.
  unfold parents_phase in Hp.
  pose proof Hp as Hp'. apply resolve_parents_ids in Hp'.
  destruct Hp' as [Hincl Hnd].
  assert (Hsrc : forall p,
             In p (dedup (studentParentIds id
                            (roster_phase group requested st))) ->
             exists s,
               In s (students (roster_phase group requested st))
               /\ s_group s = Some id /\ s_parent s = Some p).
  { intros p Hin. unfold studentParentIds, Student_find_group in Hin.
    rewrite !In_dedup, In_filter_some, in_map_iff in Hin.
    destruct Hin as [s [Hpa Hin]]. apply filter_In in Hin.
    destruct Hin as [Hin Hg]. apply opt_id_eqb_eq in Hg.
    exists s. now repeat split. }
  rewrite Hpar, Hs. unfold save_path.
  destruct (ids_eqb ids (g_parents loaded)) eqn:E.
  - apply ids_eqb_eq in E. split; [|split].
    + apply Kn. rewrite <- E. apply Hnd, NoDup_dedup.
    + intros N s p Hin Hg Hpa. apply (Kc) with s; trivial.
      * change (NoDup (student_ids (roster_phase group requested st))).
        now rewrite student_ids_roster_phase.
      * rewrite <- E. apply Hincl. apply In_dedup.
        now apply In_studentParentIds with s.
    + intros He p Hin. rewrite He in Hp. simpl in Hp.
      injection Hp as Hids _.
      destruct (Kb p Hin) as [HL|Hw]; [|exact Hw].
      apply Hsrc. rewrite Hids, E. exact HL.
  - split; [|split].
    + apply Hnd, NoDup_dedup.
    + intros _ s p Hin Hg Hpa. apply Hincl. apply In_dedup.
      now apply In_studentParentIds with s.
    + intros He p Hin. rewrite He in Hp. simpl in Hp.
      injection Hp as Hids _. apply Hsrc. now rewrite Hids.
Qed.

End Saved.

(** C10.  When the bulk update answers 200, the stored roster of the group
    is the list of requested ids without its falsy entries and without
    repetitions: it has no duplicate, and holds exactly the ids listed in
    the body.  When the request names the roster that was loaded,
    [save()] does not write the path and the loops have left that
    roster in the store. *)
Theorem patch_full_sets_roster (toLowerCase : jsstring -> jsstring)
  (role : Role) (id : ObjectId) (body : FullPatch) (st : Store)
  (data : option Group) :
  fst (patch_full toLowerCase role id body st) = Json 200 data ->
  exists g',
    data = Some g'
    /\ Group_findById id (snd (patch_full toLowerCase role id body st)) = Some g'
    /\ g_students g' = requestedStudentIds (fp_studentIds body)
    /\ NoDup (g_students g')
    /\ (forall x, In x (g_students g') <-> In (Some x) (fp_studentIds body)).
Proof.
  intros H.
  destruct (patch_full_accepted _ _ _ _ _ H)
    as [loaded [ids [Z [g1 [g' [_ [_ [_ [_ [_ [Hd [Hf [Hst _]]]]]]]]]]]]].
  exists g'. repeat split; try assumption.
  - rewrite Hst. apply NoDup_dedup.
  - rewrite Hst. unfold requestedStudentIds.
    rewrite In_dedup. apply In_filter_some.
  - rewrite Hst. unfold requestedStudentIds.
    rewrite In_dedup. apply In_filter_some.
Qed.

Lemma patch_full_sets_roster_witness :
  exists g',
    Group_findById 1%N
      (snd (patch_full Example.lowerCase role_admin 1%N
              (Example.roster [Some 12; None; Some 12; Some 11]%N)
              Example.school)) = Some g'
    /\ g_students g' = [12; 11]%N.
Proof.
  destruct (@patch_full_sets_roster Example.lowerCase role_admin 1%N
              (Example.roster [Some 12; None; Some 12; Some 11]%N)
              Example.school _ eq_refl) as [g' [_ [Hf [Hs _]]]].
  exists g'. split; [exact Hf|exact Hs].
Defined.

(** ** The scenario of the two bulk replacements *)

Section Scenario.

Variable toLowerCase : jsstring -> jsstring.

Lemma named_counts (pid : ObjectId) (st : Store) (doc : Student) :
  In doc (students st) -> s_parent doc = Some pid ->
  Student_count_parent pid st <> 0.
Proof.
  intros Hin Hp H. unfold Student_count_parent in H.
  pose proof (@filter_empty _ _ _ doc H Hin) as F. simpl in F.
  rewrite Hp in F. simpl in F. rewrite N.eqb_refl in F. discriminate.
Qed.

(** a clean-up turn keeps the document of a parent that a student names *)
Lemma cleanup_parent_named (gid pid r : ObjectId) (st : Store) :
  Student_count_parent pid st <> 0 ->
  Parent_findById pid (cleanup_parent gid st r) = Parent_findById pid st.
Proof.
  intros H. unfold cleanup_parent.
  set (st1 := removeParentFromGroupIfUnused (Some gid) (Some r) st).
  assert (Hp : parents st1 = parents st) by apply rest_removeParent.
  assert (Hs : students st1 = students st) by apply students_removeParent.
  destruct (negb (Nat.eqb (Student_count_parent r st1) 0)
            || negb (Nat.eqb (Group_count_parent r st1) 0)) eqn:E.
  - unfold Parent_findById. now rewrite Hp.
  - apply orb_false_iff in E. destruct E as [E _].
    apply negb_false_iff, Nat.eqb_eq in E.
    assert (Hne : r <> pid).
    { intros ->. apply H. unfold Student_count_parent in *.
      now rewrite <- Hs. }
    unfold Parent_findById, Parent_deleteOne. simpl. rewrite Hp.
    destruct (find (fun p => N.eqb (p_id p) pid) (parents st)) as [p|] eqn:F.
    + apply find_filter_keep; [exact F|].
      apply find_some in F. destruct F as [_ F]. apply N.eqb_eq in F.
      rewrite F. apply negb_true_iff, N.eqb_neq. congruence.
    + now apply find_filter_none.
Qed.

Lemma cleanup_named (gid pid : ObjectId) (removed : list ObjectId) :
  forall st, Student_count_parent pid st <> 0 ->
    Parent_findById pid (fold_left (cleanup_parent gid) removed st)
    = Parent_findById pid st.
Proof.
  induction removed as [|r removed IH]; simpl; intros st H; [reflexivity|].
  rewrite IH.
  - now apply cleanup_parent_named.
  - unfold Student_count_parent in *. now rewrite students_cleanup_parent.
Qed.

(** a bulk update that only names a roster: the answer and the store *)
Lemma patch_full_roster (gid : ObjectId) (ids : list (option ObjectId))
  (st : Store) (loaded : Group) :
  NoDup (group_ids st) -> NoDup (student_ids st) ->
  Group_findById gid st = Some loaded ->
  is_empty (g_name loaded) = false ->
  is_empty (g_location loaded) = false ->
  roster_valid (requestedStudentIds ids) st = true ->
  status_of (fst (patch_full toLowerCase role_admin gid (Example.roster ids) st))
  = 200
  /\ students (snd (patch_full toLowerCase role_admin gid
                      (Example.roster ids) st))
     = students (roster_phase loaded (requestedStudentIds ids) st)
  /\ group_ids (snd (patch_full toLowerCase role_admin gid
                       (Example.roster ids) st))
     = group_ids st
  /\ (exists g',
        Group_findById gid
          (snd (patch_full toLowerCase role_admin gid (Example.roster ids) st))
        = Some g'
        /\ g_students g' = requestedStudentIds ids
        /\ (forall p,
              In p (g_parents g')
              <-> In p (studentParentIds gid
                          (roster_phase loaded (requestedStudentIds ids) st)))
        /\ g_name g' = g_name loaded
        /\ g_location g' = g_location loaded)
  /\ (forall pid,
        Student_count_parent pid
          (roster_phase loaded (requestedStudentIds ids) st) <> 0 ->
        Parent_findById pid
          (snd (patch_full toLowerCase role_admin gid (Example.roster ids) st))
        = Parent_findById pid st).
Proof.
  intros Hnd Hns Hl Hn Hloc Hv.
  assert (Hid : g_id loaded = gid) by now apply Group_findById_id with st.
  set (requested := requestedStudentIds ids) in *.
  set (st1 := roster_phase loaded requested st).
  set (set0 := dedup (studentParentIds gid st1)).
  set (removed := filter (fun i => negb (mem i set0)) (g_parents loaded)).
  assert (Eout : exists F,
             patch_full toLowerCase role_admin gid (Example.roster ids) st
             = (Json 200
                  (Group_findById gid
                     (fold_left (cleanup_parent gid) removed
                        (Group_update gid F st1))),
                fold_left (cleanup_parent gid) removed
                  (Group_update gid F st1))
             /\ forall g, g_id (F g) = g_id g).
  { eexists. split.
    - unfold patch_full. cbn [is_admin negb]. rewrite Hl.
      change (assign_fields (Example.roster ids) loaded) with loaded.
      change (fp_studentIds (Example.roster ids)) with ids. fold requested.
      rewrite Hv. cbn [negb].
      unfold parents_phase, finish_patch, Group_save. simpl.
      rewrite Hn, Hloc, Hid. simpl. reflexivity.
    - reflexivity. }
  destruct Eout as [F [Eout HF]].
  assert (H200 : fst (patch_full toLowerCase role_admin gid
                        (Example.roster ids) st)
                 = Json 200
                     (Group_findById gid
                        (fold_left (cleanup_parent gid) removed
                           (Group_update gid F st1))))
    by (now rewrite Eout).
  destruct (patch_full_accepted _ _ _ _ _ H200)
    as [loaded' [ids' [Z [g1 [g' [Hl' [_ [_ [Hs [_ [_ [Hf [Hro [_ Hnm]]]]]]]]]]]]]].
  rewrite Hl in Hl'. injection Hl' as <-.
  change (assign_fields (Example.roster ids) loaded) with loaded in *.
  change (fp_studentIds (Example.roster ids)) with ids in *.
  fold requested in Hs, Hro. fold st1 in Hs.
  destruct (patch_full_parents_listed _ _ _ _ _ H200)
    as [g'' [_ [Hf' [_ [Hcov Honly]]]]].
  rewrite Hf in Hf'. injection Hf' as <-.
  split; [now rewrite Eout|]. split; [exact Hs|]. split.
  { rewrite Eout. cbn [snd]. unfold group_ids.
    rewrite (fold_left_keeps (gview g_id));
      [|intros s r; now apply gview_cleanup_parent].
    rewrite gview_Group_update by exact HF.
    unfold st1. now apply gview_roster_phase. }
  split.
  { exists g'. split; [exact Hf|]. split; [exact Hro|].
    injection Hnm as En El _. split; [|now split].
    intros p. split.
    - intros Hin. destruct (Honly eq_refl p Hin) as [s [Hin' [Hg Hp]]].
      rewrite Hs in Hin'. now apply In_studentParentIds with s.
    - intros Hin. unfold studentParentIds, Student_find_group in Hin.
      rewrite In_dedup, In_filter_some, in_map_iff in Hin.
      destruct Hin as [s [Hpa Hin]]. apply filter_In in Hin.
      destruct Hin as [Hin Hg]. apply opt_id_eqb_eq in Hg.
      apply (Hcov Hns s p); trivial. now rewrite Hs. }
  intros pid Hc. rewrite Eout. cbn [snd]. rewrite cleanup_named.
  - unfold Parent_findById, Group_update, with_groups.
    cbn [parents]. unfold st1.
    now destruct (rest_roster_phase loaded requested st) as [-> _].
  - exact Hc.
Qed.

Lemma filter_none {A : Type} (f : A -> bool) (l : list A) :
  (forall a, In a l -> f a = false) -> filter f l = [].
Proof.
  induction l as [|a l IH]; intros H; [reflexivity|]. simpl.
  rewrite (H a) by now left. apply IH. intros b Hb. apply H. now right.
Qed.

Lemma count_single (x : ObjectId) (l : list ObjectId) :
  NoDup l -> In x l -> length (filter (fun i => mem i [x]) l) = 1.
Proof.
  induction l as [|a l IH]; intros Hnd Hin; [destruct Hin|].
  inversion Hnd as [|? ? Hna Hnd']; subst. simpl.
  destruct (N.eqb a x) eqn:E; simpl.
  - apply N.eqb_eq in E. subst a. rewrite filter_none; [reflexivity|].
    intros b Hb. simpl. rewrite orb_false_r. apply N.eqb_neq.
    intros ->. contradiction.
  - apply IH; [exact Hnd'|]. destruct Hin as [->|Hin]; [|exact Hin].
    rewrite N.eqb_refl in E. discriminate.
Qed.

Lemma stored_id (x : ObjectId) (st : Store) (d : Student) :
  Student_findById x st = Some d -> In x (student_ids st).
Proof.
  intros H. pose proof (Student_findById_id _ _ H) as <-.
  apply find_some in H. destruct H as [H _]. unfold student_ids.
  now apply in_map.
Qed.

Lemma stored_doc (st : Store) (s : Student) :
  NoDup (student_ids st) -> In s (students st) ->
  Student_findById (s_id s) st = Some s.
Proof. intros Hnd Hin. unfold Student_findById. now apply find_unique. Qed.

(** the empty roster on a group whose students are all on the roster [[s2]] *)
Lemma empty_roster (gid s2 : ObjectId) (st : Store) (g : Group) :
  NoDup (group_ids st) -> NoDup (student_ids st) ->
  Group_findById gid st = Some g ->
  g_students g = [s2] ->
  is_empty (g_name g) = false -> is_empty (g_location g) = false ->
  (forall s, In s (students st) -> s_group s = Some gid -> s_id s = s2) ->
  status_of (fst (patch_full toLowerCase role_admin gid (Example.roster []) st))
  = 200
  /\ (forall y,
        Student_findById y
          (snd (patch_full toLowerCase role_admin gid (Example.roster []) st))
        = option_map
            (fun s => if N.eqb (s_id s) s2 then set_s_group None s else s)
            (Student_findById y st))
  /\ (exists g2,
        Group_findById gid
          (snd (patch_full toLowerCase role_admin gid (Example.roster []) st))
        = Some g2
        /\ g_students g2 = [] /\ g_parents g2 = [])
  /\ (forall pid d,
        Student_findById s2 st = Some d -> s_parent d = Some pid ->
        Parent_findById pid
          (snd (patch_full toLowerCase role_admin gid (Example.roster []) st))
        = Parent_findById pid st).
Proof.
  intros Hg Hs Hl Hr Hn Hloc Hall.
  assert (Hid : g_id g = gid) by now apply Group_findById_id with st.
  destruct (@patch_full_roster gid [] st g Hg Hs Hl Hn Hloc eq_refl)
    as [H200 [Hst [_ [[g2 [Hf2 [Hs2 [Hp2 _]]]] Hpar]]]].
  change (requestedStudentIds []) with (@nil ObjectId) in *.
  assert (Eph : roster_phase g [] st = detach_student gid st s2).
  { unfold roster_phase, detach_all. cbn [is_nil]. rewrite Hr, Hid.
    reflexivity. }
  rewrite Eph in *.
  assert (Hfind : forall y,
             Student_findById y
               (snd (patch_full toLowerCase role_admin gid
                       (Example.roster []) st))
             = option_map
                 (fun s => if N.eqb (s_id s) s2 then set_s_group None s else s)
                 (Student_findById y st)).
  { intros y. rewrite (Student_findById_same y _ _ Hst).
    apply detach_student_find. }
  assert (Hnone : Student_find_group gid (detach_student gid st s2) = []).
  { unfold Student_find_group. apply filter_none. intros s Hin.
    assert (Hnd : NoDup (student_ids (detach_student gid st s2)))
      by now rewrite student_ids_detach_student.
    pose proof (@stored_doc _ _ Hnd Hin) as Hdoc.
    rewrite detach_student_find in Hdoc.
    destruct (Student_findById (s_id s) st) as [s0|] eqn:E0; [|discriminate].
    simpl in Hdoc. injection Hdoc as Hdoc.
    destruct (N.eqb (s_id s0) s2) eqn:E2.
    - subst s. reflexivity.
    - subst s. destruct (opt_id_eqb (s_group s0) (Some gid)) eqn:Egr;
        [|reflexivity].
      apply opt_id_eqb_eq in Egr. apply find_some in E0.
      destruct E0 as [Hin0 _]. rewrite (Hall s0 Hin0 Egr), N.eqb_refl in E2.
      discriminate. }
  split; [exact H200|]. split; [exact Hfind|]. split.
  - exists g2. repeat split; trivial.
    destruct (g_parents g2) as [|p r] eqn:E; [reflexivity|]. exfalso.
    assert (Hin : In p (p :: r)) by now left.
    apply Hp2 in Hin. unfold studentParentIds in Hin.
    now rewrite Hnone in Hin.
  - intros pid d Hd Hp. apply Hpar.
    assert (Hd' : Student_findById s2 (detach_student gid st s2)
                  = Some (set_s_group None d)).
    { rewrite detach_student_find, Hd. simpl.
      now rewrite (Student_findById_id _ _ Hd), N.eqb_refl. }
    apply find_some in Hd'. destruct Hd' as [Hin _].
    now apply named_counts with (set_s_group None d).
Qed.

(** the roster [[s2]] on a group with the roster [[s1; s2]] *)
Lemma shorter_roster (gid s1 s2 pid : ObjectId) (st : Store) (g : Group)
  (d2 : Student) :
  NoDup (group_ids st) -> NoDup (student_ids st) ->
  Group_findById gid st = Some g ->
  g_students g = [s1; s2] -> s1 <> s2 ->
  is_empty (g_name g) = false -> is_empty (g_location g) = false ->
  Student_findById s2 st = Some d2 ->
  s_group d2 = Some gid -> s_parent d2 = Some pid ->
  (forall s, In s (students st) -> s_group s = Some gid ->
             In (s_id s) (g_students g)) ->
  status_of
    (fst (patch_full toLowerCase role_admin gid (Example.roster [Some s2]) st))
  = 200
  /\ NoDup (group_ids
              (snd (patch_full toLowerCase role_admin gid
                      (Example.roster [Some s2]) st)))
  /\ NoDup (student_ids
              (snd (patch_full toLowerCase role_admin gid
                      (Example.roster [Some s2]) st)))
  /\ (forall y,
        Student_findById y
          (snd (patch_full toLowerCase role_admin gid
                  (Example.roster [Some s2]) st))
        = option_map
            (fun s => if N.eqb (s_id s) s1 then set_s_group None s else s)
            (Student_findById y st))
  /\ (exists g1,
        Group_findById gid
          (snd (patch_full toLowerCase role_admin gid
                  (Example.roster [Some s2]) st))
        = Some g1
        /\ g_students g1 = [s2] /\ In pid (g_parents g1)
        /\ is_empty (g_name g1) = false /\ is_empty (g_location g1) = false)
  /\ Parent_findById pid
       (snd (patch_full toLowerCase role_admin gid
               (Example.roster [Some s2]) st))
     = Parent_findById pid st.
Proof.
  intros Hg Hs Hl Hr Hne Hn Hloc Hd2 Hgr2 Hp2 Hall.
  assert (Hid : g_id g = gid) by now apply Group_findById_id with st.
  assert (Hid2 : s_id d2 = s2) by now apply Student_findById_id with st.
  assert (Hv : roster_valid (requestedStudentIds [Some s2]) st = true).
  { change (requestedStudentIds [Some s2]) with [s2].
    unfold roster_valid. cbn [is_nil]. rewrite found_count_ids.
    rewrite count_single; [reflexivity|exact Hs|].
    now apply stored_id with d2. }
  destruct (@patch_full_roster gid [Some s2] st g Hg Hs Hl Hn Hloc Hv)
    as [H200 [Hst [Hgi [[g1 [Hf1 [Hs1 [Hp1 [Hn1 Hl1]]]]] Hpar]]]].
  change (requestedStudentIds [Some s2]) with [s2] in *.
  assert (Eph : roster_phase g [s2] st
                = assign_student gid (remove_student gid st s1) s2).
  { unfold roster_phase, replace_roster. cbn [is_nil]. rewrite Hr, Hid.
    simpl. apply N.eqb_neq in Hne. rewrite Hne, N.eqb_refl. reflexivity. }
  rewrite Eph in *.
  assert (Hfind : forall y,
             Student_findById y
               (assign_student gid (remove_student gid st s1) s2)
             = option_map
                 (fun s => if N.eqb (s_id s) s1 then set_s_group None s else s)
                 (Student_findById y st)).
  { intros y. rewrite assign_student_find, remove_student_find.
    destruct (Student_findById y st) as [s0|] eqn:E0; [|reflexivity].
    simpl. f_equal.
    pose proof (Student_findById_id _ _ E0) as Hy.
    destruct (N.eqb (s_id s0) s1) eqn:E1.
    - simpl. apply N.eqb_eq in E1. rewrite E1.
      apply N.eqb_neq in Hne. now rewrite Hne.
    - destruct (N.eqb (s_id s0) s2) eqn:E2; [|reflexivity].
      apply N.eqb_eq in E2. rewrite <- Hy, E2 in E0.
      rewrite Hd2 in E0. injection E0 as <-.
      rewrite <- Hgr2. apply set_s_group_same. }
  assert (Hd2' : In d2 (students (assign_student gid
                                    (remove_student gid st s1) s2))).
  { pose proof (Hfind s2) as F. rewrite Hd2 in F. simpl in F.
    rewrite Hid2 in F.
    assert (E : N.eqb s2 s1 = false) by (apply N.eqb_neq; congruence).
    rewrite E in F. apply find_some in F. tauto. }
  split; [exact H200|]. split; [now rewrite Hgi|]. split.
  { unfold student_ids in *. rewrite Hst.
    change (NoDup (student_ids (assign_student gid
                                  (remove_student gid st s1) s2))).
    now rewrite student_ids_assign_student, student_ids_remove_student. }
  split.
  { intros y. rewrite (Student_findById_same y _ _ Hst). apply Hfind. }
  split.
  { exists g1. repeat split; trivial.
    - apply Hp1. now apply In_studentParentIds with d2.
    - now rewrite Hn1.
    - now rewrite Hl1. }
  apply Hpar. now apply named_counts with d2.
Qed.

End Scenario.

(** C5, amended.  Group [gid] has the roster [[s1; s2]], both students
    are in the group with parent [pid], and every student who names the
    group is on its roster.  An admin replaces the roster by [[s2]]: the
    answer is 200, student [s1] is in no group, student [s2] is as before,
    the roster is [[s2]] and the group still lists parent [pid].  The admin
    then replaces the roster by the empty one: the answer is 200, student
    [s2] is in no group, the group has no student and no parent.  Both
    students still name parent [pid], and the parent document is after
    each of the two updates what it was at the start: it is not deleted. *)
Theorem bulk_replace_twice (toLowerCase : jsstring -> jsstring)
  (gid s1 s2 pid : ObjectId) (st : Store) (g : Group) (d1 d2 : Student) :
  NoDup (group_ids st) -> NoDup (student_ids st) ->
  Group_findById gid st = Some g ->
  g_students g = [s1; s2] -> s1 <> s2 ->
  is_empty (g_name g) = false -> is_empty (g_location g) = false ->
  Student_findById s1 st = Some d1 ->
  s_group d1 = Some gid -> s_parent d1 = Some pid ->
  Student_findById s2 st = Some d2 ->
  s_group d2 = Some gid -> s_parent d2 = Some pid ->
  (forall s, In s (students st) -> s_group s = Some gid ->
             In (s_id s) (g_students g)) ->
  let out1 :=
    patch_full toLowerCase role_admin gid (Example.roster [Some s2]) st in
  let out2 :=
    patch_full toLowerCase role_admin gid (Example.roster []) (snd out1) in
  (status_of (fst out1) = 200
   /\ Student_findById s1 (snd out1) = Some (set_s_group None d1)
   /\ Student_findById s2 (snd out1) = Some d2
   /\ (exists g1, Group_findById gid (snd out1) = Some g1
                  /\ g_students g1 = [s2] /\ In pid (g_parents g1))
   /\ Parent_findById pid (snd out1) = Parent_findById pid st)
  /\ (status_of (fst out2) = 200
      /\ Student_findById s1 (snd out2) = Some (set_s_group None d1)
      /\ Student_findById s2 (snd out2) = Some (set_s_group None d2)
      /\ (exists g2, Group_findById gid (snd out2) = Some g2
                     /\ g_students g2 = [] /\ g_parents g2 = [])
      /\ Parent_findById pid (snd out2) = Parent_findById pid st).
Proof.
  intros Hg Hs Hl Hr Hne Hn Hloc Hd1 Hgr1 Hp1 Hd2 Hgr2 Hp2 Hall out1 out2.
  assert (Hid1 : s_id d1 = s1) by now apply Student_findById_id with st.
  assert (Hid2 : s_id d2 = s2) by now apply Student_findById_id with st.
  assert (E21 : N.eqb s2 s1 = false) by (apply N.eqb_neq; congruence).
  destruct (@shorter_roster toLowerCase gid s1 s2 pid st g d2
              Hg Hs Hl Hr Hne Hn Hloc Hd2 Hgr2 Hp2 Hall)
    as [A200 [Ag [As [Afind [[g1 [Af [Ar [Ap [An Aloc]]]]] Apar]]]]].
  fold out1 in A200, Ag, As, Afind, Af, Apar.
  assert (A1 : Student_findById s1 (snd out1) = Some (set_s_group None d1)).
  { rewrite Afind, Hd1. simpl. now rewrite Hid1, N.eqb_refl. }
  assert (A2 : Student_findById s2 (snd out1) = Some d2).
  { rewrite Afind, Hd2. simpl. now rewrite Hid2, E21. }
  assert (Aall : forall s, In s (students (snd out1)) ->
                           s_group s = Some gid -> s_id s = s2).
  { intros s Hin Hgr. pose proof (@stored_doc _ _ As Hin) as Hdoc.
    rewrite Afind in Hdoc.
    destruct (Student_findById (s_id s) st) as [s0|] eqn:E0; [|discriminate].
    simpl in Hdoc. injection Hdoc as Hdoc.
    destruct (N.eqb (s_id s0) s1) eqn:E1.
    - subst s. discriminate.
    - subst s. apply find_some in E0. destruct E0 as [Hin0 _].
      pose proof (Hall s0 Hin0 Hgr) as Hon. rewrite Hr in Hon.
      destruct Hon as [Hon|[Hon|[]]]; [|now symmetry].
      rewrite <- Hon, N.eqb_refl in E1. discriminate. }
  destruct (@empty_roster toLowerCase gid s2 (snd out1) g1
              Ag As Af Ar An Aloc Aall)
    as [B200 [Bfind [Bg Bpar]]].
  fold out2 in B200, Bfind, Bg, Bpar.
  split.
  - repeat split; trivial. exists g1. now repeat split.
  - repeat split; trivial.
    + rewrite Bfind, A1. simpl. now rewrite Hid1, N.eqb_sym, E21.
    + rewrite Bfind, A2. simpl. now rewrite Hid2, N.eqb_refl.
    + rewrite (Bpar pid d2 A2 Hp2). exact Apar.
Qed.

Lemma bulk_replace_twice_witness :
  (Group_findById 1%N Example.school = Some Example.G
   /\ Student_findById 11%N Example.school = Some Example.S1
   /\ Student_findById 12%N Example.school = Some Example.S2)
  /\ Parent_findById 21%N
       (snd (patch_full Example.lowerCase role_admin 1%N (Example.roster [])
               (snd (patch_full Example.lowerCase role_admin 1%N
                       (Example.roster [Some 12%N]) Example.school))))
     = Parent_findById 21%N Example.school.
Proof.
  split; [repeat split|].
  apply (@bulk_replace_twice Example.lowerCase 1%N 11%N 12%N 21%N
           Example.school Example.G Example.S1 Example.S2).
  - exact (wf_groups school_well_formed).
  - exact (wf_students school_well_formed).
  - reflexivity.
  - reflexivity.
  - discriminate.
  - reflexivity.
  - reflexivity.
  - reflexivity.
  - reflexivity.
  - reflexivity.
  - reflexivity.
  - reflexivity.
  - reflexivity.
  - intros s [<-|[<-|[]]] _; simpl; tauto.
Defined.

(** C5 as stated fails on the school.  After the roster of group 1 was
    replaced by [[12]] and then by the empty roster, the only students who
    name parent 21 are the two detached ones, none of them is attached to
    a group any more, and the parent document is still stored as it was:
    it is not deleted "exactly when" it has no student left anywhere. *)
Lemma detached_parent_record_kept :
  map s_id
    (filter (fun s => opt_id_eqb (s_parent s) (Some 21%N))
       (students
          (snd (patch_full Example.lowerCase role_admin 1%N (Example.roster [])
                  (snd (patch_full Example.lowerCase role_admin 1%N
                          (Example.roster [Some 12%N]) Example.school))))))
  = [11%N; 12%N]
  /\ has_attached_student 21%N
       (snd (patch_full Example.lowerCase role_admin 1%N (Example.roster [])
               (snd (patch_full Example.lowerCase role_admin 1%N
                       (Example.roster [Some 12%N]) Example.school))))
     = false
  /\ Parent_findById 21%N
       (snd (patch_full Example.lowerCase role_admin 1%N (Example.roster [])
               (snd (patch_full Example.lowerCase role_admin 1%N
                       (Example.roster [Some 12%N]) Example.school))))
     = Some Example.P1
  /\ ~ (Parent_findById 21%N
          (snd (patch_full Example.lowerCase role_admin 1%N (Example.roster [])
                  (snd (patch_full Example.lowerCase role_admin 1%N
                          (Example.roster [Some 12%N]) Example.school))))
        = None
        <-> has_attached_student 21%N
              (snd (patch_full Example.lowerCase role_admin 1%N
                      (Example.roster [])
                      (snd (patch_full Example.lowerCase role_admin 1%N
                              (Example.roster [Some 12%N]) Example.school))))
            = false).
Proof.
  split; [vm_compute; reflexivity|].
  split; [vm_compute; reflexivity|].
  split; [vm_compute; reflexivity|].
  intros [_ H]. assert (E : @None Parent = None) by reflexivity.
  revert E. rewrite <- H at 1; [|vm_compute; reflexivity].
  vm_compute. discriminate.
Qed.

(** * The rest of the routes *)

(** ** Names read back *)

Section NamesAgain.

Lemma normalizeParentName_default :
  normalizeParentName (Some Lapsevanem) = default_name.
Proof. reflexivity. Qed.

Lemma normalizeParentName_cleaned (s : jsstring) :
  trim s <> [] ->
  normalizeParentName (Some (trim s)) = normalizeParentName (Some s).
Proof.
  intros Hne.
  assert (Hs : s <> []) by (intros ->; now apply Hne).
  unfold normalizeParentName. rewrite trim_twice.
  destruct s as [|c r]; [congruence|].
  destruct (trim (c :: r)) as [|d t] eqn:E; [congruence|]. reflexivity.
Qed.

Lemma fullName_normalizeParentName (rawName : option jsstring) :
  fullName (normalizeParentName rawName) = Lapsevanem
  /\ normalizeParentName rawName = default_name
  \/ exists s, rawName = Some s /\ trim s <> []
               /\ fullName (normalizeParentName rawName) = trim s.
Proof.
  destruct rawName as [s|]; [|now left].
  destruct s as [|c r]; [now left|].
  unfold normalizeParentName.
  destruct (is_empty (trim (c :: r))) eqn:E; [now left|].
  right. exists (c :: r).
  assert (Hne : trim (c :: r) <> []) by (intros E'; rewrite E' in E; discriminate).
  repeat split; trivial.
  now destruct (split_ws (trim (c :: r))).
Qed.

End NamesAgain.

(** X1.  The full name that [normalizeParentName] returns is a name it
    reads back to the same parts: normalising the stored [parentName] of a
    student, as the update of a student does when the request carries no
    name, gives the first name, last name and full name of the first
    normalisation. *)
Theorem normalizeParentName_fullName (rawName : option jsstring) :
  normalizeParentName (Some (fullName (normalizeParentName rawName)))
  = normalizeParentName rawName.
Proof.
  destruct (fullName_normalizeParentName rawName)
    as [[Hf Hd]|[s [-> [Hne Hf]]]].
  - rewrite Hf, Hd. apply normalizeParentName_default.
  - rewrite Hf. now apply normalizeParentName_cleaned.
Qed.

(** X2.  Whatever the raw name, the first name is not empty, and the
    first name, the last name and the full name carry no white space at
    either end: the [trim] setters of the models store them as they
    are. *)
Theorem normalizeParentName_trimmed (rawName : option jsstring) :
  is_empty (firstName (normalizeParentName rawName)) = false
  /\ is_empty (fullName (normalizeParentName rawName)) = false
  /\ trim (firstName (normalizeParentName rawName))
     = firstName (normalizeParentName rawName)
  /\ trim (lastName (normalizeParentName rawName))
     = lastName (normalizeParentName rawName)
  /\ trim (fullName (normalizeParentName rawName))
     = fullName (normalizeParentName rawName).
Proof.
  destruct (normalizeParentName_clean rawName) as [Hne [Hf Hl]].
  split; [now destruct (firstName (normalizeParentName rawName))|].
  destruct (fullName_normalizeParentName rawName)
    as [[Hfu Hd]|[s [-> [Hs Hfu]]]].
  - rewrite Hfu. repeat split; trivial.
  - rewrite Hfu. repeat split; trivial.
    + now destruct (trim s).
    + apply trim_twice.
Qed.

(** ** One parent document for an email *)

Section Emails.

Variable toLowerCase : jsstring -> jsstring.

Lemma parent_emails_update (pid : ObjectId) (f : Parent -> Parent)
  (st : Store) :
  (forall p, p_email (f p) = p_email p) ->
  parent_emails (Parent_update pid f st) = parent_emails st.
Proof. intros H. apply (map_if_keeps _ _ _ _ H). Qed.

Lemma parent_emails_deleteOne (pid : ObjectId) (st : Store) :
  NoDup (parent_emails st) -> NoDup (parent_emails (Parent_deleteOne pid st)).
Proof. apply NoDup_map_filter. Qed.

Lemma find_email_none (k : jsstring) (l : list Parent) :
  find (fun p => jsstring_eqb (p_email p) k) l = None ->
  ~ In k (map p_email l).
Proof.
  intros F Hin. apply in_map_iff in Hin. destruct Hin as [p [E Hp]].
  pose proof (find_none _ _ F p Hp) as H. simpl in H.
  rewrite E in H. now rewrite (proj2 (jsstring_eqb_eq k k) eq_refl) in H.
Qed.

Lemma NoDup_snoc {A : Type} (l : list A) (a : A) :
  NoDup l -> ~ In a l -> NoDup (l ++ [a]).
Proof.
  intros Hl Ha. apply NoDup_app; [exact Hl|repeat constructor; easy|].
  intros x Hx [<-|[]]. contradiction.
Qed.

Lemma parent_emails_create (fn ln email : jsstring) (st st' : Store)
  (doc : Parent) :
  Parent_findOne_email toLowerCase email st = None ->
  Parent_create toLowerCase fn ln email st = Some (doc, st') ->
  NoDup (parent_emails st) -> NoDup (parent_emails st').
Proof.
  unfold Parent_create. intros F H Hnd.
  destruct (is_empty (email_setter toLowerCase email)); [discriminate|].
  inversion H; subst; clear H. unfold parent_emails. simpl.
  rewrite map_app. simpl. apply NoDup_snoc; [exact Hnd|].
  now apply find_email_none.
Qed.

Lemma parent_emails_save_names (pid : ObjectId) (fn ln : option jsstring)
  (st st' : Store) :
  Parent_save_names pid fn ln st = Some st' ->
  parent_emails st' = parent_emails st.
Proof.
  unfold Parent_save_names. destruct (Parent_findById pid st); [|discriminate].
  intros H. inversion H; subst. now apply parent_emails_update.
Qed.

Lemma parent_emails_resolve_parent (email : jsstring) (np : NameParts)
  (st : Store) (pid : ObjectId) (st' : Store) :
  resolve_parent toLowerCase email np st = Some (pid, st') ->
  NoDup (parent_emails st) -> NoDup (parent_emails st').
Proof.
  unfold resolve_parent.
  destruct (Parent_findOne_email toLowerCase email st) as [doc|] eqn:F.
  - destruct (_ && _); destruct (negb _);
      try (destruct (Parent_save_names (p_id doc) _ _ st) as [s1|] eqn:E;
           [|discriminate];
           intros H; inversion H; subst;
           apply parent_emails_save_names in E; now rewrite E).
    intros H; inversion H; subst. trivial.
  - destruct (Parent_create toLowerCase _ _ email st) as [[doc s1]|] eqn:E;
      [|discriminate].
    intros H; inversion H; subst. intros Hnd.
    eapply parent_emails_create; eassumption.
Qed.

Lemma parent_emails_resolve_parents (payload : list ParentItem) :
  forall (set : list ObjectId) (st : Store),
    NoDup (parent_emails st) ->
    NoDup (parent_emails
             (outcome_store (resolve_parents toLowerCase payload set st))).
Proof.
  induction payload as [|item rest IH]; intros set st Hnd; simpl; [exact Hnd|].
  destruct (item_email toLowerCase item) as [email|]; [|exact Hnd].
  destruct (resolve_parent toLowerCase email _ st) as [[pid st']|] eqn:E;
    [|exact Hnd].
  apply IH. eapply parent_emails_resolve_parent; eassumption.
Qed.

Lemma parent_emails_cleanup_parent (gid r : ObjectId) (st : Store) :
  NoDup (parent_emails st) -> NoDup (parent_emails (cleanup_parent gid st r)).
Proof.
  intros Hnd. unfold cleanup_parent.
  assert (H1 : parent_emails
                 (removeParentFromGroupIfUnused (Some gid) (Some r) st)
               = parent_emails st).
  { unfold parent_emails. now destruct (rest_removeParent (Some gid) (Some r) st)
      as [-> _]. }
  destruct (_ || _); [now rewrite H1|].
  apply parent_emails_deleteOne. now rewrite H1.
Qed.

Lemma parent_emails_patch_full (role : Role) (id : ObjectId)
  (body : FullPatch) (st : Store) :
  NoDup (parent_emails st) ->
  NoDup (parent_emails (snd (patch_full toLowerCase role id body st))).
Proof.
  intros Hnd. unfold patch_full.
  destruct (negb (is_admin role)); [exact Hnd|].
  destruct (Group_findById id st) as [loaded|]; [|exact Hnd].
  destruct (negb (roster_valid _ st)); [exact Hnd|].
  set (st1 := roster_phase _ _ st).
  assert (H1 : NoDup (parent_emails st1)).
  { unfold parent_emails, st1.
    now destruct (rest_roster_phase (assign_fields body loaded)
                    (requestedStudentIds (fp_studentIds body)) st) as [-> _]. }
  pose proof (parent_emails_resolve_parents (fp_parents body)
                (dedup (studentParentIds
                          (g_id (set_g_students
                                   (requestedStudentIds (fp_studentIds body))
                                   (assign_fields body loaded))) st1))
                st1 H1) as H2.
  unfold parents_phase.
  destruct (resolve_parents toLowerCase _ _ st1) as [ids Z|Z|Z];
    simpl in H2; try exact H2.
  unfold finish_patch, Group_save. destruct (_ || _); [exact H2|].
  cbn [snd].
  set (Zs := Group_update _ _ Z).
  assert (H3 : NoDup (parent_emails Zs)) by exact H2.
  clearbody Zs. clear - H3.
  match goal with |- context [fold_left ?f ?l Zs] => generalize l end.
  intros l. revert Zs H3.
  induction l as [|r l IH]; intros Zs H3; simpl; [exact H3|].
  apply IH. now apply parent_emails_cleanup_parent.
Qed.

End Emails.

(** X3.  The bulk update never stores a second parent document for an
    email: when the emails of the parent documents are pairwise different
    before the request, they are so after it, whoever calls, whatever the
    body and whatever the answer. *)
Theorem patch_full_keeps_emails_apart (toLowerCase : jsstring -> jsstring)
  (role : Role) (id : ObjectId) (body : FullPatch) (st : Store) :
  NoDup (parent_emails st) ->
  NoDup (parent_emails (snd (patch_full toLowerCase role id body st))).
Proof. apply parent_emails_patch_full. Qed.

Lemma patch_full_keeps_emails_apart_witness :
  NoDup (parent_emails Example.school)
  /\ NoDup (parent_emails
              (snd (patch_full Example.lowerCase role_admin 1%N
                      Example.busy_body Example.school))).
Proof.
  assert (H : NoDup (parent_emails Example.school))
    by (repeat constructor; simpl; tauto).
  split; [exact H|].
  apply (@patch_full_keeps_emails_apart Example.lowerCase role_admin 1%N
           Example.busy_body Example.school H).
Defined.

(** ** What a bulk update leaves alone *)

Section Untouched.

Variable toLowerCase : jsstring -> jsstring.

Lemma s_card_update (x : ObjectId) (v : option ObjectId) (st : Store) :
  map s_card (students (Student_save_group x v st))
  = map s_card (students st).
Proof.
  unfold Student_save_group, Student_update, with_students. cbn [students].
  now apply map_if_keeps.
Qed.

Lemma s_card_removeParent (go po : option ObjectId) (st : Store) :
  map s_card (students (removeParentFromGroupIfUnused go po st))
  = map s_card (students st).
Proof. now rewrite students_removeParent. Qed.

Lemma s_card_remove_student (gid : ObjectId) (st : Store) (x : ObjectId) :
  map s_card (students (remove_student gid st x)) = map s_card (students st).
Proof.
  unfold remove_student. destruct (Student_findById x st); [|reflexivity].
  rewrite s_card_removeParent.
  unfold Group_pull_student, Group_update, with_groups. cbn [students].
  apply s_card_update.
Qed.

Lemma s_card_detach_student (gid : ObjectId) (st : Store) (x : ObjectId) :
  map s_card (students (detach_student gid st x)) = map s_card (students st).
Proof.
  unfold detach_student. destruct (Student_findById x st); [|reflexivity].
  rewrite s_card_removeParent. apply s_card_update.
Qed.

Lemma s_card_assign_student (gid : ObjectId) (st : Store) (x : ObjectId) :
  map s_card (students (assign_student gid st x)) = map s_card (students st).
Proof.
  unfold assign_student. destruct (Student_findById x st) as [doc|];
    [|reflexivity].
  set (st1 := if negb _ then _ else st).
  assert (H1 : map s_card (students st1) = map s_card (students st)).
  { unfold st1. destruct (negb _); [|reflexivity].
    rewrite s_card_update.
    destruct (s_group doc); [|reflexivity].
    now rewrite s_card_removeParent. }
  now destruct (s_parent doc).
Qed.

Lemma s_card_roster_phase (group : Group) (requested : list ObjectId)
  (st : Store) :
  map s_card (students (roster_phase group requested st))
  = map s_card (students st).
Proof.
  unfold roster_phase, detach_all, replace_roster.
  destruct (is_nil requested).
  - apply (fold_left_keeps (fun s => map s_card (students s))).
    intros s x. apply s_card_detach_student.
  - rewrite (fold_left_keeps (fun s => map s_card (students s)));
      [|intros s x; apply s_card_assign_student].
    apply (fold_left_keeps (fun s => map s_card (students s))).
    intros s x. apply s_card_remove_student.
Qed.

Lemma students_finish_patch (loaded group : Group) (ids : list ObjectId)
  (st : Store) :
  students (snd (finish_patch loaded group ids st)) = students st.
Proof.
  unfold finish_patch, Group_save. destruct (_ || _); [reflexivity|].
  cbn [snd]. rewrite (fold_left_keeps students); [reflexivity|].
  intros s r. apply students_cleanup_parent.
Qed.

Lemma s_card_patch_full (role : Role) (id : ObjectId) (body : FullPatch)
  (st : Store) :
  map s_card (students (snd (patch_full toLowerCase role id body st)))
  = map s_card (students st).
Proof.
  unfold patch_full.
  destruct (negb (is_admin role)); [reflexivity|].
  destruct (Group_findById id st) as [loaded|]; [|reflexivity].
  destruct (negb (roster_valid _ st)); [reflexivity|].
  set (group := assign_fields body loaded).
  set (requested := requestedStudentIds (fp_studentIds body)).
  destruct (parents_phase_frame toLowerCase body
              (g_id (set_g_students requested group))
              (roster_phase group requested st)) as [_ Hs].
  destruct (parents_phase toLowerCase body _ _) as [ids Z|Z|Z];
    simpl in Hs; cbn [snd];
    try (rewrite Hs; apply s_card_roster_phase).
  rewrite students_finish_patch, Hs. apply s_card_roster_phase.
Qed.

End Untouched.

(** X4.  A bulk update writes nothing of a student but its group: the
    student documents after the request are those before it, in number,
    order and every field other than [group], whoever calls, whatever the
    body and whatever the answer. *)
Theorem patch_full_writes_group_only (toLowerCase : jsstring -> jsstring)
  (role : Role) (id : ObjectId) (body : FullPatch) (st : Store) :
  map s_card (students (snd (patch_full toLowerCase role id body st)))
  = map s_card (students st).
Proof. apply s_card_patch_full. Qed.

(** ** The other groups under a bulk update *)

Section OtherGroups.

Variable toLowerCase : jsstring -> jsstring.

Variable id : ObjectId.

Lemma others_Group_update (gid : ObjectId) (f : Group -> Group)
  (st : Store) :
  (forall g, g_id (f g) = g_id g) ->
  (forall g, gid <> id -> g_card (f g) = g_card g) ->
  gview (but_group id) (Group_update gid f st) = gview (but_group id) st.
Proof.
  intros Hid Hc. unfold gview, Group_update, with_groups. cbn [groups].
  rewrite map_map. apply map_ext. intros g.
  destruct (N.eqb (g_id g) gid) eqn:E; [|reflexivity].
  apply N.eqb_eq in E. unfold but_group. rewrite Hid.
  destruct (N.eqb (g_id g) id) eqn:E'; [reflexivity|].
  rewrite Hc; [reflexivity|]. apply N.eqb_neq in E'. congruence.
Qed.

Lemma others_roster (gid x : ObjectId) (st : Store) :
  gview (but_group id) (Group_pull_student gid x st) = gview (but_group id) st
  /\ gview (but_group id) (Group_add_student gid x st) = gview (but_group id) st.
Proof. split; now apply others_Group_update. Qed.

Lemma others_parents_here (x : ObjectId) (st : Store) :
  gview (but_group id) (Group_pull_parent id x st) = gview (but_group id) st
  /\ gview (but_group id) (Group_add_parent id x st) = gview (but_group id) st.
Proof. split; apply others_Group_update; trivial; congruence. Qed.

Lemma others_removeParent_here (po : option ObjectId) (st : Store) :
  gview (but_group id) (removeParentFromGroupIfUnused (Some id) po st)
  = gview (but_group id) st.
Proof.
  unfold removeParentFromGroupIfUnused. destruct po as [p|]; [|reflexivity].
  destruct (Nat.eqb _ 0); [|reflexivity]. apply others_parents_here.
Qed.

(** the parent of a student stays listed by the group the student is in *)
Lemma removeParent_in_use (gid : ObjectId) (po : option ObjectId)
  (st : Store) (doc : Student) :
  In doc (students st) -> s_group doc = Some gid -> s_parent doc = po ->
  removeParentFromGroupIfUnused (Some gid) po st = st.
Proof.
  intros Hin Hg Hp. unfold removeParentFromGroupIfUnused.
  destruct po as [p|]; [|reflexivity].
  destruct (Nat.eqb (Student_count_group_parent gid p st) 0) eqn:E;
    [|reflexivity].
  apply Nat.eqb_eq in E. unfold Student_count_group_parent in E.
  pose proof (@filter_empty _ _ _ doc E Hin) as F. simpl in F.
  rewrite Hg, Hp in F. simpl in F. rewrite !N.eqb_refl in F. discriminate.
Qed.

Lemma removeParent_in_use_opt (go po : option ObjectId) (st : Store)
  (doc : Student) :
  In doc (students st) -> s_group doc = go -> s_parent doc = po ->
  removeParentFromGroupIfUnused go po st = st.
Proof.
  intros Hin Hg Hp. destruct go as [gid|]; [|reflexivity].
  now apply removeParent_in_use with doc.
Qed.

Lemma others_remove_student (st : Store) (x : ObjectId) :
  gview (but_group id) (remove_student id st x) = gview (but_group id) st.
Proof.
  unfold remove_student. destruct (Student_findById x st); [|reflexivity].
  rewrite others_removeParent_here.
  now rewrite (proj1 (others_roster _ _ _)).
Qed.

Lemma others_detach_student (st : Store) (x : ObjectId) :
  gview (but_group id) (detach_student id st x) = gview (but_group id) st.
Proof.
  unfold detach_student. destruct (Student_findById x st); [|reflexivity].
  now rewrite others_removeParent_here.
Qed.

Lemma others_assign_student (st : Store) (x : ObjectId) :
  gview (but_group id) (assign_student id st x) = gview (but_group id) st.
Proof.
  unfold assign_student. destruct (Student_findById x st) as [doc|] eqn:F;
    [|reflexivity].
  set (st1 := if negb _ then _ else st).
  assert (H1 : gview (but_group id) st1 = gview (but_group id) st).
  { unfold st1. destruct (negb _); [|reflexivity].
    destruct (s_group doc) as [prev|] eqn:Eg; [|reflexivity].
    rewrite (@removeParent_in_use prev (s_parent doc)
               (Group_pull_student prev (s_id doc) st) doc);
      trivial.
    - change (gview (but_group id) (Group_pull_student prev (s_id doc) st)
              = gview (but_group id) st).
      apply others_roster.
    - apply find_some in F. apply F. }
  assert (H2 : gview (but_group id) (Group_add_student id (s_id doc) st1)
               = gview (but_group id) st)
    by (now rewrite (proj2 (others_roster _ _ _))).
  destruct (s_parent doc); [|exact H2].
  unfold ensureParentInGroup.
  now rewrite (proj2 (others_parents_here _ _)).
Qed.

Lemma others_roster_phase (group : Group) (requested : list ObjectId)
  (st : Store) :
  g_id group = id ->
  gview (but_group id) (roster_phase group requested st) = gview (but_group id) st.
Proof.
  intros Hid. unfold roster_phase, detach_all, replace_roster. rewrite Hid.
  destruct (is_nil requested).
  - apply (fold_left_keeps (gview (but_group id))). apply others_detach_student.
  - rewrite (fold_left_keeps (gview (but_group id)));
      [|apply others_assign_student].
    apply (fold_left_keeps (gview (but_group id))). apply others_remove_student.
Qed.

Lemma others_cleanup_parent (st : Store) (r : ObjectId) :
  gview (but_group id) (cleanup_parent id st r) = gview (but_group id) st.
Proof.
  unfold cleanup_parent. destruct (_ || _); apply others_removeParent_here.
Qed.

Lemma others_finish_patch (loaded group : Group) (ids : list ObjectId)
  (st : Store) :
  g_id group = id ->
  gview (but_group id) (snd (finish_patch loaded group ids st))
  = gview (but_group id) st.
Proof.
  intros Hid. unfold finish_patch, Group_save.
  destruct (_ || _); [reflexivity|]. cbn [snd]. rewrite Hid.
  rewrite (fold_left_keeps (gview (but_group id))); [|apply others_cleanup_parent].
  apply others_Group_update; [reflexivity|]. simpl. congruence.
Qed.

Lemma others_patch_full (role : Role) (body : FullPatch) (st : Store) :
  gview (but_group id) (snd (patch_full toLowerCase role id body st))
  = gview (but_group id) st.
Proof.
  unfold patch_full.
  destruct (negb (is_admin role)); [reflexivity|].
  destruct (Group_findById id st) as [loaded|] eqn:Hl; [|reflexivity].
  destruct (negb (roster_valid _ st)); [reflexivity|].
  set (group := assign_fields body loaded).
  set (requested := requestedStudentIds (fp_studentIds body)).
  assert (Hid : g_id group = id).
  { unfold group. rewrite g_id_assign_fields.
    now apply Group_findById_id with st. }
  change (g_id (set_g_students requested group)) with (g_id group).
  destruct (parents_phase_frame toLowerCase body (g_id group)
              (roster_phase group requested st)) as [Hg _].
  assert (Hv : gview (but_group id)
                 (outcome_store
                    (parents_phase toLowerCase body (g_id group)
                       (roster_phase group requested st)))
               = gview (but_group id) st).
  { unfold gview in *. rewrite Hg. now apply others_roster_phase. }
  destruct (parents_phase toLowerCase body _ _) as [ids Z|Z|Z];
    simpl in Hv; cbn [snd]; try exact Hv.
  now rewrite others_finish_patch.
Qed.

Lemma others_find (gid : ObjectId) (st st' : Store) :
  gid <> id -> gview (but_group id) st' = gview (but_group id) st ->
  option_map g_card (Group_findById gid st')
  = option_map g_card (Group_findById gid st).
Proof.
  intros Hne Hv.
  pose proof (find_view (fun g => if N.eqb (g_id g) id then None
                                  else Some (g_card g)) gid st') as F'.
  pose proof (find_view (fun g => if N.eqb (g_id g) id then None
                                  else Some (g_card g)) gid st) as F.
  change (gview _ st') with (gview (but_group id) st') in F'.
  change (gview _ st) with (gview (but_group id) st) in F.
  rewrite Hv, <- F in F'.
  destruct (Group_findById gid st') as [g'|] eqn:E';
    destruct (Group_findById gid st) as [g|] eqn:E; try discriminate;
    [|reflexivity].
  simpl in F'. injection F' as F1 F2.
  apply Group_findById_id in E, E'.
  assert (N1 : N.eqb (g_id g') id = false) by (apply N.eqb_neq; congruence).
  assert (N2 : N.eqb (g_id g) id = false) by (apply N.eqb_neq; congruence).
  rewrite N1, N2 in F2. simpl. congruence.
Qed.

End OtherGroups.

(** X5.  A bulk update of group [id] leaves every other group as it was
    but for its roster: name, location, description, teachers and parents
    are not written, whoever calls, whatever the body and whatever the
    answer.  In particular a student moved into group [id] leaves its
    parent listed by the group it came from. *)
Theorem patch_full_other_groups (toLowerCase : jsstring -> jsstring)
  (role : Role) (id : ObjectId) (body : FullPatch) (st : Store)
  (gid : ObjectId) :
  gid <> id ->
  option_map g_card
    (Group_findById gid (snd (patch_full toLowerCase role id body st)))
  = option_map g_card (Group_findById gid st).
Proof.
  intros Hne. apply others_find with id; [exact Hne|].
  apply others_patch_full.
Qed.

Lemma patch_full_other_groups_witness :
  option_map g_parents
    (Group_findById 1%N
       (snd (patch_full Example.lowerCase role_admin 2%N
               (Example.roster [Some 12%N; Some 13%N]) Campus.campus)))
  = Some [21%N; 22%N].
Proof.
  assert (H : 1%N <> 2%N) by discriminate.
  pose proof (@patch_full_other_groups Example.lowerCase role_admin 2%N
                (Example.roster [Some 12%N; Some 13%N]) Campus.campus 1%N H)
    as E.
  destruct (Group_findById 1%N
              (snd (patch_full Example.lowerCase role_admin 2%N
                      (Example.roster [Some 12%N; Some 13%N]) Campus.campus)))
    as [g|]; [|discriminate E].
  simpl in E. injection E as _ _ _ _ _ E. simpl. now rewrite E.
Defined.

(** ** The students after the roster loops *)

Section Accepted.

Variable toLowerCase : jsstring -> jsstring.

(** the students after the roster loops *)
Lemma fold_find (step : Store -> ObjectId -> Store) (v : option ObjectId)
  (l : list ObjectId) :
  (forall st x y,
      Student_findById y (step st x)
      = option_map (fun s => if N.eqb (s_id s) x then set_s_group v s else s)
                   (Student_findById y st)) ->
  forall st y,
    Student_findById y (fold_left step l st)
    = option_map (fun s => if mem (s_id s) l then set_s_group v s else s)
                 (Student_findById y st).
Proof.
  intros Hstep. induction l as [|x l IH]; intros st y; simpl.
  - now destruct (Student_findById y st).
  - rewrite IH, Hstep. destruct (Student_findById y st) as [s|];
      [|reflexivity].
    simpl. f_equal. destruct (N.eqb (s_id s) x); simpl.
    + now destruct (mem (s_id s) l).
    + reflexivity.
Qed.

Lemma roster_phase_find (group : Group) (requested : list ObjectId)
  (st : Store) (y : ObjectId) :
  Student_findById y (roster_phase group requested st)
  = option_map
      (fun s =>
         if mem (s_id s) requested then set_s_group (Some (g_id group)) s
         else if mem (s_id s) (g_students group) then set_s_group None s
              else s)
      (Student_findById y st).
Proof.
  unfold roster_phase, detach_all, replace_roster.
  destruct (is_nil requested) eqn:En.
  - destruct requested; [|discriminate].
    rewrite (fold_find (detach_student (g_id group)) None);
      [reflexivity|].
    intros s x z. apply detach_student_find.
  - rewrite (fold_find (assign_student (g_id group)) (Some (g_id group)));
      [|intros s x z; apply assign_student_find].
    rewrite (fold_find (remove_student (g_id group)) None);
      [|intros s x z; apply remove_student_find].
    destruct (Student_findById y st) as [s|]; [|reflexivity].
    cbn [option_map]. f_equal.
    set (toRemove := filter (fun i => negb (mem i requested))
                            (g_students group)).
    assert (Hm : mem (s_id s) toRemove
                 = negb (mem (s_id s) requested)
                   && mem (s_id s) (g_students group)).
    { destruct (mem (s_id s) toRemove) eqn:E.
      - apply mem_In, filter_In in E. destruct E as [E1 E2].
        rewrite E2. now rewrite (proj2 (mem_In _ _) E1).
      - destruct (mem (s_id s) requested) eqn:E1; [reflexivity|].
        destruct (mem (s_id s) (g_students group)) eqn:E2; [|reflexivity].
        apply mem_false in E. exfalso. apply E. apply filter_In.
        split; [now apply mem_In|now rewrite E1]. }
    rewrite Hm.
    destruct (mem (s_id s) requested) eqn:E1; cbn [negb andb].
    + now rewrite E1.
    + destruct (mem (s_id s) (g_students group)); cbn [set_s_group s_id];
        now rewrite E1.
Qed.

End Accepted.

Lemma patch_full_placed (toLowerCase : jsstring -> jsstring)
  (role : Role) (id : ObjectId) (body : FullPatch) (st : Store)
  (loaded : Group) (data : option Group) :
  NoDup (student_ids st) ->
  Group_findById id st = Some loaded ->
  fst (patch_full toLowerCase role id body st) = Json 200 data ->
  (forall x, In (Some x) (fp_studentIds body) ->
     exists s,
       Student_findById x (snd (patch_full toLowerCase role id body st))
       = Some s
       /\ s_group s = Some id)
  /\ (forall x s,
        In x (g_students loaded) -> ~ In (Some x) (fp_studentIds body) ->
        Student_findById x (snd (patch_full toLowerCase role id body st))
        = Some s ->
        s_group s = None)
  /\ (forall y,
        ~ In (Some y) (fp_studentIds body) -> ~ In y (g_students loaded) ->
        Student_findById y (snd (patch_full toLowerCase role id body st))
        = Student_findById y st).
Proof.
  intros Hnd Hl H.
  destruct (patch_full_accepted _ _ _ _ _ H)
    as [loaded' [ids [Z [g1 [g' [Hl' [Hv [_ [Hs _]]]]]]]]].
  rewrite Hl in Hl'. injection Hl' as <-.
  set (requested := requestedStudentIds (fp_studentIds body)) in *.
  assert (Hreq : forall x, In x requested <-> In (Some x) (fp_studentIds body)).
  { intros x. unfold requested, requestedStudentIds.
    rewrite In_dedup. apply In_filter_some. }
  assert (Hid : g_id (assign_fields body loaded) = id).
  { rewrite g_id_assign_fields. now apply Group_findById_id with st. }
  assert (Hro : g_students (assign_fields body loaded) = g_students loaded)
    by apply assign_fields_lists.
  assert (Hfind : forall y,
             Student_findById y (snd (patch_full toLowerCase role id body st))
             = option_map
                 (fun s =>
                    if mem (s_id s) requested then set_s_group (Some id) s
                    else if mem (s_id s) (g_students loaded)
                         then set_s_group None s else s)
                 (Student_findById y st)).
  { intros y. rewrite (Student_findById_same y _ _ Hs).
    rewrite roster_phase_find. now rewrite Hid, Hro. }
  split; [|split].
  - intros x Hx. apply Hreq in Hx. rewrite Hfind.
    destruct (Student_findById x st) as [s0|] eqn:E.
    + cbn [option_map]. rewrite (Student_findById_id _ _ E).
      rewrite (proj2 (mem_In _ _) Hx). now eexists.
    + rewrite (@roster_invalid requested st x Hnd Hx E) in Hv. discriminate.
  - intros x s Hx Hn. rewrite Hfind.
    destruct (Student_findById x st) as [s0|] eqn:E; [|discriminate].
    cbn [option_map]. rewrite (Student_findById_id _ _ E).
    assert (E1 : mem x requested = false)
      by (apply mem_false; intros Hr; apply Hn; now apply Hreq).
    rewrite E1, (proj2 (mem_In _ _) Hx).
    intros Hsome. now injection Hsome as <-.
  - intros y Hn Hr. rewrite Hfind.
    destruct (Student_findById y st) as [s0|] eqn:E; [|reflexivity].
    cbn [option_map]. rewrite (Student_findById_id _ _ E).
    assert (E1 : mem y requested = false)
      by (apply mem_false; intros Hq; apply Hn; now apply Hreq).
    assert (E2 : mem y (g_students loaded) = false) by now apply mem_false.
    now rewrite E1, E2.
Qed.

(** X6.  When a bulk update of group [id] is answered 200, every student
    named in the body is stored and belongs to group [id], every student
    of the former roster that the body does not name belongs to no group,
    and every other student document is as it was.  Student ids are
    unique in the store. *)
Theorem patch_full_places_students (toLowerCase : jsstring -> jsstring)
  (role : Role) (id : ObjectId) (body : FullPatch) (st : Store)
  (loaded : Group) (data : option Group) :
  NoDup (student_ids st) ->
  Group_findById id st = Some loaded ->
  fst (patch_full toLowerCase role id body st) = Json 200 data ->
  (forall x, In (Some x) (fp_studentIds body) ->
     exists s,
       Student_findById x (snd (patch_full toLowerCase role id body st))
       = Some s
       /\ s_group s = Some id)
  /\ (forall x s,
        In x (g_students loaded) -> ~ In (Some x) (fp_studentIds body) ->
        Student_findById x (snd (patch_full toLowerCase role id body st))
        = Some s ->
        s_group s = None)
  /\ (forall y,
        ~ In (Some y) (fp_studentIds body) -> ~ In y (g_students loaded) ->
        Student_findById y (snd (patch_full toLowerCase role id body st))
        = Student_findById y st).
Proof. apply patch_full_placed. Qed.

Lemma patch_full_places_students_witness :
  (exists s,
      Student_findById 12%N
        (snd (patch_full Example.lowerCase role_admin 1%N
                (Example.roster [Some 12%N]) Example.school)) = Some s
      /\ s_group s = Some 1%N)
  /\ (forall s,
        Student_findById 11%N
          (snd (patch_full Example.lowerCase role_admin 1%N
                  (Example.roster [Some 12%N]) Example.school)) = Some s ->
        s_group s = None).
Proof.
  destruct (@patch_full_places_students Example.lowerCase role_admin 1%N
              (Example.roster [Some 12%N]) Example.school Example.G _
              (wf_students school_well_formed) eq_refl eq_refl)
    as [H1 [H2 _]].
  split.
  - apply H1. now left.
  - intros s. apply H2.
    + now left.
    + simpl. intros [E|[]]. discriminate.
Defined.

(** X7.  When a bulk update of group [id] is answered 200, the parents
    array of the group has no duplicate and, student ids being unique in
    the store, lists the parent of every student who belongs to the
    group; when the body carries no parent entry it lists nobody else.
    This holds whether [save()] writes the array (the assigned list
    differs from the loaded one) or leaves what the loops stored. *)
Theorem patch_full_lists_parents (toLowerCase : jsstring -> jsstring)
  (role : Role) (id : ObjectId) (body : FullPatch) (st : Store)
  (data : option Group) :
  fst (patch_full toLowerCase role id body st) = Json 200 data ->
  exists g',
    data = Some g'
    /\ Group_findById id (snd (patch_full toLowerCase role id body st))
       = Some g'
    /\ NoDup (g_parents g')
    /\ (NoDup (student_ids st) ->
        forall s p,
          In s (students (snd (patch_full toLowerCase role id body st))) ->
          s_group s = Some id -> s_parent s = Some p ->
          In p (g_parents g'))
    /\ (fp_parents body = [] ->
        forall p, In p (g_parents g') ->
          exists s,
            In s (students (snd (patch_full toLowerCase role id body st)))
            /\ s_group s = Some id /\ s_parent s = Some p).
Proof. apply patch_full_parents_listed. Qed.

Lemma patch_full_lists_parents_witness :
  (exists g',
      Group_findById 1%N
        (snd (patch_full Example.lowerCase role_admin 1%N
                Example.with_guest_parent Example.school)) = Some g'
      /\ NoDup (g_parents g'))
  /\ (exists g',
        Group_findById 1%N
          (snd (patch_full Example.lowerCase role_admin 1%N
                  (Example.roster [Some 11%N; Some 12%N]) Example.school))
        = Some g'
        /\ In 21%N (g_parents g')).
Proof.
  split.
  - destruct (@patch_full_lists_parents Example.lowerCase role_admin 1%N
                Example.with_guest_parent Example.school _ eq_refl)
      as [g' [_ [Hf [Hn _]]]].
    exists g'. now split.
  - destruct (@patch_full_lists_parents Example.lowerCase role_admin 1%N
                (Example.roster [Some 11%N; Some 12%N]) Example.school _
                eq_refl)
      as [g' [_ [Hf [_ [Hc _]]]]].
    exists g'. split; [exact Hf|].
    apply (Hc (wf_students school_well_formed) Example.S1 21%N);
      [vm_compute; now left|reflexivity|reflexivity].
Defined.

(** ** Deleting a student or a group *)

Section Deleting.

Lemma g_card_Group_update (gid : ObjectId) (f : Group -> Group) (st : Store) :
  (forall g, g_card (f g) = g_card g) ->
  gview g_card (Group_update gid f st) = gview g_card st.
Proof. intros H. apply (map_if_keeps _ _ _ _ H). Qed.

Lemma Parent_save_pull_frame (pid sid : ObjectId) (st st' : Store) :
  Parent_save_pull pid sid st = Some st' ->
  groups st' = groups st /\ students st' = students st.
Proof.
  unfold Parent_save_pull. destruct (Parent_findById pid st); [|discriminate].
  intros H. inversion H. now split.
Qed.

Lemma Parent_save_pull_found (p : Parent) (pid sid : ObjectId) (st : Store) :
  Parent_findById pid st = Some p ->
  Parent_save_pull pid sid st
  = Some (Parent_update pid
            (fun q => set_p_students (pull sid (p_students q)) q) st).
Proof. intros H. unfold Parent_save_pull. now rewrite H. Qed.

(** the steps of the deletion of a stored student *)
Lemma delete_student_steps (id : ObjectId) (st : Store) (doc : Student) :
  Student_findById id st = Some doc ->
  exists st1 st3,
    delete_student role_admin id st = (Json 200 tt, Student_deleteOne id st3)
    /\ st1 = match s_group doc with
             | Some gid => Group_pull_student gid id st
             | None => st
             end
    /\ groups st3 = groups st1 /\ students st3 = students st
    /\ st3 = match s_parent doc with
             | None => st1
             | Some pid =>
                 match Parent_findById pid st with
                 | None => st1
                 | Some p =>
                     let st' :=
                       Parent_update pid
                         (fun q => set_p_students (pull id (p_students q)) q)
                         st1 in
                     if is_nil (pull id (p_students p))
                     then Parent_deleteOne pid st' else st'
                 end
             end.
Proof.
  intros F. pose proof (Student_findById_id _ _ F) as Hid.
  pose proof (proj1 (find_some _ _ F)) as Hin.
  unfold delete_student. cbn [is_admin negb]. rewrite F, Hid.
  set (st1 := match s_group doc with
              | Some gid => Group_pull_student gid id st
              | None => st
              end).
  assert (Hs1 : students st1 = students st)
    by (unfold st1; now destruct (s_group doc)).
  assert (Hp1 : parents st1 = parents st)
    by (unfold st1; now destruct (s_group doc)).
  destruct (s_parent doc) as [pid|] eqn:Ep.
  - assert (Hfp : Parent_findById pid st1 = Parent_findById pid st)
      by (unfold Parent_findById; now rewrite Hp1).
    rewrite Hfp.
    destruct (Parent_findById pid st) as [p|] eqn:Fp.
    + assert (Hpid : p_id p = pid)
        by (apply find_some in Fp; now apply N.eqb_eq).
      rewrite Hpid.
      rewrite (@Parent_save_pull_found p pid id st1)
        by (now rewrite Hfp).
      set (st' := Parent_update pid _ st1).
      set (st2 := if is_nil _ then _ else st').
      assert (Hg2 : groups st2 = groups st1)
        by (unfold st2; now destruct (is_nil _)).
      assert (Hs2 : students st2 = students st)
        by (unfold st2; destruct (is_nil _); exact Hs1).
      rewrite (@removeParent_in_use_opt (s_group doc) (Some pid) st2 doc);
        [|now rewrite Hs2|reflexivity|exact Ep].
      exists st1, st2. now repeat split.
    + rewrite (@removeParent_in_use_opt (s_group doc) (Some pid) st1 doc);
        [|now rewrite Hs1|reflexivity|exact Ep].
      exists st1, st1. now repeat split.
  - exists st1, st1. now repeat split.
Qed.

Lemma find_filter_out {A : Type} (key : A -> ObjectId) (k : ObjectId)
  (l : list A) :
  find (fun a => N.eqb (key a) k)
       (filter (fun a => negb (N.eqb (key a) k)) l) = None.
Proof.
  induction l as [|a l IH]; simpl; [reflexivity|].
  destruct (N.eqb (key a) k) eqn:E; simpl; [exact IH|].
  now rewrite E.
Qed.

Lemma find_filter_other {A : Type} (key : A -> ObjectId) (k q : ObjectId)
  (l : list A) :
  q <> k ->
  find (fun a => N.eqb (key a) q)
       (filter (fun a => negb (N.eqb (key a) k)) l)
  = find (fun a => N.eqb (key a) q) l.
Proof.
  intros Hne. induction l as [|a l IH]; simpl; [reflexivity|].
  destruct (N.eqb (key a) k) eqn:E; simpl.
  - apply N.eqb_eq in E.
    assert (E' : N.eqb (key a) q = false) by (apply N.eqb_neq; congruence).
    now rewrite E'.
  - destruct (N.eqb (key a) q); [reflexivity|exact IH].
Qed.

Lemma Parent_findById_update (pid q : ObjectId) (f : Parent -> Parent)
  (st : Store) :
  (forall p, p_id (f p) = p_id p) ->
  Parent_findById q (Parent_update pid f st)
  = option_map (fun p => if N.eqb (p_id p) pid then f p else p)
               (Parent_findById q st).
Proof.
  intros Hf. unfold Parent_findById, Parent_update, with_parents.
  cbn [parents]. apply find_map_id.
  intros p. destruct (N.eqb (p_id p) pid); [apply Hf|reflexivity].
Qed.

Lemma delete_student_any (role : Role) (id : ObjectId) (st : Store) :
  snd (delete_student role id st) = st
  \/ exists doc, Student_findById id st = Some doc /\ role = role_admin.
Proof.
  unfold delete_student. destruct (is_admin role) eqn:Ha; [|now left].
  cbn [negb]. destruct (Student_findById id st) as [doc|]; [|now left].
  right. exists doc. split; [reflexivity|]. now destruct role.
Qed.

End Deleting.

(** X8.  Deleting a student never writes the name, location, description,
    teachers or parents of a group, whoever calls and whatever the
    answer: the parent of the deleted student stays listed by the group
    of the student, also when that parent has no other child there or
    is deleted with the student. *)
Theorem delete_student_keeps_group_parents (role : Role) (id : ObjectId)
  (st : Store) :
  gview g_card (snd (delete_student role id st)) = gview g_card st.
Proof.
  destruct (delete_student_any role id st) as [->|[doc [F ->]]];
    [reflexivity|].
  destruct (delete_student_steps _ _ F)
    as [st1 [st3 [-> [E1 [Hg [_ _]]]]]].
  cbn [snd]. unfold gview, Student_deleteOne, with_students. cbn [groups].
  rewrite Hg, E1. destruct (s_group doc); [|reflexivity].
  now apply g_card_Group_update.
Qed.

Lemma delete_student_effect (id : ObjectId) (st : Store) (doc : Student) :
  Student_findById id st = Some doc ->
  fst (delete_student role_admin id st) = Json 200 tt
  /\ students (snd (delete_student role_admin id st))
     = filter (fun s => negb (N.eqb (s_id s) id)) (students st)
  /\ Student_findById id (snd (delete_student role_admin id st)) = None
  /\ (forall gid,
        Group_findById gid (snd (delete_student role_admin id st))
        = option_map
            (fun g => if opt_id_eqb (s_group doc) (Some gid)
                      then set_g_students (pull id (g_students g)) g else g)
            (Group_findById gid st))
  /\ (forall q,
        Parent_findById q (snd (delete_student role_admin id st))
        = match Parent_findById q st with
          | Some p =>
              if opt_id_eqb (s_parent doc) (Some q) then
                if is_nil (pull id (p_students p)) then None
                else Some (set_p_students (pull id (p_students p)) p)
              else Some p
          | None => None
          end).
Proof.
  intros F.
  destruct (delete_student_steps _ _ F)
    as [st1 [st3 [-> [E1 [Hg [Hs E3]]]]]].
  cbn [fst snd].
  assert (Hp1 : parents st1 = parents st)
    by (rewrite E1; now destruct (s_group doc)).
  split; [reflexivity|]. split.
  { unfold Student_deleteOne, with_students. cbn [students]. now rewrite Hs. }
  split.
  { unfold Student_findById, Student_deleteOne, with_students.
    cbn [students]. apply find_filter_out. }
  split.
  - intros gid.
    rewrite (@Group_findById_same gid st1 (Student_deleteOne id st3))
      by exact Hg.
    rewrite E1. destruct (s_group doc) as [g0|]; simpl.
    + unfold Group_pull_student.
      rewrite Group_findById_update_any by reflexivity.
      destruct (Group_findById gid st) as [g|] eqn:Fg; [|reflexivity].
      simpl. rewrite (Group_findById_id _ _ Fg).
      now rewrite (N.eqb_sym gid g0).
    + now destruct (Group_findById gid st).
  - intros q.
    assert (Hq : Parent_findById q (Student_deleteOne id st3)
                 = Parent_findById q st3) by reflexivity.
    rewrite Hq, E3. clear Hq E3.
    assert (H1 : Parent_findById q st1 = Parent_findById q st)
      by (unfold Parent_findById; now rewrite Hp1).
    destruct (s_parent doc) as [pid|]; simpl.
    + destruct (Parent_findById pid st) as [p0|] eqn:F0.
      * destruct (N.eq_dec q pid) as [->|Hne].
        -- rewrite F0, N.eqb_refl.
           assert (Hid0 : p_id p0 = pid)
             by (apply find_some in F0; now apply N.eqb_eq).
           destruct (is_nil (pull id (p_students p0))).
           ++ unfold Parent_findById, Parent_deleteOne, with_parents.
              cbn [parents]. apply find_filter_out.
           ++ rewrite Parent_findById_update by reflexivity.
              rewrite H1, F0. simpl. now rewrite Hid0, N.eqb_refl.
        -- assert (E : N.eqb pid q = false)
             by (apply N.eqb_neq; congruence).
           rewrite E.
           assert (H2 : Parent_findById q
                          (Parent_update pid
                             (fun q0 => set_p_students
                                          (pull id (p_students q0)) q0) st1)
                        = Parent_findById q st).
           { rewrite Parent_findById_update by reflexivity. rewrite H1.
             destruct (Parent_findById q st) as [p|] eqn:Fq; [|reflexivity].
             simpl. apply find_some in Fq. destruct Fq as [_ Fq].
             apply N.eqb_eq in Fq. rewrite Fq.
             now rewrite (proj2 (N.eqb_neq q pid) Hne). }
           destruct (is_nil (pull id (p_students p0))).
           ++ unfold Parent_findById at 1. unfold Parent_deleteOne, with_parents.
              cbn [parents]. rewrite find_filter_other by exact Hne.
              fold (Parent_findById q
                      (Parent_update pid
                         (fun q0 => set_p_students
                                      (pull id (p_students q0)) q0) st1)).
              rewrite H2. now destruct (Parent_findById q st).
           ++ rewrite H2. now destruct (Parent_findById q st).
      * rewrite H1. destruct (Parent_findById q st) as [p|] eqn:Fq;
          [|reflexivity].
        destruct (N.eqb pid q) eqn:E; [|reflexivity].
        apply N.eqb_eq in E. subst q. congruence.
    + rewrite H1. now destruct (Parent_findById q st).
Qed.

(** X9.  An administrator deletes a stored student: the answer is 200;
    every document with the id of the student is gone and the other
    students are kept as they were; the group of the student has the id
    pulled from its roster and no other group is written; the parent of
    the student has the id pulled from its students, and is deleted when
    no id is left there; no other parent is written. *)
Theorem delete_student_removes (id : ObjectId) (st : Store) (doc : Student) :
  Student_findById id st = Some doc ->
  fst (delete_student role_admin id st) = Json 200 tt
  /\ students (snd (delete_student role_admin id st))
     = filter (fun s => negb (N.eqb (s_id s) id)) (students st)
  /\ Student_findById id (snd (delete_student role_admin id st)) = None
  /\ (forall gid,
        Group_findById gid (snd (delete_student role_admin id st))
        = option_map
            (fun g => if opt_id_eqb (s_group doc) (Some gid)
                      then set_g_students (pull id (g_students g)) g else g)
            (Group_findById gid st))
  /\ (forall q,
        Parent_findById q (snd (delete_student role_admin id st))
        = match Parent_findById q st with
          | Some p =>
              if opt_id_eqb (s_parent doc) (Some q) then
                if is_nil (pull id (p_students p)) then None
                else Some (set_p_students (pull id (p_students p)) p)
              else Some p
          | None => None
          end).
Proof. apply delete_student_effect. Qed.

Lemma delete_student_removes_witness :
  Student_findById 12%N (snd (delete_student role_admin 12%N Campus.campus))
  = None
  /\ Parent_findById 22%N (snd (delete_student role_admin 12%N Campus.campus))
     = None.
Proof.
  destruct (@delete_student_removes 12%N Campus.campus Campus.Jaan eq_refl)
    as [_ [_ [H1 [_ H2]]]].
  split; [exact H1|]. rewrite (H2 22%N). reflexivity.
Defined.

Lemma delete_group_effect (id : ObjectId) (st : Store) (g : Group) :
  Group_findById id st = Some g ->
  fst (delete_group role_admin id st) = Json 200 tt
  /\ Group_findById id (snd (delete_group role_admin id st)) = None
  /\ (forall gid, gid <> id ->
        Group_findById gid (snd (delete_group role_admin id st))
        = Group_findById gid st)
  /\ (forall s, In s (students (snd (delete_group role_admin id st))) ->
                s_group s <> Some id)
  /\ (forall y s, Student_findById y st = Some s -> s_group s <> Some id ->
                  Student_findById y (snd (delete_group role_admin id st))
                  = Some s)
  /\ parents (snd (delete_group role_admin id st)) = parents st.
Proof.
  intros F. pose proof (Group_findById_id _ _ F) as Hid.
  unfold delete_group. cbn [is_admin negb]. rewrite F, Hid. cbn [fst snd].
  split; [reflexivity|]. split.
  { unfold Group_findById, Group_deleteOne, with_groups. cbn [groups].
    apply find_filter_out. }
  split.
  { intros gid Hne. unfold Group_findById, Group_deleteOne, with_groups.
    cbn [groups]. now apply find_filter_other. }
  split.
  { intros s Hin Hg. cbn in Hin. apply filter_In in Hin.
    destruct Hin as [_ Hin]. apply negb_true_iff in Hin.
    rewrite (proj2 (opt_id_eqb_eq _ _) Hg) in Hin. discriminate. }
  split; [|reflexivity].
  intros y s Fs Hg. unfold Student_findById. cbn.
  apply find_filter_keep; [exact Fs|].
  apply negb_true_iff. destruct (opt_id_eqb (s_group s) (Some id)) eqn:E;
    [|reflexivity].
  apply opt_id_eqb_eq in E. contradiction.
Qed.

(** X10.  An administrator deletes a stored group: the answer is 200; the
    group is gone and the other groups are as they were; no stored
    student names the group any more, and a student who named another
    group, or none, is stored as before; no parent document is written,
    so the parents of the deleted students still list them. *)
Theorem delete_group_removes (id : ObjectId) (st : Store) (g : Group) :
  Group_findById id st = Some g ->
  fst (delete_group role_admin id st) = Json 200 tt
  /\ Group_findById id (snd (delete_group role_admin id st)) = None
  /\ (forall gid, gid <> id ->
        Group_findById gid (snd (delete_group role_admin id st))
        = Group_findById gid st)
  /\ (forall s, In s (students (snd (delete_group role_admin id st))) ->
                s_group s <> Some id)
  /\ (forall y s, Student_findById y st = Some s -> s_group s <> Some id ->
                  Student_findById y (snd (delete_group role_admin id st))
                  = Some s)
  /\ parents (snd (delete_group role_admin id st)) = parents st.
Proof. apply delete_group_effect. Qed.

Lemma delete_group_removes_witness :
  Group_findById 1%N (snd (delete_group role_admin 1%N Campus.campus)) = None
  /\ student_ids (snd (delete_group role_admin 1%N Campus.campus)) = [13%N]
  /\ parents (snd (delete_group role_admin 1%N Campus.campus))
     = [Campus.Anu; Campus.Bo].
Proof.
  destruct (@delete_group_removes 1%N Campus.campus Campus.GA eq_refl)
    as [_ [H1 [_ [_ [_ H2]]]]].
  split; [exact H1|]. split; [reflexivity|exact H2].
Defined.

(** ** Creating a student *)

Section Creating.

Variable toLowerCase : jsstring -> jsstring.

Lemma lists_more_refl (st : Store) : lists_more st st.
Proof.
  split.
  - intros gid g H. exists g. repeat split; trivial; apply incl_refl.
  - intros pid p H. exists p. split; [exact H|apply incl_refl].
Qed.

Lemma lists_more_trans (a b c : Store) :
  lists_more a b -> lists_more b c -> lists_more a c.
Proof.
  intros [G1 P1] [G2 P2]. split.
  - intros gid g H. destruct (G1 _ _ H) as [g1 [H1 [I1 J1]]].
    destruct (G2 _ _ H1) as [g2 [H2 [I2 J2]]].
    exists g2. repeat split; trivial; eapply incl_tran; eassumption.
  - intros pid p H. destruct (P1 _ _ H) as [p1 [H1 I1]].
    destruct (P2 _ _ H1) as [p2 [H2 I2]].
    exists p2. split; [exact H2|]. eapply incl_tran; eassumption.
Qed.

Lemma lists_more_same (st st' : Store) :
  groups st' = groups st -> parents st' = parents st -> lists_more st st'.
Proof.
  intros Hg Hp. split.
  - intros gid g H. exists g. unfold Group_findById. rewrite Hg.
    repeat split; trivial; apply incl_refl.
  - intros pid p H. exists p. unfold Parent_findById. rewrite Hp.
    split; [exact H|apply incl_refl].
Qed.

Lemma incl_addToSet (x : ObjectId) (l : list ObjectId) :
  incl l (addToSet x l).
Proof. intros y Hy. apply In_addToSet. now right. Qed.

Lemma lists_more_Group_update (gid : ObjectId) (f : Group -> Group)
  (st : Store) :
  (forall g, g_id (f g) = g_id g) ->
  (forall g, incl (g_students g) (g_students (f g))
             /\ incl (g_parents g) (g_parents (f g))) ->
  lists_more st (Group_update gid f st).
Proof.
  intros Hid Hf. split.
  - intros g0 g H. rewrite Group_findById_update_any by exact Hid.
    rewrite H. simpl. destruct (N.eqb (g_id g) gid).
    + exists (f g). split; [reflexivity|apply Hf].
    + exists g. repeat split; apply incl_refl.
  - intros pid p H. exists p. split; [exact H|apply incl_refl].
Qed.

Lemma lists_more_Parent_update (pid : ObjectId) (f : Parent -> Parent)
  (st : Store) :
  (forall p, p_id (f p) = p_id p) ->
  (forall p, incl (p_students p) (p_students (f p))) ->
  lists_more st (Parent_update pid f st).
Proof.
  intros Hid Hf. split.
  - intros g0 g H. exists g. repeat split; trivial; apply incl_refl.
  - intros q p H. rewrite Parent_findById_update by exact Hid.
    rewrite H. simpl. destruct (N.eqb (p_id p) pid).
    + exists (f p). split; [reflexivity|apply Hf].
    + exists p. split; [reflexivity|apply incl_refl].
Qed.

Lemma lists_more_names (pid : ObjectId) (fn ln : option jsstring)
  (st st' : Store) :
  Parent_save_names pid fn ln st = Some st' ->
  lists_more st st' /\ groups st' = groups st /\ students st' = students st
  /\ next_id st' = next_id st
  /\ (forall q, option_map p_students (Parent_findById q st')
                = option_map p_students (Parent_findById q st)).
Proof.
  unfold Parent_save_names.
  destruct (Parent_findById pid st) as [found|]; [|discriminate].
  intros H. inversion H; subst; clear H.
  split; [apply lists_more_Parent_update;
          [reflexivity|intros p0; apply incl_refl]|].
  repeat split; trivial.
  intros q. rewrite Parent_findById_update by reflexivity.
  destruct (Parent_findById q st) as [p0|]; simpl; trivial.
  now destruct (N.eqb (p_id p0) pid).
Qed.

Lemma lists_more_save_names (pid : ObjectId)
  (ch : option jsstring * option jsstring) (st st' : Store) :
  save_changed_names pid ch st = Some st' ->
  lists_more st st' /\ groups st' = groups st /\ students st' = students st
  /\ next_id st' = next_id st
  /\ (forall q, option_map p_students (Parent_findById q st')
                = option_map p_students (Parent_findById q st)).
Proof.
  unfold save_changed_names.
  destruct ch as [[fn|] [ln|]]; try apply lists_more_names.
  intros H. inversion H; subst.
  split; [apply lists_more_refl|]. now repeat split.
Qed.

Lemma lists_more_create (fn ln email : jsstring) (st st' : Store)
  (doc : Parent) :
  Parent_create toLowerCase fn ln email st = Some (doc, st') ->
  lists_more st st' /\ groups st' = groups st /\ students st' = students st
  /\ next_id st' = N.succ (next_id st)
  /\ p_id doc = next_id st /\ p_students doc = []
  /\ parents st' = parents st ++ [doc].
Proof.
  unfold Parent_create. destruct (is_empty _); [discriminate|].
  intros H. inversion H; subst; clear H. cbn.
  split; [|now repeat split].
  split.
  - intros gid g Hg. exists g. repeat split; trivial; apply incl_refl.
  - intros pid p Hp. exists p. split; [|apply incl_refl].
    unfold Parent_findById in *. cbn. now apply find_app_found.
Qed.

Lemma not_stored (x : ObjectId) (st : Store) :
  ~ In x (student_ids st) -> Student_findById x st = None.
Proof.
  intros H. destruct (Student_findById x st) as [d|] eqn:E; [|reflexivity].
  exfalso. apply H. now apply stored_id with d.
Qed.

Lemma fresh_parent_id (st : Store) :
  (forall p, In p (parents st) -> (p_id p < next_id st)%N) ->
  forall i, (next_id st <= i)%N -> Parent_findById i st = None.
Proof.
  intros Hf i Hi. destruct (Parent_findById i st) as [p|] eqn:E;
    [|reflexivity].
  apply find_some in E. destruct E as [Hin E]. apply N.eqb_eq in E.
  specialize (Hf p Hin). lia.
Qed.

(** the parent a request resolves to: found by its email, or created *)
Lemma resolved_parent (fn ln email : jsstring)
  (ch : Parent -> option jsstring * option jsstring) (st st1 : Store)
  (parentDoc : Parent) :
  well_formed st ->
  match Parent_findOne_email toLowerCase email st with
  | None => Parent_create toLowerCase fn ln email st
  | Some found =>
      match save_changed_names (p_id found) (ch found) st with
      | Some st' => Some (found, st')
      | None => None
      end
  end = Some (parentDoc, st1) ->
  lists_more st st1
  /\ groups st1 = groups st /\ students st1 = students st
  /\ (next_id st <= next_id st1)%N
  /\ exists p1, Parent_findById (p_id parentDoc) st1 = Some p1
                /\ p_students p1 = p_students parentDoc.
Proof.
  intros [_ _ Hnd Hfr].
  destruct (Parent_findOne_email toLowerCase email st) as [found|] eqn:F.
  - destruct (save_changed_names (p_id found) (ch found) st) as [st'|] eqn:E;
      [|discriminate].
    intros H. inversion H; subst; clear H.
    destruct (lists_more_save_names _ _ _ E) as [L [Hg [Hs [Hn Hst]]]].
    split; [exact L|]. split; [exact Hg|]. split; [exact Hs|].
    split; [rewrite Hn; apply N.le_refl|].
    apply Parent_findOne_email_In in F. destruct F as [Hin _].
    assert (Hid : Parent_findById (p_id parentDoc) st = Some parentDoc)
      by (unfold Parent_findById; now apply (find_unique p_id)).
    specialize (Hst (p_id parentDoc)). rewrite Hid in Hst.
    destruct (Parent_findById (p_id parentDoc) st1) as [p1|];
      [|discriminate].
    exists p1. split; [reflexivity|]. simpl in Hst. congruence.
  - intros H.
    destruct (lists_more_create _ _ _ _ H) as [L [Hg [Hs [Hn [Hid [He Hp]]]]]].
    split; [exact L|]. split; [exact Hg|]. split; [exact Hs|].
    split; [rewrite Hn; apply N.le_succ_diag_r|].
    exists parentDoc. split; [|reflexivity].
    unfold Parent_findById. rewrite Hp, Hid.
    rewrite find_app_none by (apply (fresh_parent_id st Hfr); lia).
    simpl. now rewrite Hid, N.eqb_refl.
Qed.

Lemma Parent_save_push_found (p : Parent) (pid sid : ObjectId) (st : Store) :
  Parent_findById pid st = Some p ->
  Parent_save_push pid sid st
  = Some (Parent_update pid
            (fun q => set_p_students (p_students q ++ [sid]) q) st).
Proof. intros H. unfold Parent_save_push. now rewrite H. Qed.

(** the student a request created, and where it is listed *)
Lemma post_student_created (role : Role) (body : StudentBody) (st : Store)
  (data : option Student) :
  well_formed st -> students_older st ->
  fst (post_student toLowerCase role body st) = Json 201 data ->
  exists doc gid pid g' p',
    data = Some doc
    /\ sb_groupId body = Some gid
    /\ s_group doc = Some gid /\ s_parent doc = Some pid
    /\ students (snd (post_student toLowerCase role body st))
       = students st ++ [doc]
    /\ ~ In (s_id doc) (student_ids st)
    /\ Group_findById gid (snd (post_student toLowerCase role body st))
       = Some g'
    /\ In (s_id doc) (g_students g') /\ In pid (g_parents g')
    /\ Parent_findById pid (snd (post_student toLowerCase role body st))
       = Some p'
    /\ In (s_id doc) (p_students p')
    /\ lists_more st (snd (post_student toLowerCase role body st)).
Proof.
  intros Hwf Hold. unfold post_student.
  destruct (negb (is_admin role)); [discriminate|].
  destruct (truthy (sb_parentEmail body)) as [parentEmail|]; [|discriminate].
  destruct (sb_groupId body) as [gid0|] eqn:Eg; [|discriminate].
  destruct (Group_findById gid0 st) as [group|] eqn:Fg; [|discriminate].
  pose proof (Group_findById_id _ _ Fg) as Hgid. rewrite Hgid.
  set (nameParts := normalizeParentName (sb_parentName body)).
  set (email := toLowerCase parentEmail).
  destruct (match Parent_findOne_email toLowerCase email st with
            | None => Parent_create toLowerCase (firstName nameParts)
                        (lastName nameParts) email st
            | Some parentDoc => _
            end) as [[parentDoc st1]|] eqn:R; [|discriminate].
  destruct (resolved_parent (firstName nameParts) (lastName nameParts) email
              (fun found =>
                 changed_names (negb (is_empty (firstName nameParts)))
                   (negb (is_empty (lastName nameParts))) found nameParts)
              Hwf R)
    as [L1 [Hg1 [Hs1 [Hn1 [p1 [Fp1 Hst1]]]]]].
  set (pid := p_id parentDoc) in *.
  destruct (Student_create toLowerCase _ _ _ _ _ _ _ st1)
    as [[doc st2]|] eqn:C;
    [|discriminate].
  unfold Student_create in C.
  destruct (sb_firstName body) as [f|]; [|discriminate].
  destruct (sb_lastName body) as [l|]; [|discriminate].
  destruct (sb_age body) as [a|]; [|discriminate].
  destruct (Student_valid _); [|discriminate].
  inversion C; subst doc st2; clear C.
  set (doc := mkStudent (next_id st1) (trim f) (trim l) a (Some gid0)
                        (Some pid) (Some (trim (fullName nameParts)))
                        (email_setter toLowerCase email)).
  set (st2 := mkStore (groups st1) (students st1 ++ [doc]) (parents st1)
                      (N.succ (next_id st1))).
  cbn [s_id].
  fold doc. change (s_id doc) with (next_id st1).
  set (sid := next_id st1) in *.
  set (st3 := Group_add_student gid0 sid st2).
  assert (Fp3 : Parent_findById pid st3 = Some p1) by exact Fp1.
  destruct (if negb (mem sid (p_students parentDoc))
            then Parent_save_push pid sid st3 else Some st3)
    as [st4|] eqn:P; [|discriminate].
  cbn [fst snd].
  assert (H4 : lists_more st3 st4 /\ groups st4 = groups st3
               /\ students st4 = students st3
               /\ exists p', Parent_findById pid st4 = Some p'
                             /\ In sid (p_students p')).
  { destruct (mem sid (p_students parentDoc)) eqn:Em; cbn [negb] in P.
    - inversion P; subst st4. split; [apply lists_more_refl|].
      repeat split. exists p1. split; [exact Fp3|].
      rewrite Hst1. now apply mem_In.
    - rewrite (@Parent_save_push_found p1 pid sid st3 Fp3) in P.
      inversion P; subst st4.
      split.
      { apply lists_more_Parent_update; [reflexivity|].
        intros p0. simpl. now apply incl_appl, incl_refl. }
      repeat split.
      exists (set_p_students (p_students p1 ++ [sid]) p1).
      split.
      + rewrite Parent_findById_update by reflexivity. rewrite Fp3. simpl.
        assert (E : p_id p1 = pid)
          by (apply find_some in Fp3; now apply N.eqb_eq).
        now rewrite E, N.eqb_refl.
      + simpl. apply in_or_app. right. now left. }
  destruct H4 as [L4 [Hg4 [Hs4 [p' [Fp4 Hin4]]]]].
  set (st5 := ensureParentInGroup' (Some gid0) (Some pid) st4).
  assert (Hs5 : students st5 = students st ++ [doc]).
  { change (students st5) with (students st4). rewrite Hs4.
    change (students st3) with (students st1 ++ [doc]). now rewrite Hs1. }
  assert (Hfresh : ~ In sid (student_ids st)).
  { intros Hin. apply in_map_iff in Hin. destruct Hin as [s [E Hin]].
    specialize (Hold s Hin). unfold sid in E. lia. }
  assert (Fs5 : Student_findById sid st5 = Some doc).
  { unfold Student_findById. rewrite Hs5.
    rewrite find_app_none by (now apply not_stored).
    simpl. now rewrite N.eqb_refl. }
  intros H. inversion H; subst data; clear H.
  set (g3 := set_g_students (addToSet sid (g_students group)) group).
  assert (Fg3 : Group_findById gid0 st3 = Some g3).
  { unfold st3, Group_add_student.
    rewrite Group_findById_update by reflexivity.
    assert (E : Group_findById gid0 st2 = Some group).
    { unfold Group_findById. cbn [groups st2]. rewrite Hg1. exact Fg. }
    now rewrite E. }
  assert (Fg5 : Group_findById gid0 st5
                = Some (set_g_parents (addToSet pid (g_parents g3)) g3)).
  { unfold st5, ensureParentInGroup', Group_add_parent.
    rewrite Group_findById_update by reflexivity.
    rewrite (@Group_findById_same gid0 st3 st4) by exact Hg4.
    now rewrite Fg3. }
  exists doc, gid0, pid, (set_g_parents (addToSet pid (g_parents g3)) g3), p'.
  split; [exact Fs5|]. split; [reflexivity|]. split; [reflexivity|].
  split; [reflexivity|]. split; [exact Hs5|]. split; [exact Hfresh|].
  split; [exact Fg5|]. split; [simpl; apply In_addToSet; now left|].
  split; [simpl; apply In_addToSet; now left|].
  split; [exact Fp4|]. split; [exact Hin4|].
  apply lists_more_trans with st1; [exact L1|].
  apply lists_more_trans with st3.
  { apply lists_more_trans with st2; [now apply lists_more_same|].
    apply lists_more_Group_update; [reflexivity|].
    intros g. simpl. split; [apply incl_addToSet|apply incl_refl]. }
  apply lists_more_trans with st4; [exact L4|].
  apply lists_more_Group_update; [reflexivity|].
  intros g. simpl. split; [apply incl_refl|apply incl_addToSet].
Qed.

Lemma mem_incl (x : ObjectId) (l l' : list ObjectId) :
  incl l l' -> mem x l = true -> mem x l' = true.
Proof. intros Hi H. apply mem_In. apply Hi. now apply mem_In. Qed.

Lemma checks_lists_more (st st' : Store) (s : Student) :
  lists_more st st' ->
  (group_lists_student st s = true -> group_lists_student st' s = true)
  /\ (parent_lists_student st s = true -> parent_lists_student st' s = true)
  /\ (group_lists_parent st s = true -> group_lists_parent st' s = true).
Proof.
  intros [LG LP].
  unfold group_lists_student, parent_lists_student, group_lists_parent.
  split; [|split].
  - destruct (s_group s) as [gid|]; [|trivial].
    destruct (Group_findById gid st) as [g|] eqn:F; [|discriminate].
    destruct (LG _ _ F) as [g' [-> [I _]]]. now apply mem_incl.
  - destruct (s_parent s) as [pid|]; [|trivial].
    destruct (Parent_findById pid st) as [p|] eqn:F; [|discriminate].
    destruct (LP _ _ F) as [p' [-> I]]. now apply mem_incl.
  - destruct (s_parent s) as [pid|]; [|trivial].
    destruct (s_group s) as [gid|]; [|trivial].
    destruct (Group_findById gid st) as [g|] eqn:F; [|discriminate].
    destruct (LG _ _ F) as [g' [-> [_ I]]]. now apply mem_incl.
Qed.

Lemma post_student_invariants (role : Role) (body : StudentBody) (st : Store)
  (data : option Student) :
  well_formed st -> students_older st ->
  invariant1 st = true -> invariant2 st = true ->
  fst (post_student toLowerCase role body st) = Json 201 data ->
  invariant1 (snd (post_student toLowerCase role body st)) = true
  /\ invariant2 (snd (post_student toLowerCase role body st)) = true.
Proof.
  intros Hwf Hold I1 I2 H.
  destruct (post_student_created _ _ Hwf Hold H)
    as [doc [gid [pid [g' [p' [_ [_ [Hg [Hp [Hs [_ [Fg [Ig [Ip [Fp [Is L]]]]]]]]]]]]]]]].
  set (fin := snd (post_student toLowerCase role body st)) in *.
  unfold invariant1, invariant2 in *. rewrite Hs, !forallb_app. cbn [forallb].
  rewrite !andb_true_r. split; apply andb_true_iff; split.
  - apply forallb_forall. intros s Hin.
    apply (proj1 (checks_lists_more s L)).
    now apply (proj1 (forallb_forall _ _) I1).
  - unfold group_lists_student. rewrite Hg, Fg. now apply mem_In.
  - apply forallb_forall. intros s Hin.
    pose proof (proj1 (forallb_forall _ _) I2 s Hin) as Hc.
    apply andb_true_iff in Hc. destruct Hc as [Hc1 Hc2].
    destruct (checks_lists_more s L) as [_ [K1 K2]].
    now rewrite (K1 Hc1), (K2 Hc2).
  - unfold parent_lists_student, group_lists_parent.
    rewrite Hp, Hg, Fp, Fg.
    now rewrite (proj2 (mem_In _ _) Is), (proj2 (mem_In _ _) Ip).
Qed.

(** a request without a first name leaves behind the parent it created *)
Lemma post_student_half_done (role : Role) (body : StudentBody) (st : Store)
  (email : jsstring) (gid : ObjectId) :
  is_admin role = true ->
  truthy (sb_parentEmail body) = Some email ->
  sb_groupId body = Some gid -> Group_findById gid st <> None ->
  Parent_findOne_email toLowerCase (toLowerCase email) st = None ->
  email_setter toLowerCase (toLowerCase email) <> [] ->
  sb_firstName body = None ->
  status_of (fst (post_student toLowerCase role body st)) = 500
  /\ groups (snd (post_student toLowerCase role body st)) = groups st
  /\ students (snd (post_student toLowerCase role body st)) = students st
  /\ parents (snd (post_student toLowerCase role body st))
     = parents st
       ++ [mkParent (next_id st)
             (Some (trim (firstName (normalizeParentName (sb_parentName body)))))
             (Some (trim (lastName (normalizeParentName (sb_parentName body)))))
             (email_setter toLowerCase (toLowerCase email)) None []].
Proof.
  intros Ha He Hg Hex Hf Hne Hfn. unfold post_student.
  rewrite Ha, He, Hg. cbn [negb].
  destruct (Group_findById gid st) as [group|]; [|congruence].
  rewrite Hf. unfold Parent_create.
  destruct (email_setter toLowerCase (toLowerCase email)) as [|c r] eqn:E;
    [congruence|].
  cbn [is_empty]. unfold Student_create. rewrite Hfn. cbn.
  now repeat split.
Qed.

End Creating.

(** X11.  A request that creates a student and is answered 201 appends
    one student document and changes no other; the new student names the
    group of the body and a parent; the group lists the student and that
    parent, the parent lists the student, and every group and parent
    lists at least the ids it listed before.  Ids are unique in the
    store and older than the next fresh id. *)
Theorem post_student_attaches (toLowerCase : jsstring -> jsstring)
  (role : Role) (body : StudentBody) (st : Store) (data : option Student) :
  well_formed st -> students_older st ->
  fst (post_student toLowerCase role body st) = Json 201 data ->
  exists doc gid pid g' p',
    data = Some doc
    /\ sb_groupId body = Some gid
    /\ s_group doc = Some gid /\ s_parent doc = Some pid
    /\ students (snd (post_student toLowerCase role body st))
       = students st ++ [doc]
    /\ ~ In (s_id doc) (student_ids st)
    /\ Group_findById gid (snd (post_student toLowerCase role body st))
       = Some g'
    /\ In (s_id doc) (g_students g') /\ In pid (g_parents g')
    /\ Parent_findById pid (snd (post_student toLowerCase role body st))
       = Some p'
    /\ In (s_id doc) (p_students p')
    /\ lists_more st (snd (post_student toLowerCase role body st)).
Proof. apply post_student_created. Qed.

Lemma post_student_attaches_witness :
  exists doc,
    fst (post_student Example.lowerCase role_admin Example.new_sibling
           Example.school) = Json 201 (Some doc)
    /\ students (snd (post_student Example.lowerCase role_admin
                        Example.new_sibling Example.school))
       = students Example.school ++ [doc].
Proof.
  assert (Hold : students_older Example.school).
  { intros s [<-|[<-|[]]]; reflexivity. }
  destruct (@post_student_attaches Example.lowerCase role_admin
              Example.new_sibling Example.school _
              school_well_formed Hold eq_refl)
    as [doc [gid [pid [g' [p' [Hd [_ [_ [_ [Hs _]]]]]]]]]].
  exists doc. split; [|exact Hs].
  rewrite <- Hd. reflexivity.
Defined.

(** X12.  Creating a student keeps the two invariants of the data model:
    when every student is on the roster of its group, is listed by its
    parent and has its parent listed by its group, this is still so after
    a request answered 201, the new student included. *)
Theorem post_student_keeps_invariants (toLowerCase : jsstring -> jsstring)
  (role : Role) (body : StudentBody) (st : Store) (data : option Student) :
  well_formed st -> students_older st ->
  invariant1 st = true -> invariant2 st = true ->
  fst (post_student toLowerCase role body st) = Json 201 data ->
  invariant1 (snd (post_student toLowerCase role body st)) = true
  /\ invariant2 (snd (post_student toLowerCase role body st)) = true.
Proof. apply post_student_invariants. Qed.

Lemma post_student_keeps_invariants_witness :
  invariant1 (snd (post_student Example.lowerCase role_admin
                     Example.new_sibling Example.school)) = true
  /\ invariant2 (snd (post_student Example.lowerCase role_admin
                        Example.new_sibling Example.school)) = true.
Proof.
  assert (Hold : students_older Example.school).
  { intros s [<-|[<-|[]]]; reflexivity. }
  apply (@post_student_keeps_invariants Example.lowerCase role_admin
           Example.new_sibling Example.school _
           school_well_formed Hold eq_refl eq_refl eq_refl).
Defined.

(** X13.  Creating a student is not all or nothing.  An administrator
    names an existing group and an email that no stored parent has, and
    gives no first name for the student: the answer is 500, no student is
    stored and no group is written, and the parent document created for
    the email stays, with no student. *)
Theorem post_student_leaves_parent (toLowerCase : jsstring -> jsstring)
  (role : Role) (body : StudentBody) (st : Store) (email : jsstring)
  (gid : ObjectId) :
  is_admin role = true ->
  truthy (sb_parentEmail body) = Some email ->
  sb_groupId body = Some gid -> Group_findById gid st <> None ->
  Parent_findOne_email toLowerCase (toLowerCase email) st = None ->
  email_setter toLowerCase (toLowerCase email) <> [] ->
  sb_firstName body = None ->
  status_of (fst (post_student toLowerCase role body st)) = 500
  /\ groups (snd (post_student toLowerCase role body st)) = groups st
  /\ students (snd (post_student toLowerCase role body st)) = students st
  /\ parents (snd (post_student toLowerCase role body st))
     = parents st
       ++ [mkParent (next_id st)
             (Some (trim (firstName (normalizeParentName (sb_parentName body)))))
             (Some (trim (lastName (normalizeParentName (sb_parentName body)))))
             (email_setter toLowerCase (toLowerCase email)) None []].
Proof. apply post_student_half_done. Qed.

Lemma post_student_leaves_parent_witness :
  status_of (fst (post_student Example.lowerCase role_admin Campus.nameless
                    Campus.campus)) = 500
  /\ map p_id (parents (snd (post_student Example.lowerCase role_admin
                               Campus.nameless Campus.campus)))
     = [21%N; 22%N; 100%N].
Proof.
  assert (Hg : Group_findById 2%N Campus.campus <> None) by discriminate.
  assert (He : email_setter Example.lowerCase
                 (Example.lowerCase (lit "Uus@x.com")) <> []) by discriminate.
  destruct (@post_student_leaves_parent Example.lowerCase role_admin
              Campus.nameless Campus.campus (lit "Uus@x.com") 2%N
              eq_refl eq_refl eq_refl Hg eq_refl He eq_refl)
    as [H1 [_ [_ H2]]].
  split; [exact H1|]. rewrite H2. reflexivity.
Defined.

(** ** Updating a student *)

Section Updating.

Variable toLowerCase : jsstring -> jsstring.

Lemma Parent_create_frame (fn ln email : jsstring) (st st' : Store)
  (doc : Parent) :
  Parent_create toLowerCase fn ln email st = Some (doc, st') ->
  groups st' = groups st /\ students st' = students st.
Proof.
  unfold Parent_create. destruct (is_empty _); [discriminate|].
  intros H. inversion H. now split.
Qed.

Lemma Parent_save_push_frame (pid sid : ObjectId) (st st' : Store) :
  Parent_save_push pid sid st = Some st' ->
  groups st' = groups st /\ students st' = students st.
Proof.
  unfold Parent_save_push. destruct (Parent_findById pid st); [|discriminate].
  intros H. inversion H. now split.
Qed.

Lemma save_changed_names_frame (pid : ObjectId)
  (ch : option jsstring * option jsstring) (st st' : Store) :
  save_changed_names pid ch st = Some st' ->
  groups st' = groups st /\ students st' = students st.
Proof.
  intros H. destruct (lists_more_save_names _ _ _ H) as [_ [Hg [Hs _]]].
  now split.
Qed.

Lemma switch_parent_frame (doc : Student) (cur : option Parent)
  (email : jsstring) (np : NameParts) (st : Store) :
  match switch_parent toLowerCase doc cur email np st with
  | Went (d, _) st' =>
      s_id d = s_id doc /\ s_group d = s_group doc /\ same_gs st st'
  | Threw _ st' => same_gs st st'
  end.
Proof.
  unfold switch_parent, same_gs.
  destruct (match Parent_findOne_email toLowerCase email st with
            | Some found => Some (found, st)
            | None => _
            end) as [[nextParent st1]|] eqn:R; [|now split].
  assert (H1 : groups st1 = groups st /\ students st1 = students st).
  { destruct (Parent_findOne_email toLowerCase email st).
    - inversion R; subst. now split.
    - now apply Parent_create_frame in R. }
  destruct H1 as [Hg1 Hs1].
  destruct (match cur with
            | Some c => _
            | None => Some st1
            end) as [st2|] eqn:P; [|now split].
  assert (H2 : groups st2 = groups st /\ students st2 = students st).
  { destruct cur as [c|].
    - destruct (Parent_save_pull (p_id c) (s_id doc) st1) as [s'|] eqn:E;
        [|discriminate].
      apply Parent_save_pull_frame in E. destruct E as [Eg Es].
      inversion P; subst st2.
      destruct (is_nil _); cbn; rewrite ?Eg, ?Es; now split.
    - inversion P; subst. now split. }
  destruct H2 as [Hg2 Hs2].
  destruct (negb (mem (s_id doc) (p_students nextParent))).
  - destruct (Parent_save_push (p_id nextParent) (s_id doc) st2) as [st3|] eqn:E;
      [|now split].
    apply Parent_save_push_frame in E. destruct E as [Eg Es].
    repeat split; congruence.
  - now repeat split.
Qed.

Lemma update_parent_frame (body : StudentBody) (doc : Student) (st : Store) :
  match update_parent toLowerCase body doc st with
  | Went d st' =>
      s_id d = s_id doc /\ s_group d = s_group doc /\ same_gs st st'
  | Threw _ st' => same_gs st st'
  end.
Proof.
  assert (Hrefl : same_gs st st) by (split; reflexivity).
  unfold update_parent.
  set (cur := match s_parent doc with
              | Some pid => Parent_findById pid st
              | None => None
              end).
  destruct (truthy (sb_parentEmail body)) as [parentEmail|].
  - set (np := normalizeParentName _).
    set (email := toLowerCase parentEmail).
    pose proof (switch_parent_frame doc cur email np st) as HS.
    assert (Hsw : match (match cur with
                         | Some c =>
                             if jsstring_eqb (p_email c) email
                             then Went (doc, Some c) st
                             else match switch_parent toLowerCase doc cur
                                          email np st with
                                  | Went (d, p) st' => Went (d, Some p) st'
                                  | Threw _ st' => Threw _ st'
                                  end
                         | None =>
                             match switch_parent toLowerCase doc None
                                     email np st with
                             | Went (d, p) st' => Went (d, Some p) st'
                             | Threw _ st' => Threw _ st'
                             end
                         end) with
                  | Went (d, _) st' =>
                      s_id d = s_id doc /\ s_group d = s_group doc
                      /\ same_gs st st'
                  | Threw _ st' => same_gs st st'
                  end).
    { destruct cur as [c|].
      - destruct (jsstring_eqb (p_email c) email); [now repeat split|].
        destruct (switch_parent toLowerCase doc (Some c) email np st)
          as [[d p] st'|st']; exact HS.
      - destruct (switch_parent toLowerCase doc None email np st)
          as [[d p] st'|st']; exact HS. }
    match goal with
    | |- match (match ?sw with Went _ _ => _ | Threw _ _ => _ end) with
         | Went _ _ => _ | Threw _ _ => _ end =>
        destruct sw as [[doc1 cur1] st1|st1]
    end; [|exact Hsw].
    destruct Hsw as [Hi [Hg [Eg Es]]].
    destruct (match cur1 with
              | Some c => _
              | None => Some st1
              end) as [st2|] eqn:Sv; [|now split].
    assert (H2 : same_gs st1 st2).
    { destruct cur1 as [c|].
      - now apply save_changed_names_frame in Sv.
      - inversion Sv; subst. now split. }
    destruct H2 as [Eg2 Es2].
    cbn. repeat split; congruence.
  - destruct (truthy (sb_parentName body)) as [parentName|];
      [|now repeat split].
    destruct cur as [c|]; [|now repeat split].
    destruct (save_changed_names (p_id c) _ st) as [st1|] eqn:Sv;
      [|exact Hrefl].
    apply save_changed_names_frame in Sv. now repeat split.
Qed.

End Updating.

Section UpdatingOne.

Variable toLowerCase : jsstring -> jsstring.

Lemma students_ensure' (go po : option ObjectId) (st : Store) :
  students (ensureParentInGroup' go po st) = students st.
Proof. now destruct go, po. Qed.

Lemma students_settle_groups (doc : Student) (og op : option ObjectId)
  (st : Store) :
  students (settle_groups doc og op st) = students st.
Proof.
  unfold settle_groups.
  set (st1 := match s_parent doc with
              | Some pid => ensureParentInGroup' (s_group doc) (Some pid) st
              | None => st
              end).
  assert (H1 : students st1 = students st)
    by (unfold st1; destruct (s_parent doc); [apply students_ensure'|reflexivity]).
  set (st2 := match og with
              | Some g => _
              | None => st1
              end).
  assert (H2 : students st2 = students st).
  { unfold st2. destruct og as [g|]; [|exact H1].
    destruct (negb _); [|exact H1]. now rewrite students_removeParent. }
  destruct op as [o|]; [|exact H2].
  destruct (negb _); [|exact H2].
  destruct (match s_group doc with Some g => Some g | None => og end);
    [|exact H2].
  now rewrite students_removeParent.
Qed.

(** the steps of an update that reaches the save of the student *)
Lemma put_student_moved (id : ObjectId) (body : StudentBody) (st : Store)
  (loaded : Student) :
  Student_findById id st = Some loaded ->
  match (match sb_groupId body with
         | Some groupId =>
             if negb (opt_id_eqb (s_group loaded) (Some groupId)) then
               match Group_findById groupId st with
               | None => None
               | Some _ =>
                   Some (set_s_group (Some groupId) (assign_person body loaded),
                         Group_add_student groupId
                           (s_id (assign_person body loaded))
                           match s_group loaded with
                           | Some og =>
                               Group_pull_student og
                                 (s_id (assign_person body loaded)) st
                           | None => st
                           end)
               end
             else Some (assign_person body loaded, st)
         | None => Some (assign_person body loaded, st)
         end) with
  | Some (doc1, st1) => s_id doc1 = id /\ students st1 = students st
  | None => True
  end.
Proof.
  intros F. pose proof (Student_findById_id _ _ F) as Hid.
  destruct (sb_groupId body) as [groupId|]; [|now split].
  destruct (negb _); [|now split].
  destruct (Group_findById groupId st); [|exact I].
  split; [exact Hid|]. now destruct (s_group loaded).
Qed.

Lemma but_student_save (doc : Student) (st st' : Store) :
  Student_save doc st = Some st' ->
  map (but_student (s_id doc)) (students st')
  = map (but_student (s_id doc)) (students st)
  /\ groups st' = groups st /\ parents st' = parents st.
Proof.
  unfold Student_save. destruct (Student_valid doc); [|discriminate].
  destruct (Student_findById (s_id doc) st) as [found|]; [|discriminate].
  intros H. inversion H; subst; clear H. split; [|now split].
  unfold Student_update, with_students. cbn [students].
  rewrite map_map. apply map_ext. intros s0.
  destruct (N.eqb (s_id s0) (s_id doc)) eqn:E; [|reflexivity].
  unfold but_student. rewrite E, N.eqb_refl.
  apply N.eqb_eq in E. now rewrite E.
Qed.

Lemma but_student_put (role : Role) (id : ObjectId) (body : StudentBody)
  (st : Store) :
  map (but_student id) (students (snd (put_student toLowerCase role id body st)))
  = map (but_student id) (students st).
Proof.
  unfold put_student. destruct (negb (is_admin role)); [reflexivity|].
  destruct (Student_findById id st) as [loaded|] eqn:F; [|reflexivity].
  pose proof (@put_student_moved id body st loaded F) as HM.
  match goal with
  | |- context [match ?m with Some _ => _ | None => (Fail 404 _, st) end] =>
      destruct m as [[doc1 st1]|]
  end; [|reflexivity].
  destruct HM as [Hid Hs1].
  pose proof (update_parent_frame toLowerCase body doc1 st1) as HU.
  destruct (update_parent toLowerCase body doc1 st1) as [doc2 st2|st2].
  - destruct HU as [Hi2 [_ [_ Hs2]]].
    destruct (Student_save doc2 st2) as [st3|] eqn:Sv.
    + cbn [snd]. rewrite students_settle_groups.
      apply but_student_save in Sv. destruct Sv as [Sv _].
      rewrite Hi2, Hid in Sv. rewrite Sv. now rewrite Hs2, Hs1.
    + cbn [snd]. now rewrite Hs2, Hs1.
  - destruct HU as [_ Hs2]. cbn [snd]. now rewrite Hs2, Hs1.
Qed.

End UpdatingOne.

(** X14.  An update of student [id] writes no other student document and
    neither adds nor removes one: after the request the collection holds
    the same ids in the same order, and every document with another id
    is as it was, whoever calls, whatever the body and whatever the
    answer. *)
Theorem put_student_other_students (toLowerCase : jsstring -> jsstring)
  (role : Role) (id : ObjectId) (body : StudentBody) (st : Store) :
  map (but_student id)
      (students (snd (put_student toLowerCase role id body st)))
  = map (but_student id) (students st).
Proof. apply but_student_put. Qed.

Section Moving.

Variable toLowerCase : jsstring -> jsstring.

Lemma update_parent_nothing (body : StudentBody) (doc : Student)
  (st : Store) :
  truthy (sb_parentEmail body) = None ->
  truthy (sb_parentName body) = None ->
  update_parent toLowerCase body doc st = Went doc st.
Proof. intros He Hn. unfold update_parent. now rewrite He, Hn. Qed.

(** the store an update leaves when it moves a student and names no
    parent *)
Lemma put_student_move (id : ObjectId) (body : StudentBody) (st : Store)
  (loaded : Student) (A B : ObjectId) (gb : Group) :
  Student_findById id st = Some loaded ->
  s_group loaded = Some A -> sb_groupId body = Some B -> A <> B ->
  Group_findById B st = Some gb ->
  truthy (sb_parentEmail body) = None ->
  truthy (sb_parentName body) = None ->
  Student_valid (assign_person body loaded) = true ->
  put_student toLowerCase role_admin id body st
  = (Json 200 (Some (set_s_group (Some B) (assign_person body loaded))),
     removeParentFromGroupIfUnused (Some A) (s_parent loaded)
       (ensureParentInGroup' (Some B) (s_parent loaded)
          (Student_update id
             (fun _ => set_s_group (Some B) (assign_person body loaded))
             (Group_add_student B id (Group_pull_student A id st))))).
Proof.
  intros F HA HB Hne FB He Hn Hv.
  pose proof (Student_findById_id _ _ F) as Hid.
  unfold put_student. cbn [is_admin negb]. rewrite F, HB, HA.
  cbn [opt_id_eqb]. rewrite (proj2 (N.eqb_neq A B) Hne). cbn [negb].
  rewrite FB. change (s_id (assign_person body loaded)) with (s_id loaded).
  rewrite Hid.
  set (doc := set_s_group (Some B) (assign_person body loaded)).
  set (st1 := Group_add_student B id (Group_pull_student A id st)).
  rewrite (update_parent_nothing body doc st1 He Hn).
  unfold Student_save. change (Student_valid doc) with
    (Student_valid (assign_person body loaded)). rewrite Hv.
  change (s_id doc) with (s_id loaded). rewrite Hid.
  assert (F1 : Student_findById id st1 = Some loaded) by exact F.
  rewrite F1.
  set (st3 := Student_update id (fun _ => doc) st1).
  assert (E4 : settle_groups doc (Some A) (s_parent loaded) st3
               = removeParentFromGroupIfUnused (Some A) (s_parent loaded)
                   (ensureParentInGroup' (Some B) (s_parent loaded) st3)).
  { unfold settle_groups.
    change (s_parent doc) with (s_parent loaded).
    change (s_group doc) with (Some B).
    cbn [opt_id_eqb]. rewrite (N.eqb_sym B A).
    rewrite (proj2 (N.eqb_neq A B) Hne). cbn [negb].
    destruct (s_parent loaded) as [p|]; [|reflexivity].
    cbn [opt_id_eqb]. now rewrite N.eqb_refl. }
  rewrite E4. f_equal. f_equal.
  rewrite (@Student_findById_same id st3 _);
    [|now rewrite students_removeParent, students_ensure'].
  unfold Student_findById, st3, Student_update, with_students.
  cbn [students].
  rewrite (find_map_id s_id (fun s => if N.eqb (s_id s) id then doc else s)).
  - fold (Student_findById id st1). rewrite F1. simpl.
    now rewrite Hid, N.eqb_refl.
  - intros s. destruct (N.eqb (s_id s) id) eqn:E; [|reflexivity].
    apply N.eqb_eq in E. now rewrite E.
Qed.

End Moving.

(** X15.  An administrator moves a stored student from group [A] to
    another stored group [B], naming no parent: the answer is 200 with
    the student in group [B].  The roster of [B] is its former roster
    with the student added, and the parents of [B] are its former parents
    with the parent of the student added.  The roster of [A] is its
    former roster without the student.  The parents of [A] are its
    former parents without the parent of the student when no student
    left in [A] has that parent, and are as they were otherwise: nothing
    else is taken from them. *)
Theorem put_student_moves (toLowerCase : jsstring -> jsstring)
  (id : ObjectId) (body : StudentBody) (st : Store) (loaded : Student)
  (A B : ObjectId) (ga gb : Group) :
  Student_findById id st = Some loaded ->
  s_group loaded = Some A -> sb_groupId body = Some B -> A <> B ->
  Group_findById A st = Some ga -> Group_findById B st = Some gb ->
  truthy (sb_parentEmail body) = None ->
  truthy (sb_parentName body) = None ->
  Student_valid (assign_person body loaded) = true ->
  fst (put_student toLowerCase role_admin id body st)
  = Json 200 (Some (set_s_group (Some B) (assign_person body loaded)))
  /\ (exists gb',
        Group_findById B (snd (put_student toLowerCase role_admin id body st))
        = Some gb'
        /\ g_students gb' = addToSet id (g_students gb)
        /\ g_parents gb'
           = match s_parent loaded with
             | Some p => addToSet p (g_parents gb)
             | None => g_parents gb
             end
        /\ In id (g_students gb')
        /\ forall p, s_parent loaded = Some p -> In p (g_parents gb'))
  /\ (exists ga',
        Group_findById A (snd (put_student toLowerCase role_admin id body st))
        = Some ga'
        /\ g_students ga' = pull id (g_students ga)
        /\ ~ In id (g_students ga')
        /\ (forall p, s_parent loaded = Some p ->
              if Nat.eqb
                   (Student_count_group_parent A p
                      (snd (put_student toLowerCase role_admin id body st))) 0
              then g_parents ga' = pull p (g_parents ga)
                   /\ ~ In p (g_parents ga')
              else g_parents ga' = g_parents ga)
        /\ (s_parent loaded = None -> g_parents ga' = g_parents ga)).
Proof.
  intros F HA HB Hne FA FB He Hn Hv.
  rewrite (@put_student_move toLowerCase id body st loaded A B gb
             F HA HB Hne FB He Hn Hv).
  cbn [fst snd]. split; [reflexivity|].
  set (doc := set_s_group (Some B) (assign_person body loaded)).
  set (st1 := Group_add_student B id (Group_pull_student A id st)).
  set (st3 := Student_update id (fun _ => doc) st1).
  set (sta := ensureParentInGroup' (Some B) (s_parent loaded) st3).
  assert (HBA : B <> A) by congruence.
  assert (FB1 : Group_findById B st1
                = Some (set_g_students (addToSet id (g_students gb)) gb)).
  { unfold st1, Group_add_student. rewrite Group_findById_update by reflexivity.
    unfold Group_pull_student.
    rewrite Group_findById_update_other by (trivial; congruence).
    now rewrite FB. }
  assert (FA1 : Group_findById A st1
                = Some (set_g_students (pull id (g_students ga)) ga)).
  { unfold st1, Group_add_student.
    rewrite Group_findById_update_other by (trivial; congruence).
    unfold Group_pull_student. rewrite Group_findById_update by reflexivity.
    now rewrite FA. }
  assert (FBa : exists gb',
             Group_findById B sta = Some gb'
             /\ g_students gb' = addToSet id (g_students gb)
             /\ g_parents gb'
                = match s_parent loaded with
                  | Some p => addToSet p (g_parents gb)
                  | None => g_parents gb
                  end).
  { unfold sta, ensureParentInGroup'.
    destruct (s_parent loaded) as [p|].
    - unfold Group_add_parent. rewrite Group_findById_update by reflexivity.
      change (Group_findById B st3) with (Group_findById B st1).
      rewrite FB1. eexists. split; [reflexivity|]. now split.
    - change (Group_findById B st3) with (Group_findById B st1).
      rewrite FB1. eexists. split; [reflexivity|]. now split. }
  assert (FAa : Group_findById A sta
                = Some (set_g_students (pull id (g_students ga)) ga)).
  { unfold sta, ensureParentInGroup'.
    destruct (s_parent loaded) as [p|]; [|exact FA1].
    unfold Group_add_parent.
    rewrite Group_findById_update_other by (trivial; congruence).
    exact FA1. }
  split.
  - destruct FBa as [gb' [Fb [R P]]]. exists gb'.
    rewrite removeParent_other by congruence.
    split; [exact Fb|]. split; [exact R|]. split; [exact P|]. split.
    + rewrite R. apply In_addToSet. now left.
    + intros p Hp. rewrite P, Hp. apply In_addToSet. now left.
  - rewrite removeParent_same, FAa. cbn [option_map].
    eexists. split; [reflexivity|].
    assert (Hroster : ~ In id (pull id (g_students ga))).
    { intros Hin. apply In_pull in Hin. now destruct Hin. }
    destruct (s_parent loaded) as [p|];
      [|split; [reflexivity|]; split; [exact Hroster|];
        split; [discriminate|reflexivity]].
    assert (Hc : Student_count_group_parent A p
                   (removeParentFromGroupIfUnused (Some A) (Some p) sta)
                 = Student_count_group_parent A p sta).
    { unfold Student_count_group_parent. now rewrite students_removeParent. }
    destruct (Nat.eqb (Student_count_group_parent A p sta) 0) eqn:E.
    + split; [reflexivity|]. split; [exact Hroster|].
      split; [|discriminate].
      intros q Hq. injection Hq as <-.
      rewrite Hc, E. simpl. split; [reflexivity|].
      intros Hin. apply In_pull in Hin. now destruct Hin.
    + split; [reflexivity|]. split; [exact Hroster|].
      split; [|discriminate].
      intros q Hq. injection Hq as <-.
      rewrite Hc, E. reflexivity.
Qed.

Lemma put_student_moves_witness :
  exists ga',
    Group_findById 1%N
      (snd (put_student Example.lowerCase role_admin 12%N
              (Campus.to_group 2%N) Campus.campus))
    = Some ga'
    /\ g_students ga' = [11%N]
    /\ g_parents ga' = [21%N].
Proof.
  assert (Hne : 1%N <> 2%N) by discriminate.
  destruct (@put_student_moves Example.lowerCase 12%N (Campus.to_group 2%N)
              Campus.campus Campus.Jaan 1%N 2%N Campus.GA Campus.GB
              eq_refl eq_refl eq_refl Hne eq_refl eq_refl eq_refl eq_refl
              eq_refl) as [_ [_ [ga' [Fa [Hr [_ [Hp _]]]]]]].
  exists ga'. split; [exact Fa|]. split; [exact Hr|].
  specialize (Hp 22%N eq_refl). vm_compute in Hp. now destruct Hp.
Defined.

(** ** One parent document for an email, on the student routes *)

Section EmailsOfStudents.

Variable toLowerCase : jsstring -> jsstring.

Lemma parent_emails_changed_names (pid : ObjectId)
  (ch : option jsstring * option jsstring) (st st' : Store) :
  save_changed_names pid ch st = Some st' ->
  parent_emails st' = parent_emails st.
Proof.
  unfold save_changed_names.
  destruct ch as [[fn|] [ln|]]; try apply parent_emails_save_names.
  intros H. now inversion H.
Qed.

Lemma parent_emails_push (pid sid : ObjectId) (st st' : Store) :
  Parent_save_push pid sid st = Some st' ->
  parent_emails st' = parent_emails st.
Proof.
  unfold Parent_save_push. destruct (Parent_findById pid st); [|discriminate].
  intros H. inversion H. now apply parent_emails_update.
Qed.

Lemma parent_emails_pull (pid sid : ObjectId) (st st' : Store) :
  Parent_save_pull pid sid st = Some st' ->
  parent_emails st' = parent_emails st.
Proof.
  unfold Parent_save_pull. destruct (Parent_findById pid st); [|discriminate].
  intros H. inversion H. now apply parent_emails_update.
Qed.

Lemma parent_emails_find_or_create (fn ln email : jsstring) (st st1 : Store)
  (doc : Parent) :
  match Parent_findOne_email toLowerCase email st with
  | Some found => Some (found, st)
  | None => Parent_create toLowerCase fn ln email st
  end = Some (doc, st1) ->
  NoDup (parent_emails st) -> NoDup (parent_emails st1).
Proof.
  destruct (Parent_findOne_email toLowerCase email st) as [found|] eqn:F.
  - intros H. now inversion H; subst.
  - intros H Hnd. eapply parent_emails_create; eassumption.
Qed.

Lemma parent_emails_post (role : Role) (body : StudentBody) (st : Store) :
  NoDup (parent_emails st) ->
  NoDup (parent_emails (snd (post_student toLowerCase role body st))).
Proof.
  intros Hnd. unfold post_student.
  destruct (negb (is_admin role)); [exact Hnd|].
  destruct (truthy (sb_parentEmail body)) as [parentEmail|]; [|exact Hnd].
  destruct (match sb_groupId body with
            | Some gid => Group_findById gid st
            | None => None
            end) as [group|]; [|exact Hnd].
  set (np := normalizeParentName (sb_parentName body)).
  set (email := toLowerCase parentEmail).
  destruct (match Parent_findOne_email toLowerCase email st with
            | None => Parent_create toLowerCase (firstName np) (lastName np)
                                    email st
            | Some parentDoc => _
            end) as [[parentDoc st1]|] eqn:R; [|exact Hnd].
  assert (H1 : NoDup (parent_emails st1)).
  { destruct (Parent_findOne_email toLowerCase email st) as [found|] eqn:F.
    - destruct (save_changed_names (p_id found) _ st) as [st'|] eqn:E;
        [|discriminate].
      inversion R; subst. now rewrite (parent_emails_changed_names _ _ _ E).
    - eapply parent_emails_create; eassumption. }
  destruct (Student_create toLowerCase _ _ _ _ _ _ _ st1)
    as [[doc st2]|] eqn:C; [|exact H1].
  assert (H2 : parent_emails st2 = parent_emails st1).
  { unfold Student_create in C.
    destruct (sb_firstName body), (sb_lastName body), (sb_age body);
      try discriminate.
    destruct (Student_valid _); [|discriminate]. now inversion C. }
  destruct (if negb (mem (s_id doc) (p_students parentDoc))
            then _ else Some _) as [st4|] eqn:P.
  - cbn [snd].
    assert (H4 : parent_emails st4 = parent_emails st2).
    { destruct (negb (mem (s_id doc) (p_students parentDoc))).
      - apply parent_emails_push in P. exact P.
      - now inversion P. }
    change (NoDup (parent_emails st4)). now rewrite H4, H2.
  - cbn [snd]. change (NoDup (parent_emails st2)). now rewrite H2.
Qed.

Lemma parent_emails_switch (doc : Student) (cur : option Parent)
  (email : jsstring) (np : NameParts) (st : Store) :
  NoDup (parent_emails st) ->
  match switch_parent toLowerCase doc cur email np st with
  | Went _ st' => NoDup (parent_emails st')
  | Threw _ st' => NoDup (parent_emails st')
  end.
Proof.
  intros Hnd. unfold switch_parent.
  destruct (match Parent_findOne_email toLowerCase email st with
            | Some found => Some (found, st)
            | None => _
            end) as [[nextParent st1]|] eqn:R; [|exact Hnd].
  pose proof (parent_emails_find_or_create _ _ _ _ R Hnd) as H1.
  destruct (match cur with
            | Some c => _
            | None => Some st1
            end) as [st2|] eqn:P; [|exact H1].
  assert (H2 : NoDup (parent_emails st2)).
  { destruct cur as [c|]; [|now inversion P; subst].
    destruct (Parent_save_pull (p_id c) (s_id doc) st1) as [s'|] eqn:E;
      [|discriminate].
    apply parent_emails_pull in E. inversion P; subst st2.
    destruct (is_nil _).
    - apply parent_emails_deleteOne. now rewrite E.
    - now rewrite E. }
  destruct (negb (mem (s_id doc) (p_students nextParent))); [|exact H2].
  destruct (Parent_save_push (p_id nextParent) (s_id doc) st2) as [st3|] eqn:E;
    [|exact H2].
  apply parent_emails_push in E. now rewrite E.
Qed.

Lemma parent_emails_update_parent (body : StudentBody) (doc : Student)
  (st : Store) :
  NoDup (parent_emails st) ->
  match update_parent toLowerCase body doc st with
  | Went _ st' => NoDup (parent_emails st')
  | Threw _ st' => NoDup (parent_emails st')
  end.
Proof.
  intros Hnd. unfold update_parent.
  set (cur := match s_parent doc with
              | Some pid => Parent_findById pid st
              | None => None
              end).
  destruct (truthy (sb_parentEmail body)) as [parentEmail|].
  - set (np := normalizeParentName _).
    set (email := toLowerCase parentEmail).
    pose proof (@parent_emails_switch doc cur email np st Hnd) as HS.
    pose proof (@parent_emails_switch doc None email np st Hnd) as HN.
    assert (Hsw : match (match cur with
                         | Some c =>
                             if jsstring_eqb (p_email c) email
                             then Went (doc, Some c) st
                             else match switch_parent toLowerCase doc cur
                                          email np st with
                                  | Went (d, p) st' => Went (d, Some p) st'
                                  | Threw _ st' => Threw _ st'
                                  end
                         | None =>
                             match switch_parent toLowerCase doc None
                                     email np st with
                             | Went (d, p) st' => Went (d, Some p) st'
                             | Threw _ st' => Threw _ st'
                             end
                         end) with
                  | Went _ st' => NoDup (parent_emails st')
                  | Threw _ st' => NoDup (parent_emails st')
                  end).
    { destruct cur as [c|].
      - destruct (jsstring_eqb (p_email c) email); [exact Hnd|].
        destruct (switch_parent toLowerCase doc (Some c) email np st)
          as [[d p] st'|st']; exact HS.
      - destruct (switch_parent toLowerCase doc None email np st)
          as [[d p] st'|st']; exact HN. }
    match goal with
    | |- match (match ?sw with Went _ _ => _ | Threw _ _ => _ end) with
         | Went _ _ => _ | Threw _ _ => _ end =>
        destruct sw as [[doc1 cur1] st1|st1]
    end; [|exact Hsw].
    destruct (match cur1 with
              | Some c => _
              | None => Some st1
              end) as [st2|] eqn:Sv; [|exact Hsw].
    destruct cur1 as [c|].
    + apply parent_emails_changed_names in Sv. cbn. now rewrite Sv.
    + inversion Sv; subst. exact Hsw.
  - destruct (truthy (sb_parentName body)) as [parentName|]; [|exact Hnd].
    destruct cur as [c|]; [|exact Hnd].
    destruct (save_changed_names (p_id c) _ st) as [st1|] eqn:Sv;
      [|exact Hnd].
    apply parent_emails_changed_names in Sv. cbn. now rewrite Sv.
Qed.

End EmailsOfStudents.

Section EmailsOfStudentsAll.

Variable toLowerCase : jsstring -> jsstring.

Lemma parents_ensure' (go po : option ObjectId) (st : Store) :
  parents (ensureParentInGroup' go po st) = parents st.
Proof. now destruct go, po. Qed.

Lemma parents_settle_groups (doc : Student) (og op : option ObjectId)
  (st : Store) :
  parents (settle_groups doc og op st) = parents st.
Proof.
  unfold settle_groups.
  set (st1 := match s_parent doc with
              | Some pid => ensureParentInGroup' (s_group doc) (Some pid) st
              | None => st
              end).
  assert (H1 : parents st1 = parents st)
    by (unfold st1; destruct (s_parent doc);
        [apply parents_ensure'|reflexivity]).
  set (st2 := match og with
              | Some g => _
              | None => st1
              end).
  assert (H2 : parents st2 = parents st).
  { unfold st2. destruct og as [g|]; [|exact H1].
    destruct (negb _); [|exact H1].
    now destruct (rest_removeParent (Some g) op st1) as [-> _]. }
  destruct op as [o|]; [|exact H2].
  destruct (negb _); [|exact H2].
  destruct (match s_group doc with Some g => Some g | None => og end) as [t|];
    [|exact H2].
  now destruct (rest_removeParent (Some t) (Some o) st2) as [-> _].
Qed.

Lemma parent_emails_put (role : Role) (id : ObjectId) (body : StudentBody)
  (st : Store) :
  NoDup (parent_emails st) ->
  NoDup (parent_emails (snd (put_student toLowerCase role id body st))).
Proof.
  intros Hnd. unfold put_student.
  destruct (negb (is_admin role)); [exact Hnd|].
  destruct (Student_findById id st) as [loaded|] eqn:F; [|exact Hnd].
  match goal with
  | |- context [match ?m with Some _ => _ | None => (Fail 404 _, st) end] =>
      destruct m as [[doc1 st1]|] eqn:M
  end; [|exact Hnd].
  assert (H1 : NoDup (parent_emails st1)).
  { destruct (sb_groupId body) as [groupId|]; [|now inversion M; subst].
    destruct (negb _); [|now inversion M; subst].
    destruct (Group_findById groupId st); [|discriminate].
    inversion M; subst. now destruct (s_group loaded). }
  pose proof (@parent_emails_update_parent toLowerCase body doc1 st1 H1) as HU.
  destruct (update_parent toLowerCase body doc1 st1) as [doc2 st2|st2];
    [|exact HU].
  destruct (Student_save doc2 st2) as [st3|] eqn:Sv; [|exact HU].
  cbn [snd]. unfold parent_emails. rewrite parents_settle_groups.
  apply but_student_save in Sv. destruct Sv as [_ [_ Hp]]. now rewrite Hp.
Qed.

Lemma parent_emails_delete_student (role : Role) (id : ObjectId)
  (st : Store) :
  NoDup (parent_emails st) ->
  NoDup (parent_emails (snd (delete_student role id st))).
Proof.
  intros Hnd.
  destruct (delete_student_any role id st) as [->|[doc [F ->]]];
    [exact Hnd|].
  destruct (delete_student_steps _ _ F)
    as [st1 [st3 [-> [E1 [_ [_ E3]]]]]].
  cbn [snd]. change (NoDup (parent_emails st3)).
  assert (H1 : parent_emails st1 = parent_emails st)
    by (rewrite E1; now destruct (s_group doc)).
  rewrite E3. destruct (s_parent doc) as [pid|]; [|now rewrite H1].
  destruct (Parent_findById pid st) as [p|]; [|now rewrite H1].
  cbv zeta.
  assert (H2 : parent_emails
                 (Parent_update pid
                    (fun q => set_p_students (pull id (p_students q)) q) st1)
               = parent_emails st)
    by (rewrite parent_emails_update by reflexivity; exact H1).
  destruct (is_nil _).
  - apply parent_emails_deleteOne. now rewrite H2.
  - now rewrite H2.
Qed.

End EmailsOfStudentsAll.

(** X16.  No request on a student stores a second parent document for an
    email: when the emails of the parent documents are pairwise different
    before a student is created, updated or deleted, they are so after
    it, whoever calls, whatever the body and whatever the answer. *)
Theorem student_routes_keep_emails_apart (toLowerCase : jsstring -> jsstring)
  (role : Role) (id : ObjectId) (body : StudentBody) (st : Store) :
  NoDup (parent_emails st) ->
  NoDup (parent_emails (snd (post_student toLowerCase role body st)))
  /\ NoDup (parent_emails (snd (put_student toLowerCase role id body st)))
  /\ NoDup (parent_emails (snd (delete_student role id st))).
Proof.
  intros Hnd. split; [now apply parent_emails_post|].
  split; [now apply parent_emails_put|now apply parent_emails_delete_student].
Qed.

Lemma student_routes_keep_emails_apart_witness :
  NoDup (parent_emails
           (snd (put_student Example.lowerCase role_admin 11%N
                   Example.padded_email Example.only_child))).
Proof.
  assert (H : NoDup (parent_emails Example.only_child))
    by (repeat constructor; simpl; tauto).
  apply (@student_routes_keep_emails_apart Example.lowerCase role_admin 11%N
           Example.padded_email Example.only_child H).
Defined.

(** ** Requests that are turned down *)

Section TurnedDown.

Variable toLowerCase : jsstring -> jsstring.

Lemma post_student_turned_down (role : Role) (body : StudentBody)
  (st : Store) :
  In (status_of (fst (post_student toLowerCase role body st)))
     [400; 403; 404] ->
  snd (post_student toLowerCase role body st) = st.
Proof.
  unfold post_student.
  destruct (negb (is_admin role)); [reflexivity|].
  destruct (truthy (sb_parentEmail body)); [|reflexivity].
  destruct (match sb_groupId body with
            | Some gid => Group_findById gid st
            | None => None
            end); [|reflexivity].
  destruct (match Parent_findOne_email toLowerCase _ st with
            | Some parentDoc => _
            | None => _
            end) as [[parentDoc st1]|];
    [|simpl; intros [H|[H|[H|[]]]]; discriminate].
  destruct (Student_create toLowerCase _ _ _ _ _ _ _ st1) as [[doc st2]|];
    [|simpl; intros [H|[H|[H|[]]]]; discriminate].
  destruct (if negb _ then _ else Some _);
    simpl; intros [H|[H|[H|[]]]]; discriminate.
Qed.

Lemma put_student_turned_down (role : Role) (id : ObjectId)
  (body : StudentBody) (st : Store) :
  In (status_of (fst (put_student toLowerCase role id body st))) [403; 404] ->
  snd (put_student toLowerCase role id body st) = st.
Proof.
  unfold put_student.
  destruct (negb (is_admin role)); [reflexivity|].
  destruct (Student_findById id st) as [loaded|]; [|reflexivity].
  match goal with
  | |- context [match ?m with Some _ => _ | None => (Fail 404 _, st) end] =>
      destruct m as [[doc1 st1]|]
  end; [|reflexivity].
  destruct (update_parent toLowerCase body doc1 st1) as [doc2 st2|st2];
    [|simpl; intros [H|[H|[]]]; discriminate].
  destruct (Student_save doc2 st2);
    simpl; intros [H|[H|[]]]; discriminate.
Qed.

Lemma delete_turned_down (role : Role) (id : ObjectId) (st : Store) :
  (In (status_of (fst (delete_student role id st))) [403; 404] ->
   snd (delete_student role id st) = st)
  /\ (In (status_of (fst (delete_group role id st))) [403; 404] ->
      snd (delete_group role id st) = st).
Proof.
  split.
  - destruct (delete_student_any role id st) as [E|[doc [F ->]]];
      [now intros _|].
    destruct (delete_student_steps _ _ F) as [st1 [st3 [-> _]]].
    simpl. intros [H|[H|[]]]; discriminate.
  - unfold delete_group. destruct (negb (is_admin role)); [reflexivity|].
    destruct (Group_findById id st); [|reflexivity].
    simpl. intros [H|[H|[]]]; discriminate.
Qed.

Lemma patch_full_turned_down (role : Role) (id : ObjectId) (body : FullPatch)
  (st : Store) :
  In (status_of (fst (patch_full toLowerCase role id body st))) [403; 404] ->
  snd (patch_full toLowerCase role id body st) = st.
Proof.
  unfold patch_full.
  destruct (negb (is_admin role)); [reflexivity|].
  destruct (Group_findById id st) as [loaded|]; [|reflexivity].
  destruct (negb (roster_valid _ st)); [reflexivity|].
  destruct (parents_phase toLowerCase body _ _) as [ids Z|Z|Z];
    try (simpl; intros [H|[H|[]]]; discriminate).
  unfold finish_patch. destruct (Group_save _ _ Z);
    simpl; intros [H|[H|[]]]; discriminate.
Qed.

End TurnedDown.

(** X17.  A request that is answered "not authorized" or "not found"
    (403, 404), and a student creation answered 400, has written
    nothing: the store after it is the store before it.  This holds for
    the creation, update and deletion of a student, the deletion of a
    group and the bulk update of a group. *)
Theorem turned_down_requests_write_nothing
  (toLowerCase : jsstring -> jsstring) (role : Role) (id : ObjectId)
  (sbody : StudentBody) (gbody : FullPatch) (st : Store) :
  (In (status_of (fst (post_student toLowerCase role sbody st)))
      [400; 403; 404] ->
   snd (post_student toLowerCase role sbody st) = st)
  /\ (In (status_of (fst (put_student toLowerCase role id sbody st)))
         [403; 404] ->
      snd (put_student toLowerCase role id sbody st) = st)
  /\ (In (status_of (fst (delete_student role id st))) [403; 404] ->
      snd (delete_student role id st) = st)
  /\ (In (status_of (fst (delete_group role id st))) [403; 404] ->
      snd (delete_group role id st) = st)
  /\ (In (status_of (fst (patch_full toLowerCase role id gbody st)))
         [403; 404] ->
      snd (patch_full toLowerCase role id gbody st) = st).
Proof.
  split; [apply post_student_turned_down|].
  split; [apply put_student_turned_down|].
  split; [apply delete_turned_down|].
  split; [apply delete_turned_down|apply patch_full_turned_down].
Qed.

(** ** The lines of the export *)

Section CsvLines.

Import Csv.

Lemma includes_In (c : char16) (s : jsstring) :
  includes c s = false -> ~ In c s.
Proof.
  unfold includes. intros H Hin.
  assert (E : existsb (N.eqb c) s = true).
  { apply existsb_exists. exists c. split; [exact Hin|apply N.eqb_refl]. }
  congruence.
Qed.

Lemma first_separator (c : char16) (a b r r' : jsstring) :
  ~ In c a -> ~ In c b -> a ++ c :: r = b ++ c :: r' -> a = b /\ r = r'.
Proof.
  revert b. induction a as [|x a IH]; intros b Ha Hb E.
  - destruct b as [|y b]; simpl in E.
    + split; [reflexivity|congruence].
    + exfalso. apply Hb. left. congruence.
  - destruct b as [|y b]; simpl in E.
    + exfalso. apply Ha. left. congruence.
    + injection E as -> E.
      destruct (IH b) as [-> ->]; trivial.
      * intros H. apply Ha. now right.
      * intros H. apply Hb. now right.
      * now split.
Qed.

Lemma double_quotes_closed (sep : char16) (a b r r' : jsstring) :
  sep <> quote ->
  double_quotes a ++ quote :: sep :: r = double_quotes b ++ quote :: sep :: r' ->
  a = b /\ r = r'.
Proof.
  intros Hs. revert b. induction a as [|x a IH]; intros b E.
  - destruct b as [|y b]; simpl in E.
    + split; [reflexivity|congruence].
    + exfalso. destruct (N.eqb y quote) eqn:Ey; simpl in E.
      * inversion E. congruence.
      * inversion E. subst y. now rewrite N.eqb_refl in Ey.
  - destruct b as [|y b]; simpl in E.
    + exfalso. destruct (N.eqb x quote) eqn:Ex; simpl in E.
      * inversion E. congruence.
      * inversion E. subst x. now rewrite N.eqb_refl in Ex.
    + destruct (N.eqb x quote) eqn:Ex; destruct (N.eqb y quote) eqn:Ey;
        simpl in E.
      * apply N.eqb_eq in Ex, Ey. subst x y. inversion E as [E'].
        destruct (IH b E') as [-> ->]. now split.
      * exfalso. inversion E. subst y. now rewrite N.eqb_refl in Ey.
      * exfalso. inversion E. subst x. now rewrite N.eqb_refl in Ex.
      * inversion E as [[Exy E']]. subst y.
        destruct (IH b E') as [-> ->]. now split.
Qed.

(** how [escapeCSV] writes a value *)
Lemma escapeCSV_cases (s : jsstring) :
  (escapeCSV s = s /\ ~ In comma s /\ ~ In quote s /\ ~ In newline s)
  \/ escapeCSV s = quote :: double_quotes s ++ [quote].
Proof.
  unfold escapeCSV. destruct s as [|c r]; [left; now repeat split|].
  cbn [is_empty].
  destruct (includes comma (c :: r)) eqn:E1; [now right|].
  destruct (includes quote (c :: r)) eqn:E2; [now right|].
  destruct (includes newline (c :: r)) eqn:E3; [now right|].
  left. repeat split; now apply includes_In.
Qed.

Lemma plain_not_quoted (a b r r' : jsstring) (sep : char16) :
  sep <> quote -> ~ In quote a ->
  a ++ sep :: r = (quote :: double_quotes b ++ [quote]) ++ sep :: r' -> False.
Proof.
  intros Hs Ha E. destruct a as [|x a]; simpl in E.
  - injection E as E _. now apply Hs.
  - injection E as E _. apply Ha. now left.
Qed.

Lemma escapeCSV_closed (sep : char16) (a b r r' : jsstring) :
  sep = comma \/ sep = newline ->
  escapeCSV a ++ sep :: r = escapeCSV b ++ sep :: r' -> a = b /\ r = r'.
Proof.
  intros Hsep.
  assert (Hs : sep <> quote) by (destruct Hsep; subst; discriminate).
  destruct (escapeCSV_cases a) as [[-> [A1 [A2 A3]]] | ->];
    destruct (escapeCSV_cases b) as [[-> [B1 [B2 B3]]] | ->]; intros E.
  - apply first_separator with sep; trivial; destruct Hsep; now subst.
  - exfalso. eapply plain_not_quoted; eassumption.
  - exfalso. symmetry in E. eapply plain_not_quoted; eassumption.
  - simpl in E. injection E as E. rewrite <- !app_assoc in E. simpl in E.
    now apply double_quotes_closed with sep.
Qed.

Lemma csv_line_values (l l' : Line) : csv_line l = csv_line l' -> l = l'.
Proof.
  destruct l as [a1 a2 a3 a4 a5 a6], l' as [b1 b2 b3 b4 b5 b6].
  unfold csv_line. cbn [groupName studentName studentAge parentName
                        parentEmail parentPhone].
  intros E.
  apply escapeCSV_closed in E; [|now left]. destruct E as [-> E].
  apply escapeCSV_closed in E; [|now left]. destruct E as [-> E].
  apply escapeCSV_closed in E; [|now left]. destruct E as [-> E].
  apply escapeCSV_closed in E; [|now left]. destruct E as [-> E].
  apply escapeCSV_closed in E; [|now left]. destruct E as [-> E].
  apply (escapeCSV_closed (sep := newline) _ _ [] []) in E; [|now right].
  destruct E as [-> _]. reflexivity.
Qed.

End CsvLines.

(** X18.  A line of the export tells its six values apart: two lines
    written by [escapeCSV] and the separators are equal only when the
    group name, student name, age, parent name, parent email and phone
    they were written from are equal, whatever commas, quotes and line
    breaks the values contain. *)
Theorem csv_line_injective (l l' : Csv.Line) :
  Csv.csv_line l = Csv.csv_line l' -> l = l'.
Proof. apply csv_line_values. Qed.

Lemma csv_line_injective_witness :
  Csv.mkLine (lit "Tantsud, I") (lit "Mari Tamm") (lit "7") (lit "Anu Tamm")
             (lit "a@x.com") []
  = Csv.mkLine (lit "Tantsud, I") (lit "Mari Tamm") (lit "7") (lit "Anu Tamm")
               (lit "a@x.com") [].
Proof.
  apply (@csv_line_injective
           (Csv.mkLine (lit "Tantsud, I") (lit "Mari Tamm") (lit "7")
                       (lit "Anu Tamm") (lit "a@x.com") [])
           (Csv.mkLine (lit "Tantsud, I") (lit "Mari Tamm") (lit "7")
                       (lit "Anu Tamm") (lit "a@x.com") [])).
  reflexivity.
Defined.

(** ** Deleting a parent, and the parents array of a group *)

Section ParentsOfGroups.

Lemma admin_delete_parent_cases (id : ObjectId) (st : Store) :
  groups (snd (admin_delete_parent id st)) = groups st
  /\ students (snd (admin_delete_parent id st)) = students st
  /\ (forall q, q <> id ->
        Parent_findById q (snd (admin_delete_parent id st))
        = Parent_findById q st)
  /\ match Parent_findById id st with
     | None =>
         status_of (fst (admin_delete_parent id st)) = 404
         /\ snd (admin_delete_parent id st) = st
     | Some p =>
         if is_nil (p_students p) then
           status_of (fst (admin_delete_parent id st)) = 200
           /\ Parent_findById id (snd (admin_delete_parent id st)) = None
         else
           status_of (fst (admin_delete_parent id st)) = 400
           /\ snd (admin_delete_parent id st) = st
     end.
Proof.
  unfold admin_delete_parent.
  destruct (Parent_findById id st) as [p|] eqn:F; [|now repeat split].
  assert (Hid : p_id p = id) by (apply find_some in F; now apply N.eqb_eq).
  destruct (is_nil (p_students p)); cbn [negb fst snd]; [|now repeat split].
  rewrite Hid. split; [reflexivity|]. split; [reflexivity|]. split.
  - intros q Hq. unfold Parent_findById, Parent_deleteOne, with_parents.
    cbn [parents]. now apply find_filter_other.
  - split; [reflexivity|].
    unfold Parent_findById, Parent_deleteOne, with_parents. cbn [parents].
    apply find_filter_out.
Qed.

Lemma removeParent_lists (gid pid : ObjectId) (st : Store) (g : Group) :
  Group_findById gid st = Some g ->
  exists g',
    Group_findById gid
      (removeParentFromGroupIfUnused (Some gid) (Some pid) st) = Some g'
    /\ g_students g' = g_students g
    /\ (forall q, In q (g_parents g') <->
                  In q (g_parents g)
                  /\ (q = pid ->
                      exists s, In s (students st)
                                /\ s_group s = Some gid
                                /\ s_parent s = Some pid)).
Proof.
  intros F. rewrite removeParent_same, F. cbn [option_map].
  destruct (Nat.eqb (Student_count_group_parent gid pid st) 0) eqn:E.
  - eexists. split; [reflexivity|]. split; [reflexivity|].
    intros q. simpl. rewrite In_pull. apply Nat.eqb_eq in E.
    split.
    + intros [Hin Hne]. split; [exact Hin|]. intros ->. contradiction.
    + intros [Hin Hq]. split; [exact Hin|]. intros ->.
      destruct (proj2 (count_nonzero gid pid st) (Hq eq_refl)). exact E.
  - exists g. split; [reflexivity|]. split; [reflexivity|].
    apply Nat.eqb_neq in E. intros q. split.
    + intros Hin. split; [exact Hin|]. intros _.
      now apply count_nonzero.
    + now intros [Hin _].
Qed.

End ParentsOfGroups.

(** X19.  The deletion of a parent by an administrator never writes a
    group or a student and no other parent.  It answers 404 when no
    parent has the id and 400 when the parent lists a student, both
    without a write; otherwise it answers 200 and no document with the
    id is left, while the groups that listed the parent still list
    it. *)
Theorem admin_delete_parent_spec (id : ObjectId) (st : Store) :
  groups (snd (admin_delete_parent id st)) = groups st
  /\ students (snd (admin_delete_parent id st)) = students st
  /\ (forall q, q <> id ->
        Parent_findById q (snd (admin_delete_parent id st))
        = Parent_findById q st)
  /\ match Parent_findById id st with
     | None =>
         status_of (fst (admin_delete_parent id st)) = 404
         /\ snd (admin_delete_parent id st) = st
     | Some p =>
         if is_nil (p_students p) then
           status_of (fst (admin_delete_parent id st)) = 200
           /\ Parent_findById id (snd (admin_delete_parent id st)) = None
         else
           status_of (fst (admin_delete_parent id st)) = 400
           /\ snd (admin_delete_parent id st) = st
     end.
Proof. apply admin_delete_parent_cases. Qed.

(** X20.  [removeParentFromGroupIfUnused] on a stored group keeps the
    roster, and leaves in the parents array exactly the ids that were
    there, the given parent only while a student of the group names
    it. *)
Theorem removeParentFromGroupIfUnused_spec (gid pid : ObjectId) (st : Store)
  (g : Group) :
  Group_findById gid st = Some g ->
  exists g',
    Group_findById gid
      (removeParentFromGroupIfUnused (Some gid) (Some pid) st) = Some g'
    /\ g_students g' = g_students g
    /\ (forall q, In q (g_parents g') <->
                  In q (g_parents g)
                  /\ (q = pid ->
                      exists s, In s (students st)
                                /\ s_group s = Some gid
                                /\ s_parent s = Some pid)).
Proof. apply removeParent_lists. Qed.

Lemma removeParentFromGroupIfUnused_spec_witness :
  exists g',
    Group_findById 1%N
      (removeParentFromGroupIfUnused (Some 1%N) (Some 22%N)
         (Student_save_group 12%N None Campus.campus)) = Some g'
    /\ g_students g' = [11%N; 12%N].
Proof.
  destruct (@removeParentFromGroupIfUnused_spec 1%N 22%N
              (Student_save_group 12%N None Campus.campus) Campus.GA eq_refl)
    as [g' [F [Hs _]]].
  exists g'. split; [exact F|]. rewrite Hs. reflexivity.
Defined.

(** ** The invariants under a deletion *)

Section DeletingKeeps.

Lemma mem_pull (x y : ObjectId) (l : list ObjectId) :
  x <> y -> mem x l = true -> mem x (pull y l) = true.
Proof.
  intros Hne H. apply mem_In. apply In_pull. split; [|exact Hne].
  now apply mem_In.
Qed.

Lemma invariant_checks (st : Store) (s : Student) :
  invariant1 st = true -> invariant2 st = true -> In s (students st) ->
  group_lists_student st s = true
  /\ parent_lists_student st s = true
  /\ group_lists_parent st s = true.
Proof.
  intros I1 I2 Hin. unfold invariant1, invariant2 in *.
  pose proof (proj1 (forallb_forall _ _) I1 s Hin) as H1.
  pose proof (proj1 (forallb_forall _ _) I2 s Hin) as H2.
  apply andb_true_iff in H2. now destruct H2.
Qed.

Lemma invariants_from_checks (st st' : Store) :
  invariant1 st = true -> invariant2 st = true ->
  (forall s, In s (students st') ->
     In s (students st)
     /\ (group_lists_student st s = true -> group_lists_student st' s = true)
     /\ (parent_lists_student st s = true ->
         parent_lists_student st' s = true)
     /\ (group_lists_parent st s = true -> group_lists_parent st' s = true)) ->
  invariant1 st' = true /\ invariant2 st' = true.
Proof.
  intros I1 I2 H. unfold invariant1, invariant2.
  split; apply forallb_forall; intros s Hin;
    destruct (H s Hin) as [Hin0 [K1 [K2 K3]]];
    destruct (@invariant_checks st s I1 I2 Hin0) as [C1 [C2 C3]].
  - now apply K1.
  - now rewrite (K2 C2), (K3 C3).
Qed.

Lemma delete_student_invariants (role : Role) (id : ObjectId) (st : Store) :
  invariant1 st = true -> invariant2 st = true ->
  invariant1 (snd (delete_student role id st)) = true
  /\ invariant2 (snd (delete_student role id st)) = true.
Proof.
  intros I1 I2.
  destruct (delete_student_any role id st) as [->|[doc [F ->]]];
    [now split|].
  destruct (@delete_student_effect id st doc F) as [_ [Hs [_ [Hg Hp]]]].
  apply (@invariants_from_checks st _ I1 I2). intros s Hin.
  rewrite Hs in Hin. apply filter_In in Hin. destruct Hin as [Hin Hne].
  apply negb_true_iff, N.eqb_neq in Hne.
  split; [exact Hin|].
  unfold group_lists_student, parent_lists_student, group_lists_parent.
  split; [|split].
  - destruct (s_group s) as [gid|]; [|trivial].
    rewrite Hg. destruct (Group_findById gid st) as [g|]; [|trivial].
    cbn [option_map]. destruct (opt_id_eqb _ _); [|trivial].
    simpl. now apply mem_pull.
  - destruct (s_parent s) as [q|]; [|trivial].
    rewrite Hp. destruct (Parent_findById q st) as [p|]; [|trivial].
    intros Hm. destruct (opt_id_eqb _ _); [|exact Hm].
    pose proof (@mem_pull (s_id s) id (p_students p) Hne Hm) as Hm'.
    destruct (pull id (p_students p)) as [|z r] eqn:E; [discriminate|].
    cbn [is_nil]. exact Hm'.
  - destruct (s_parent s) as [q|]; [|trivial].
    destruct (s_group s) as [gid|]; [|trivial].
    rewrite Hg. destruct (Group_findById gid st) as [g|]; [|trivial].
    cbn [option_map]. now destruct (opt_id_eqb _ _).
Qed.

Lemma delete_group_invariants (role : Role) (id : ObjectId) (st : Store) :
  invariant1 st = true -> invariant2 st = true ->
  invariant1 (snd (delete_group role id st)) = true
  /\ invariant2 (snd (delete_group role id st)) = true.
Proof.
  intros I1 I2.
  assert (Hcase : snd (delete_group role id st) = st
                  \/ exists g, Group_findById id st = Some g
                               /\ role = role_admin).
  { unfold delete_group. destruct (is_admin role) eqn:Ha; [|now left].
    cbn [negb]. destruct (Group_findById id st) as [g|]; [|now left].
    right. exists g. split; [reflexivity|]. now destruct role. }
  destruct Hcase as [->|[g [F ->]]]; [now split|].
  destruct (@delete_group_effect id st g F) as [_ [_ [Hg [Hs [Hk Hp]]]]].
  apply (@invariants_from_checks st _ I1 I2). intros s Hin.
  pose proof (Hs s Hin) as Hne.
  assert (Hin0 : In s (students st)).
  { unfold delete_group in Hin. cbn [is_admin negb] in Hin.
    rewrite F in Hin. cbn in Hin. now apply filter_In in Hin. }
  split; [exact Hin0|].
  assert (Hp' : forall q,
             Parent_findById q (snd (delete_group role_admin id st))
             = Parent_findById q st)
    by (intros q; unfold Parent_findById; now rewrite Hp).
  unfold group_lists_student, parent_lists_student, group_lists_parent.
  split; [|split].
  - destruct (s_group s) as [gid|]; [|trivial].
    rewrite Hg by congruence. trivial.
  - destruct (s_parent s) as [q|]; [|trivial]. now rewrite Hp'.
  - destruct (s_parent s) as [q|]; [|trivial].
    destruct (s_group s) as [gid|]; [|trivial].
    rewrite Hg by congruence. trivial.
Qed.

End DeletingKeeps.

(** X21.  Deleting a student or a group keeps the two invariants of the
    data model: when every student is on the roster of its group, is
    listed by its parent and has its parent listed by its group, this is
    still so after the request, whoever calls and whatever the answer. *)
Theorem deletions_keep_invariants (role : Role) (id : ObjectId) (st : Store) :
  invariant1 st = true -> invariant2 st = true ->
  (invariant1 (snd (delete_student role id st)) = true
   /\ invariant2 (snd (delete_student role id st)) = true)
  /\ (invariant1 (snd (delete_group role id st)) = true
      /\ invariant2 (snd (delete_group role id st)) = true).
Proof.
  intros I1 I2. split.
  - now apply delete_student_invariants.
  - now apply delete_group_invariants.
Qed.

Lemma deletions_keep_invariants_witness :
  invariant1 (snd (delete_student role_admin 12%N Campus.campus)) = true
  /\ invariant2 (snd (delete_student role_admin 12%N Campus.campus)) = true.
Proof.
  apply (@deletions_keep_invariants role_admin 12%N Campus.campus
           eq_refl eq_refl).
Defined.

(** ** The rosters of the other groups under a bulk update *)

Section OtherRosters.

Variable toLowerCase : jsstring -> jsstring.
Variable id : ObjectId.
Variable requested : list ObjectId.

Lemma kept_Group_update (gid : ObjectId) (f : Group -> Group) (st : Store) :
  (forall g, g_id (f g) = g_id g) ->
  (forall g, gid <> id ->
     filter (fun y => negb (mem y requested)) (g_students (f g))
     = filter (fun y => negb (mem y requested)) (g_students g)) ->
  gview (kept_roster id requested) (Group_update gid f st)
  = gview (kept_roster id requested) st.
Proof.
  intros Hid Hc. unfold gview, Group_update, with_groups. cbn [groups].
  rewrite map_map. apply map_ext. intros g.
  destruct (N.eqb (g_id g) gid) eqn:E; [|reflexivity].
  apply N.eqb_eq in E. unfold kept_roster. rewrite Hid.
  destruct (N.eqb (g_id g) id) eqn:E'; [reflexivity|].
  rewrite Hc; [reflexivity|]. apply N.eqb_neq in E'. congruence.
Qed.

Lemma kept_parents (gid x : ObjectId) (st : Store) :
  gview (kept_roster id requested) (Group_pull_parent gid x st)
  = gview (kept_roster id requested) st
  /\ gview (kept_roster id requested) (Group_add_parent gid x st)
     = gview (kept_roster id requested) st.
Proof. split; now apply kept_Group_update. Qed.

Lemma kept_here (x : ObjectId) (st : Store) :
  gview (kept_roster id requested) (Group_pull_student id x st)
  = gview (kept_roster id requested) st
  /\ gview (kept_roster id requested) (Group_add_student id x st)
     = gview (kept_roster id requested) st.
Proof. split; apply kept_Group_update; trivial; congruence. Qed.

Lemma filter_pull_requested (x : ObjectId) (l : list ObjectId) :
  In x requested ->
  filter (fun y => negb (mem y requested)) (pull x l)
  = filter (fun y => negb (mem y requested)) l.
Proof.
  intros Hx. unfold pull. rewrite filter_filter.
  apply filter_ext. intros y.
  destruct (N.eqb y x) eqn:E; [|reflexivity].
  apply N.eqb_eq in E. subst y.
  now rewrite (proj2 (mem_In _ _) Hx).
Qed.

Lemma kept_pull_requested (gid x : ObjectId) (st : Store) :
  In x requested ->
  gview (kept_roster id requested) (Group_pull_student gid x st)
  = gview (kept_roster id requested) st.
Proof.
  intros Hx. apply kept_Group_update; [reflexivity|].
  intros g _. simpl. now apply filter_pull_requested.
Qed.

Lemma kept_removeParent (go po : option ObjectId) (st : Store) :
  gview (kept_roster id requested) (removeParentFromGroupIfUnused go po st)
  = gview (kept_roster id requested) st.
Proof.
  unfold removeParentFromGroupIfUnused. destruct go, po; try reflexivity.
  destruct (Nat.eqb _ 0); [|reflexivity]. apply kept_parents.
Qed.

Lemma kept_remove_student (st : Store) (x : ObjectId) :
  gview (kept_roster id requested) (remove_student id st x)
  = gview (kept_roster id requested) st.
Proof.
  unfold remove_student. destruct (Student_findById x st); [|reflexivity].
  rewrite kept_removeParent. now rewrite (proj1 (kept_here _ _)).
Qed.

Lemma kept_detach_student (st : Store) (x : ObjectId) :
  gview (kept_roster id requested) (detach_student id st x)
  = gview (kept_roster id requested) st.
Proof.
  unfold detach_student. destruct (Student_findById x st); [|reflexivity].
  now rewrite kept_removeParent.
Qed.

Lemma kept_assign_student (st : Store) (x : ObjectId) :
  In x requested ->
  gview (kept_roster id requested) (assign_student id st x)
  = gview (kept_roster id requested) st.
Proof.
  intros Hx. unfold assign_student.
  destruct (Student_findById x st) as [doc|] eqn:F; [|reflexivity].
  pose proof (Student_findById_id _ _ F) as Hid.
  set (st1 := if negb _ then _ else st).
  assert (H1 : gview (kept_roster id requested) st1
               = gview (kept_roster id requested) st).
  { unfold st1. destruct (negb _); [|reflexivity].
    destruct (s_group doc) as [prev|]; [|reflexivity].
    change (gview (kept_roster id requested)
              (removeParentFromGroupIfUnused (Some prev) (s_parent doc)
                 (Group_pull_student prev (s_id doc) st))
            = gview (kept_roster id requested) st).
    rewrite kept_removeParent, Hid. now apply kept_pull_requested. }
  assert (H2 : gview (kept_roster id requested)
                 (Group_add_student id (s_id doc) st1)
               = gview (kept_roster id requested) st)
    by (now rewrite (proj2 (kept_here _ _))).
  destruct (s_parent doc); [|exact H2].
  unfold ensureParentInGroup. now rewrite (proj2 (kept_parents _ _ _)).
Qed.

Lemma kept_roster_phase (group : Group) (st : Store) :
  g_id group = id ->
  gview (kept_roster id requested) (roster_phase group requested st)
  = gview (kept_roster id requested) st.
Proof.
  intros Hid. unfold roster_phase, detach_all, replace_roster. rewrite Hid.
  destruct (is_nil requested).
  - apply (fold_left_keeps (gview (kept_roster id requested))).
    apply kept_detach_student.
  - apply (fold_left_invariant
             (fun s => gview (kept_roster id requested) s
                       = gview (kept_roster id requested) st)).
    + intros s x Hx Hs. now rewrite kept_assign_student.
    + apply (fold_left_keeps (gview (kept_roster id requested))).
      apply kept_remove_student.
Qed.

Lemma kept_finish_patch (loaded group : Group) (ids : list ObjectId)
  (st : Store) :
  g_id group = id ->
  gview (kept_roster id requested) (snd (finish_patch loaded group ids st))
  = gview (kept_roster id requested) st.
Proof.
  intros Hid. unfold finish_patch, Group_save.
  destruct (_ || _); [reflexivity|]. cbn [snd]. rewrite Hid.
  rewrite (fold_left_keeps (gview (kept_roster id requested))).
  - apply kept_Group_update; [reflexivity|]. intros g H. now elim H.
  - intros s r. unfold cleanup_parent.
    destruct (_ || _); apply kept_removeParent.
Qed.

Lemma kept_find (gid : ObjectId) (st st' : Store) (g : Group) :
  gid <> id ->
  gview (kept_roster id requested) st' = gview (kept_roster id requested) st ->
  Group_findById gid st = Some g ->
  exists g',
    Group_findById gid st' = Some g'
    /\ forall y, ~ In y requested ->
         (In y (g_students g') <-> In y (g_students g)).
Proof.
  intros Hne Hv F.
  pose proof (find_view
                (fun g => if N.eqb (g_id g) id then None
                          else Some (filter (fun y => negb (mem y requested))
                                            (g_students g))) gid st') as F'.
  pose proof (find_view
                (fun g => if N.eqb (g_id g) id then None
                          else Some (filter (fun y => negb (mem y requested))
                                            (g_students g))) gid st) as F0.
  change (gview _ st') with (gview (kept_roster id requested) st') in F'.
  change (gview _ st) with (gview (kept_roster id requested) st) in F0.
  rewrite Hv, <- F0, F in F'.
  destruct (Group_findById gid st') as [g'|] eqn:E'; [|discriminate].
  exists g'. split; [reflexivity|].
  simpl in F'. injection F' as F1 F2.
  apply Group_findById_id in F, E'.
  assert (N1 : N.eqb (g_id g') id = false) by (apply N.eqb_neq; congruence).
  assert (N2 : N.eqb (g_id g) id = false) by (apply N.eqb_neq; congruence).
  rewrite N1, N2 in F2. injection F2 as F2.
  intros y Hy.
  assert (K : forall l, In y (filter (fun z => negb (mem z requested)) l)
                        <-> In y l).
  { intros l. rewrite filter_In. split; [now intros [H _]|].
    intros H. split; [exact H|]. apply negb_true_iff. now apply mem_false. }
  rewrite <- (K (g_students g')), <- (K (g_students g)). now rewrite F2.
Qed.

End OtherRosters.

Lemma kept_patch_full (toLowerCase : jsstring -> jsstring) (role : Role)
  (id : ObjectId) (body : FullPatch) (st : Store) :
  gview (kept_roster id (requestedStudentIds (fp_studentIds body)))
    (snd (patch_full toLowerCase role id body st))
  = gview (kept_roster id (requestedStudentIds (fp_studentIds body))) st.
Proof.
  unfold patch_full.
  destruct (negb (is_admin role)); [reflexivity|].
  destruct (Group_findById id st) as [loaded|] eqn:Hl; [|reflexivity].
  destruct (negb (roster_valid _ st)); [reflexivity|].
  set (group := assign_fields body loaded).
  set (requested := requestedStudentIds (fp_studentIds body)).
  assert (Hid : g_id group = id).
  { unfold group. rewrite g_id_assign_fields.
    now apply Group_findById_id with st. }
  change (g_id (set_g_students requested group)) with (g_id group).
  destruct (parents_phase_frame toLowerCase body (g_id group)
              (roster_phase group requested st)) as [Hg _].
  assert (Hv : gview (kept_roster id requested)
                 (outcome_store
                    (parents_phase toLowerCase body (g_id group)
                       (roster_phase group requested st)))
               = gview (kept_roster id requested) st).
  { unfold gview in *. rewrite Hg. now apply kept_roster_phase. }
  destruct (parents_phase toLowerCase body _ _) as [ids Z|Z|Z];
    simpl in Hv; cbn [snd]; try exact Hv.
  now rewrite kept_finish_patch.
Qed.

(** X22.  A bulk update of group [id] takes from the roster of another
    group only students named in [studentIds], and adds none: for an id that
    the request does not name, being on the roster of a group other than
    [id] is the same before and after, whoever calls and whatever the
    answer. *)
Theorem patch_full_other_rosters (toLowerCase : jsstring -> jsstring)
  (role : Role) (id : ObjectId) (body : FullPatch) (st : Store)
  (gid : ObjectId) (g : Group) :
  gid <> id ->
  Group_findById gid st = Some g ->
  exists g',
    Group_findById gid (snd (patch_full toLowerCase role id body st))
    = Some g'
    /\ forall y, ~ In (Some y) (fp_studentIds body) ->
         (In y (g_students g') <-> In y (g_students g)).
Proof.
  intros Hne F.
  destruct (@kept_find id (requestedStudentIds (fp_studentIds body)) gid st
              (snd (patch_full toLowerCase role id body st)) g Hne
              (kept_patch_full toLowerCase role id body st) F)
    as [g' [F' K]].
  exists g'. split; [exact F'|].
  intros y Hy. apply K. intros Hin. apply Hy.
  unfold requestedStudentIds in Hin.
  now rewrite In_dedup, In_filter_some in Hin.
Qed.

Lemma patch_full_other_rosters_witness :
  exists g',
    Group_findById 1%N
      (snd (patch_full Example.lowerCase role_admin 2%N
              (Example.roster [Some 12%N; Some 13%N]) Campus.campus))
    = Some g'
    /\ In 11%N (g_students g').
Proof.
  assert (Hne : 1%N <> 2%N) by discriminate.
  assert (F : Group_findById 1%N Campus.campus = Some Campus.GA)
    by reflexivity.
  destruct (@patch_full_other_rosters Example.lowerCase role_admin 2%N
              (Example.roster [Some 12%N; Some 13%N]) Campus.campus 1%N
              Campus.GA Hne F) as [g' [F' K]].
  exists g'. split; [exact F'|].
  apply K.
  - simpl. intros [H|[H|[]]]; discriminate H.
  - simpl. now left.
Defined.

(** ** The invariants under a bulk update *)

Section BulkKeeps.

Variable toLowerCase : jsstring -> jsstring.

Lemma lists_more_resolve_parent (email : jsstring) (np : NameParts)
  (st : Store) (pid : ObjectId) (st' : Store) :
  resolve_parent toLowerCase email np st = Some (pid, st') ->
  lists_more st st'.
Proof.
  unfold resolve_parent.
  destruct (Parent_findOne_email toLowerCase email st) as [doc|].
  - destruct (_ && _); destruct (negb _);
      try (destruct (Parent_save_names _ _ _ st) as [st2|] eqn:E;
           [|discriminate];
           intros H; inversion H; subst;
           apply lists_more_names in E; exact (proj1 E)).
    intros H. inversion H; subst. apply lists_more_refl.
  - destruct (Parent_create toLowerCase _ _ email st) as [[doc st2]|] eqn:E;
      [|discriminate].
    intros H. inversion H; subst.
    apply lists_more_create in E. exact (proj1 E).
Qed.

Lemma lists_more_resolve_parents (payload : list ParentItem) :
  forall (set : list ObjectId) (st : Store),
    lists_more st (outcome_store (resolve_parents toLowerCase payload set st)).
Proof.
  induction payload as [|item rest IH]; intros set st; simpl;
    [apply lists_more_refl|].
  destruct (item_email toLowerCase item) as [email|];
    [|apply lists_more_refl].
  destruct (resolve_parent toLowerCase email _ st) as [[pid st']|] eqn:E;
    [|apply lists_more_refl].
  apply lists_more_trans with st'; [|apply IH].
  now apply lists_more_resolve_parent with email
            (normalizeParentName (pi_name item)) pid.
Qed.

(** the document of a parent that a student names after the request *)
Lemma patch_full_parent_kept (role : Role) (id : ObjectId) (body : FullPatch)
  (st : Store) (s : Student) (pid : ObjectId) (p : Parent) :
  In s (students (snd (patch_full toLowerCase role id body st))) ->
  s_parent s = Some pid ->
  Parent_findById pid st = Some p ->
  exists p',
    Parent_findById pid (snd (patch_full toLowerCase role id body st))
    = Some p'
    /\ incl (p_students p) (p_students p').
Proof.
  unfold patch_full.
  destruct (negb (is_admin role));
    [intros _ _ F; exists p; split; [exact F|apply incl_refl]|].
  destruct (Group_findById id st) as [loaded|];
    [|intros _ _ F; exists p; split; [exact F|apply incl_refl]].
  destruct (negb (roster_valid _ st));
    [intros _ _ F; exists p; split; [exact F|apply incl_refl]|].
  set (group := assign_fields body loaded).
  set (requested := requestedStudentIds (fp_studentIds body)).
  change (g_id (set_g_students requested group)) with (g_id group).
  set (st1 := roster_phase group requested st).
  assert (L : Parent_findById pid st = Some p ->
              exists p',
                Parent_findById pid
                  (outcome_store
                     (parents_phase toLowerCase body (g_id group) st1))
                = Some p'
                /\ incl (p_students p) (p_students p')).
  { intros F.
    assert (F1 : Parent_findById pid st1 = Some p).
    { unfold Parent_findById, st1.
      now rewrite (proj1 (rest_roster_phase group requested st)). }
    unfold parents_phase.
    exact (proj2 (lists_more_resolve_parents (fp_parents body) _ st1)
                 _ _ F1). }
  destruct (parents_phase toLowerCase body (g_id group) st1)
    as [ids Z|Z|Z]; cbn [outcome_store snd] in *;
    try (intros _ _ F; now apply L).
  unfold finish_patch, Group_save.
  destruct (_ || _); cbn [snd]; [intros _ _ F; now apply L|].
  set (Zs := Group_update _ _ Z).
  intros Hin Hp F. destruct (L F) as [p' [F' I]].
  exists p'. split; [|exact I].
  rewrite (fold_left_keeps students) in Hin;
    [|intros s0 r; apply students_cleanup_parent].
  rewrite cleanup_named; [exact F'|].
  now apply named_counts with s.
Qed.

End BulkKeeps.

Lemma patch_full_invariants (toLowerCase : jsstring -> jsstring)
  (role : Role) (id : ObjectId) (body : FullPatch) (st : Store)
  (data : option Group) :
  NoDup (student_ids st) ->
  invariant1 st = true -> invariant2 st = true ->
  fst (patch_full toLowerCase role id body st) = Json 200 data ->
  invariant1 (snd (patch_full toLowerCase role id body st)) = true
  /\ invariant2 (snd (patch_full toLowerCase role id body st)) = true.
Proof.
  intros Hnd I1 I2 H.
  destruct (patch_full_accepted _ _ _ _ _ H)
    as [loaded [ids [Z [g1 [g' [Hl [Hv [Hp [Hs [_ [Hd [Hf [Hro _]]]]]]]]]]]]].
  destruct (patch_full_parents_listed _ _ _ _ _ H)
    as [g'' [_ [Hf' [_ [Hlist' _]]]]].
  rewrite Hf in Hf'. injection Hf' as <-.
  pose proof (Hlist' Hnd) as Hlist. clear Hlist'.
  set (final := snd (patch_full toLowerCase role id body st)) in *.
  set (requested := requestedStudentIds (fp_studentIds body)) in *.
  assert (Hid : g_id (assign_fields body loaded) = id).
  { rewrite g_id_assign_fields. now apply Group_findById_id with st. }
  assert (Hro' : g_students (assign_fields body loaded) = g_students loaded)
    by apply assign_fields_lists.
  set (phi := fun s =>
                if mem (s_id s) requested then set_s_group (Some id) s
                else if mem (s_id s) (g_students loaded)
                     then set_s_group None s else s).
  assert (Hfind : forall y,
             Student_findById y final
             = option_map phi (Student_findById y st)).
  { intros y. rewrite (Student_findById_same y _ _ Hs).
    rewrite roster_phase_find. now rewrite Hid, Hro'. }
  assert (Hnd' : NoDup (student_ids final)).
  { unfold student_ids. rewrite Hs.
    change (NoDup (student_ids
                     (roster_phase (assign_fields body loaded) requested st))).
    now rewrite student_ids_roster_phase. }
  assert (Hsrc : forall s', In s' (students final) ->
             exists s0, In s0 (students st) /\ s' = phi s0).
  { intros s' Hin. pose proof (stored_doc _ _ Hnd' Hin) as F.
    rewrite Hfind in F.
    destruct (Student_findById (s_id s') st) as [s0|] eqn:E; [|discriminate].
    injection F as F. exists s0. split; [|now symmetry].
    apply find_some in E. now destruct E. }
  assert (Hpar' : forall s0, s_parent (phi s0) = s_parent s0).
  { intros s0. unfold phi.
    destruct (mem (s_id s0) requested); [reflexivity|].
    now destruct (mem (s_id s0) (g_students loaded)). }
  assert (Hsid : forall s0, s_id (phi s0) = s_id s0).
  { intros s0. unfold phi.
    destruct (mem (s_id s0) requested); [reflexivity|].
    now destruct (mem (s_id s0) (g_students loaded)). }
  assert (K : forall s', In s' (students final) ->
             group_lists_student final s' = true
             /\ parent_lists_student final s' = true
             /\ group_lists_parent final s' = true).
  { intros s' Hin. destruct (Hsrc s' Hin) as [s0 [Hin0 ->]].
    destruct (@invariant_checks st s0 I1 I2 Hin0) as [C1 [C2 C3]].
    assert (B : parent_lists_student final (phi s0) = true).
    { unfold parent_lists_student in *. rewrite Hpar', Hsid.
      destruct (s_parent s0) as [pid|] eqn:Epar; [|reflexivity].
      destruct (Parent_findById pid st) as [p|] eqn:F; [|discriminate].
      assert (Ep : s_parent (phi s0) = Some pid)
        by (now rewrite Hpar').
      destruct (@patch_full_parent_kept toLowerCase role id body st
                  (phi s0) pid p Hin Ep F) as [p' [F' I]].
      fold final in F'. rewrite F'. now apply mem_incl with (p_students p). }
    split; [|split; [exact B|]].
    - unfold group_lists_student. rewrite Hsid.
      unfold phi.
      destruct (mem (s_id s0) requested) eqn:E1.
      + cbn [s_group set_s_group]. rewrite Hf. now rewrite Hro.
      + destruct (mem (s_id s0) (g_students loaded)) eqn:E2;
          [reflexivity|].
        unfold group_lists_student in C1.
        destruct (s_group s0) as [gid|]; [|reflexivity].
        destruct (Group_findById gid st) as [g|] eqn:F; [|discriminate].
        assert (Hne : gid <> id).
        { intros ->. rewrite Hl in F. injection F as <-. congruence. }
        destruct (@kept_find id requested gid st final g Hne
                    (kept_patch_full toLowerCase role id body st) F)
          as [gf [Ff Kf]].
        rewrite Ff. apply mem_In. apply Kf; [now apply mem_false|].
        now apply mem_In.
    - unfold group_lists_parent. rewrite Hpar'.
      destruct (s_parent s0) as [pid|] eqn:Epar; [|reflexivity].
      unfold phi.
      destruct (mem (s_id s0) requested) eqn:E1.
      + cbn [s_group set_s_group]. rewrite Hf. apply mem_In.
        apply Hlist with (phi s0); [exact Hin| |now rewrite Hpar'].
        unfold phi. now rewrite E1.
      + destruct (mem (s_id s0) (g_students loaded)) eqn:E2;
          [reflexivity|].
        unfold group_lists_student in C1.
        unfold group_lists_parent in C3. rewrite Epar in C3.
        destruct (s_group s0) as [gid|]; [|reflexivity].
        destruct (Group_findById gid st) as [g|] eqn:F; [|discriminate].
        assert (Hne : gid <> id).
        { intros ->. rewrite Hl in F. injection F as <-. congruence. }
        pose proof (@others_find id gid st final Hne
                      (others_patch_full toLowerCase id role body st)) as O.
        rewrite F in O.
        destruct (Group_findById gid final) as [gf|]; [|discriminate].
        simpl in O. injection O as _ _ _ _ _ O. now rewrite O. }
  unfold invariant1, invariant2.
  split; apply forallb_forall; intros s' Hin;
    destruct (K s' Hin) as [K1 [K2 K3]]; [exact K1|].
  now rewrite K2, K3.
Qed.

(** X23.  A bulk update that is answered 200 keeps the two invariants of
    the data model.  When student ids are unique and every student is on
    the roster of its group, is listed by its parent and has its parent
    listed by its group, this is still so after the request: for the
    students moved into the group, for those taken off its roster and for
    everybody else. *)
Theorem patch_full_keeps_invariants (toLowerCase : jsstring -> jsstring)
  (role : Role) (id : ObjectId) (body : FullPatch) (st : Store)
  (data : option Group) :
  NoDup (student_ids st) ->
  invariant1 st = true -> invariant2 st = true ->
  fst (patch_full toLowerCase role id body st) = Json 200 data ->
  invariant1 (snd (patch_full toLowerCase role id body st)) = true
  /\ invariant2 (snd (patch_full toLowerCase role id body st)) = true.
Proof. apply patch_full_invariants. Qed.

Lemma patch_full_keeps_invariants_witness :
  invariant1
    (snd (patch_full Example.lowerCase role_admin 2%N
            (Example.roster [Some 12%N; Some 13%N]) Campus.campus)) = true
  /\ invariant2
       (snd (patch_full Example.lowerCase role_admin 2%N
               (Example.roster [Some 12%N; Some 13%N]) Campus.campus))
     = true.
Proof.
  assert (Hnd : NoDup (student_ids Campus.campus)).
  { repeat constructor; simpl; intuition discriminate. }
  exact (@patch_full_keeps_invariants Example.lowerCase role_admin 2%N
           (Example.roster [Some 12%N; Some 13%N]) Campus.campus _
           Hnd eq_refl eq_refl eq_refl).
Defined.

(** ** An update of a student that fails after the move *)

(** X24.  An update of a student is not all or nothing.  An administrator
    moves a stored student from group [A] to another stored group [B],
    naming no parent, with values the Student schema refuses: the answer
    is 500 and no student or parent document is written, so the student
    still names group [A]; but the rosters were written before the save,
    so [A] no longer lists the student and [B] lists it. *)
Theorem put_student_half_moved (toLowerCase : jsstring -> jsstring)
  (id : ObjectId) (body : StudentBody) (st : Store) (loaded : Student)
  (A B : ObjectId) (ga gb : Group) :
  Student_findById id st = Some loaded ->
  s_group loaded = Some A -> sb_groupId body = Some B -> A <> B ->
  Group_findById A st = Some ga -> Group_findById B st = Some gb ->
  truthy (sb_parentEmail body) = None ->
  truthy (sb_parentName body) = None ->
  Student_valid (assign_person body loaded) = false ->
  status_of (fst (put_student toLowerCase role_admin id body st)) = 500
  /\ students (snd (put_student toLowerCase role_admin id body st))
     = students st
  /\ parents (snd (put_student toLowerCase role_admin id body st))
     = parents st
  /\ Student_findById id (snd (put_student toLowerCase role_admin id body st))
     = Some loaded
  /\ (exists ga',
        Group_findById A (snd (put_student toLowerCase role_admin id body st))
        = Some ga'
        /\ ~ In id (g_students ga'))
  /\ (exists gb',
        Group_findById B (snd (put_student toLowerCase role_admin id body st))
        = Some gb'
        /\ In id (g_students gb')).
Proof.
  intros F HA HB Hne FA FB He Hn Hv.
  pose proof (Student_findById_id _ _ F) as Hid.
  assert (E : put_student toLowerCase role_admin id body st
              = (Fail 500 "error",
                 Group_add_student B id (Group_pull_student A id st))).
  { unfold put_student. cbn [is_admin negb]. rewrite F, HB, HA.
    cbn [opt_id_eqb]. rewrite (proj2 (N.eqb_neq A B) Hne). cbn [negb].
    rewrite FB. change (s_id (assign_person body loaded)) with (s_id loaded).
    rewrite Hid.
    rewrite (@update_parent_nothing toLowerCase body _ _ He Hn).
    unfold Student_save.
    change (Student_valid (set_s_group (Some B) (assign_person body loaded)))
      with (Student_valid (assign_person body loaded)).
    now rewrite Hv. }
  rewrite E. cbn [fst snd status_of].
  split; [reflexivity|]. split; [reflexivity|]. split; [reflexivity|].
  split; [exact F|]. split.
  - exists (set_g_students (pull id (g_students ga)) ga). split.
    + unfold Group_add_student.
      rewrite Group_findById_update_other by (trivial; congruence).
      unfold Group_pull_student. rewrite Group_findById_update by reflexivity.
      now rewrite FA.
    + simpl. intros Hin. apply In_pull in Hin. now destruct Hin.
  - exists (set_g_students (addToSet id (g_students gb)) gb). split.
    + unfold Group_add_student. rewrite Group_findById_update by reflexivity.
      unfold Group_pull_student.
      rewrite Group_findById_update_other by (trivial; congruence).
      now rewrite FB.
    + simpl. apply In_addToSet. now left.
Qed.

Lemma put_student_half_moved_witness :
  status_of
    (fst (put_student Example.lowerCase role_admin 12%N
            (mkStudentBody None None (Some (-1)%Z) (Some 2%N) None None)
            Campus.campus)) = 500
  /\ invariant1
       (snd (put_student Example.lowerCase role_admin 12%N
               (mkStudentBody None None (Some (-1)%Z) (Some 2%N) None None)
               Campus.campus)) = false.
Proof.
  assert (Hne : 1%N <> 2%N) by discriminate.
  destruct (@put_student_half_moved Example.lowerCase 12%N
              (mkStudentBody None None (Some (-1)%Z) (Some 2%N) None None)
              Campus.campus Campus.Jaan 1%N 2%N Campus.GA Campus.GB
              eq_refl eq_refl eq_refl Hne eq_refl eq_refl eq_refl eq_refl
              eq_refl) as [H _].
  split; [exact H|reflexivity].
Defined.

(** ** The rosters under an update of a student *)

Section UpdateKeeps.

Variable toLowerCase : jsstring -> jsstring.

Lemma pull_keeps_others (gid k id y : ObjectId) (st : Store) (g : Group) :
  Group_findById gid st = Some g -> In y (g_students g) -> y <> id ->
  exists g1,
    Group_findById gid (Group_pull_student k id st) = Some g1
    /\ In y (g_students g1).
Proof.
  intros F Hin Hne. unfold Group_pull_student.
  rewrite Group_findById_update_any by reflexivity. rewrite F.
  cbn [option_map]. destruct (N.eqb (g_id g) k).
  - eexists. split; [reflexivity|]. simpl. apply In_pull. now split.
  - now exists g.
Qed.

Lemma add_keeps_all (gid k id y : ObjectId) (st : Store) (g : Group) :
  Group_findById gid st = Some g -> In y (g_students g) ->
  exists g1,
    Group_findById gid (Group_add_student k id st) = Some g1
    /\ In y (g_students g1).
Proof.
  intros F Hin. unfold Group_add_student.
  rewrite Group_findById_update_any by reflexivity. rewrite F.
  cbn [option_map]. destruct (N.eqb (g_id g) k).
  - eexists. split; [reflexivity|]. simpl. apply In_addToSet. now right.
  - now exists g.
Qed.

(** the rosters after the move of the student: the other ids are
    still listed, and the group the document names lists the student *)
Lemma put_student_moved_rosters (id : ObjectId) (body : StudentBody)
  (st : Store) (loaded : Student) :
  Student_findById id st = Some loaded ->
  group_lists_student st loaded = true ->
  match (match sb_groupId body with
         | Some groupId =>
             if negb (opt_id_eqb (s_group loaded) (Some groupId)) then
               match Group_findById groupId st with
               | None => None
               | Some _ =>
                   Some (set_s_group (Some groupId) (assign_person body loaded),
                         Group_add_student groupId
                           (s_id (assign_person body loaded))
                           match s_group loaded with
                           | Some og =>
                               Group_pull_student og
                                 (s_id (assign_person body loaded)) st
                           | None => st
                           end)
               end
             else Some (assign_person body loaded, st)
         | None => Some (assign_person body loaded, st)
         end) with
  | Some (doc1, st1) =>
      (forall gid g y,
          Group_findById gid st = Some g -> In y (g_students g) -> y <> id ->
          exists g1, Group_findById gid st1 = Some g1
                     /\ In y (g_students g1))
      /\ (forall gid, s_group doc1 = Some gid ->
            exists g1, Group_findById gid st1 = Some g1
                       /\ In id (g_students g1))
  | None => True
  end.
Proof.
  intros F C. pose proof (Student_findById_id _ _ F) as Hid.
  assert (Same : (forall gid g y,
                     Group_findById gid st = Some g -> In y (g_students g) ->
                     y <> id ->
                     exists g1, Group_findById gid st = Some g1
                                /\ In y (g_students g1))
                 /\ (forall gid, s_group (assign_person body loaded) = Some gid ->
                       exists g1, Group_findById gid st = Some g1
                                  /\ In id (g_students g1))).
  { split.
    - intros gid g y Fg Hin _. now exists g.
    - intros gid Hg. change (s_group (assign_person body loaded))
        with (s_group loaded) in Hg.
      unfold group_lists_student in C. rewrite Hg in C.
      destruct (Group_findById gid st) as [g|]; [|discriminate].
      exists g. split; [reflexivity|]. rewrite Hid in C. now apply mem_In. }
  destruct (sb_groupId body) as [groupId|]; [|exact Same].
  destruct (negb _); [|exact Same].
  destruct (Group_findById groupId st) as [gb|] eqn:FB; [|exact I].
  change (s_id (assign_person body loaded)) with (s_id loaded).
  rewrite Hid. split.
  - intros gid g y Fg Hin Hne.
    destruct (s_group loaded) as [og|].
    + destruct (@pull_keeps_others gid og id y st g Fg Hin Hne)
        as [g0 [F0 I0]].
      now apply add_keeps_all with g0.
    + now apply add_keeps_all with g.
  - intros gid Hg. cbn [s_group set_s_group] in Hg. injection Hg as <-.
    unfold Group_add_student.
    rewrite Group_findById_update by reflexivity.
    assert (F0 : exists g0,
               Group_findById groupId
                 match s_group loaded with
                 | Some og => Group_pull_student og id st
                 | None => st
                 end = Some g0).
    { destruct (s_group loaded) as [og|]; [|now exists gb].
      unfold Group_pull_student.
      rewrite Group_findById_update_any by reflexivity. rewrite FB.
      now eexists. }
    destruct F0 as [g0 ->]. cbn [option_map]. eexists.
    split; [reflexivity|]. simpl. apply In_addToSet. now left.
Qed.

Lemma rosters_ensure' (go po : option ObjectId) (st : Store) :
  gview (fun g => (g_id g, g_students g)) (ensureParentInGroup' go po st)
  = gview (fun g => (g_id g, g_students g)) st.
Proof.
  destruct go, po; try reflexivity. simpl. unfold Group_add_parent.
  now apply gview_Group_update.
Qed.

Lemma rosters_removeParent (go po : option ObjectId) (st : Store) :
  gview (fun g => (g_id g, g_students g))
        (removeParentFromGroupIfUnused go po st)
  = gview (fun g => (g_id g, g_students g)) st.
Proof. now apply gview_removeParent. Qed.

Lemma rosters_settle_groups (doc : Student) (og op : option ObjectId)
  (st : Store) :
  gview (fun g => (g_id g, g_students g)) (settle_groups doc og op st)
  = gview (fun g => (g_id g, g_students g)) st.
Proof.
  unfold settle_groups.
  set (st1 := match s_parent doc with
              | Some pid => ensureParentInGroup' (s_group doc) (Some pid) st
              | None => st
              end).
  assert (H1 : gview (fun g => (g_id g, g_students g)) st1
               = gview (fun g => (g_id g, g_students g)) st)
    by (unfold st1; destruct (s_parent doc);
        [apply rosters_ensure'|reflexivity]).
  set (st2 := match og with
              | Some g => _
              | None => st1
              end).
  assert (H2 : gview (fun g => (g_id g, g_students g)) st2
               = gview (fun g => (g_id g, g_students g)) st).
  { unfold st2. destruct og as [g|]; [|exact H1].
    destruct (negb _); [|exact H1]. now rewrite rosters_removeParent. }
  destruct op as [o|]; [|exact H2].
  destruct (negb _); [|exact H2].
  destruct (match s_group doc with Some g => Some g | None => og end);
    [|exact H2].
  now rewrite rosters_removeParent.
Qed.

Lemma roster_find (gid : ObjectId) (st st' : Store) (g : Group) :
  gview (fun g => (g_id g, g_students g)) st'
  = gview (fun g => (g_id g, g_students g)) st ->
  Group_findById gid st = Some g ->
  exists g', Group_findById gid st' = Some g'
             /\ g_students g' = g_students g.
Proof.
  intros Hv F.
  pose proof (find_view g_students gid st') as F'.
  pose proof (find_view g_students gid st) as F0.
  rewrite Hv, <- F0, F in F'.
  destruct (Group_findById gid st') as [g'|]; [|discriminate].
  exists g'. split; [reflexivity|]. simpl in F'. now injection F' as _ F'.
Qed.

Lemma put_student_invariant1 (role : Role) (id : ObjectId)
  (body : StudentBody) (st : Store) (data : option Student) :
  invariant1 st = true ->
  fst (put_student toLowerCase role id body st) = Json 200 data ->
  invariant1 (snd (put_student toLowerCase role id body st)) = true.
Proof.
  intros I1. unfold put_student.
  destruct (negb (is_admin role)); [discriminate|].
  destruct (Student_findById id st) as [loaded|] eqn:F; [|discriminate].
  assert (Hl : In loaded (students st)).
  { apply find_some in F. now destruct F. }
  assert (C : group_lists_student st loaded = true).
  { unfold invariant1 in I1.
    exact (proj1 (forallb_forall _ _) I1 loaded Hl). }
  pose proof (@put_student_moved id body st loaded F) as HM.
  pose proof (@put_student_moved_rosters id body st loaded F C) as HR.
  match goal with
  | |- context [match ?m with Some _ => _ | None => (Fail 404 _, st) end] =>
      destruct m as [[doc1 st1]|]
  end; [|discriminate].
  destruct HM as [Hid Hs1]. destruct HR as [M2 M3].
  pose proof (update_parent_frame toLowerCase body doc1 st1) as HU.
  destruct (update_parent toLowerCase body doc1 st1) as [doc2 st2|st2];
    [|discriminate].
  destruct HU as [Hi2 [Hg2 [Hgs2 Hs2]]].
  destruct (Student_save doc2 st2) as [st3|] eqn:Sv; [|discriminate].
  intros _. cbn [snd].
  unfold Student_save in Sv.
  destruct (Student_valid doc2); [|discriminate].
  destruct (Student_findById (s_id doc2) st2); [|discriminate].
  injection Sv as <-.
  set (st3 := Student_update (s_id doc2) (fun _ => doc2) st2).
  set (st4 := settle_groups doc2 (s_group loaded) (s_parent loaded) st3).
  assert (V : forall gid g1,
             Group_findById gid st1 = Some g1 ->
             exists g4, Group_findById gid st4 = Some g4
                        /\ g_students g4 = g_students g1).
  { intros gid g1 F1. apply roster_find with st1; [|exact F1].
    unfold st4. rewrite rosters_settle_groups.
    unfold gview, st3, Student_update, with_students. cbn [groups].
    now rewrite Hgs2. }
  unfold invariant1. apply forallb_forall. intros s' Hin.
  unfold st4 in Hin. rewrite students_settle_groups in Hin.
  unfold st3, Student_update, with_students in Hin. cbn [students] in Hin.
  apply in_map_iff in Hin. destruct Hin as [s0 [E Hin]].
  rewrite Hs2, Hs1 in Hin. rewrite Hi2, Hid in E.
  destruct (N.eqb (s_id s0) id) eqn:Eid; subst s'.
  - unfold group_lists_student. rewrite Hg2, Hi2, Hid.
    destruct (s_group doc1) as [gid|] eqn:Eg; [|reflexivity].
    destruct (M3 gid eq_refl) as [g1 [F1 I]].
    destruct (V gid g1 F1) as [g4 [F4 R]].
    rewrite F4, R. now apply mem_In.
  - apply N.eqb_neq in Eid.
    pose proof (proj1 (forallb_forall _ _) I1 s0 Hin) as C0.
    unfold group_lists_student in *.
    destruct (s_group s0) as [gid|]; [|reflexivity].
    destruct (Group_findById gid st) as [g|] eqn:Fg; [|discriminate].
    apply mem_In in C0.
    destruct (M2 gid g (s_id s0) Fg C0 Eid) as [g1 [F1 I]].
    destruct (V gid g1 F1) as [g4 [F4 R]].
    rewrite F4, R. now apply mem_In.
Qed.

End UpdateKeeps.

(** X25.  An update of a student that is answered 200 keeps invariant 1
    of the data model: when every student is on the roster of the group
    it names, this is still so after the request, for the updated student
    and for everybody else, whether or not the student changes group. *)
Theorem put_student_keeps_invariant1 (toLowerCase : jsstring -> jsstring)
  (role : Role) (id : ObjectId) (body : StudentBody) (st : Store)
  (data : option Student) :
  invariant1 st = true ->
  fst (put_student toLowerCase role id body st) = Json 200 data ->
  invariant1 (snd (put_student toLowerCase role id body st)) = true.
Proof. apply put_student_invariant1. Qed.

Lemma put_student_keeps_invariant1_witness :
  invariant1
    (snd (put_student Example.lowerCase role_admin 12%N
            (Campus.to_group 2%N) Campus.campus)) = true.
Proof.
  exact (@put_student_keeps_invariant1 Example.lowerCase role_admin 12%N
           (Campus.to_group 2%N) Campus.campus _ eq_refl eq_refl).
Defined.
